(** * Pool-risk service: a shallow embedding of its scoring and orchestration core

    The development follows the Python sources of the repository:
    - [pool_risk_service/utils.py]                    (module [Paginator])
    - [pool_risk_service/tools/concentration_risk.py] (module [Concentration])
    - [pool_risk_service/tools/liquidity_depth_risk.py] (module [LiquidityDepth])
    - [pool_risk_service/tools/market_risk.py]        (module [MarketRisk])
    - [pool_risk_service/tools/behavioral_risk.py]    (module [Behavioral])
    - [pool_risk_service/tools/risk_scorer.py]        (module [RiskScorer])
    - [pool_risk_service/workflows/rag/plan_execute.py] (module [PlanExecute])
    - [backend/workflows/rag/nodes.py]                (module [Orchestrator])

    Python floats are modelled by exact rationals ([Q]); Python dict literals
    by association lists in source order (a Python dict is ordered), lookup
    tables by [gmap]; network, clock and oracle effects by explicit state
    passing over an event trace. *)

From Stdlib Require Import QArith Qround Qabs Lqa Lia ZArith.
From Stdlib Require Import Ascii OrderedTypeEx Sorting.Sorted.
From stdpp Require Import gmap strings list fin_maps sorting.

Local Open Scope string_scope.
Local Open Scope list_scope.
#[local] Set Warnings "-register-all".

(** ** Python values *)

Module Py.

(** JSON-shaped values, as the dicts of the program hold them. *)
Inductive json : Type :=
| JNull
| JBool (b : bool)
| JNum (q : Q)
| JStr (s : string)
| JArr (l : list json)
| JObj (kv : list (string * json)).

(** A Python dict with string keys, in insertion order (a key bound twice
    stands for its first binding). *)
Abbreviation dict := (list (string * json)).

(** [d.get(k)]: the first binding of [k]. *)
Fixpoint get (d : dict) (k : string) : option json :=
  match d with
  | [] => None
  | (k', v) :: d' => if String.eqb k' k then Some v else get d' k
  end.

(** [d.get(k, default)]. *)
Definition get_or (d : dict) (k : string) (default : json) : json :=
  match get d k with Some v => v | None => default end.

(** [k in d]. *)
Definition has_key (d : dict) (k : string) : bool :=
  match get d k with Some _ => true | None => false end.

Definition Qnonzero (q : Q) : bool := negb (Qeq_bool q 0).

(** Python truthiness, [bool(v)]. *)
Definition truthy (v : json) : bool :=
  match v with
  | JNull => false
  | JBool b => b
  | JNum q => Qnonzero q
  | JStr s => negb (String.eqb s "")
  | JArr l => match l with [] => false | _ => true end
  | JObj kv => match kv with [] => false | _ => true end
  end.

(** The number a value stands for in arithmetic ([True] is 1, [False] is 0);
    [None] when arithmetic on it raises [TypeError]. *)
Definition as_num (v : json) : option Q :=
  match v with
  | JNum q => Some q
  | JBool true => Some 1%Q
  | JBool false => Some 0%Q
  | _ => None
  end.

(** A list of strings as a value. *)
Definition strs (l : list string) : json := JArr (map JStr l).

(** [round(x)] on a float: to the nearest integer, ties to the even one. *)
Definition round (x : Q) : Z :=
  let f := Qfloor x in
  match Qcompare (x - inject_Z f) (1 # 2) with
  | Lt => f
  | Gt => (f + 1)%Z
  | Eq => if Z.even f then f else (f + 1)%Z
  end.

(** [round(x, n)]: to [n] decimals. *)
Definition round_to (x : Q) (n : nat) : Q :=
  (inject_Z (round (x * inject_Z (10 ^ Z.of_nat n))) / inject_Z (10 ^ Z.of_nat n))%Q.

(** [int(x)] on a float: towards zero. *)
Definition int (x : Q) : Z :=
  if Qle_bool 0 x then Qfloor x else Qceiling x.

(** [sum(values)] over floats. *)
Definition sum (l : list Q) : Q := foldr Qplus 0%Q l.

(** [x < y] and [x > y] on floats. *)
Definition Qltb (x y : Q) : bool := negb (Qle_bool y x).
Definition Qgtb (x y : Q) : bool := negb (Qle_bool x y).

Definition Qmin (x y : Q) : Q := if Qle_bool x y then x else y.
Definition Qmax (x y : Q) : Q := if Qle_bool x y then y else x.

Definition of_nat (n : nat) : Q := inject_Z (Z.of_nat n).

(** [sorted(l, key=...)]: a stable sort, [leb] comparing the keys. *)
Fixpoint insert_by {A : Type} (leb : A -> A -> bool) (x : A) (l : list A) : list A :=
  match l with
  | [] => [x]
  | y :: l' => if leb x y then x :: y :: l' else y :: insert_by leb x l'
  end.

Definition sort_by {A : Type} (leb : A -> A -> bool) (l : list A) : list A :=
  foldr (insert_by leb) [] l.

(** A [defaultdict(list)] in insertion order: [d[k].append(v)]. *)
Fixpoint dd_append {V : Type} (k : string) (v : V) (d : list (string * list V))
  : list (string * list V) :=
  match d with
  | [] => [(k, [v])]
  | (k', vs) :: d' =>
      if String.eqb k' k then (k', vs ++ [v]) :: d'
      else (k', vs) :: dd_append k v d'
  end.

(** [d.get(k, [])] on such a dict. *)
Fixpoint dd_get {V : Type} (d : list (string * list V)) (k : string) : list V :=
  match d with
  | [] => []
  | (k', vs) :: d' => if String.eqb k' k then vs else dd_get d' k
  end.

(** [s in l] for strings. *)
Definition mem (s : string) (l : list string) : bool :=
  existsb (String.eqb s) l.

End Py.

(** ** [utils.py]: GraphPaginator *)

Module Paginator.
Import Py.

(** [config["pagination"]]. *)
Record config : Type := {
  batch_size : Z;
  rate_limit_delay : Q;
  max_retries : Z;
  retry_delay : Q
}.

(** An entity of a GraphQL response: its [id] and its other fields. *)
Record entity : Type := {
  ent_id : string;
  ent_fields : dict
}.

(** The JSON body of a response: the ["errors"] key when present, and
    under ["data"] the entities of each collection. *)
Record body : Type := {
  errors : option (list string);
  data : list (string * list entity)
}.

(** What [requests.post] gives: a transport failure (a
    [RequestException] such as a timeout or a refused connection), or a
    response with its status and the body [response.json()] decodes. *)
Inductive post_outcome : Type :=
| Failed (msg : string)
| Response (status : Z) (b : body).

(** [json={"query": query, "variables": variables}]. *)
Record request : Type := {
  query : string;
  variables : gmap string json
}.

Inductive event : Type :=
| EvPost (r : request) (o : post_outcome)
| EvSleep (seconds : Q).

(** The exceptions the paginator raises. *)
Inductive exn : Type :=
| QueryFailed (retries : Z) (msg : string)
| GraphQLErrors (errs : list string)
| UnexpectedRetry.

Inductive result (A : Type) : Type :=
| Ok (a : A)
| Raise (e : exn).
Arguments Ok {A} a.
Arguments Raise {A} e.

(** What a [try] body raised: a [requests.exceptions.RequestException]
    (the only class the handler names) or any other exception. *)
Inductive raised : Type :=
| RequestException (msg : string)
| Other (e : exn).

(** [response.raise_for_status()]: an [HTTPError] for 4xx and 5xx. *)
Definition raise_for_status (status : Z) : option string :=
  if ((400 <=? status) && (status <? 600))%Z then Some "HTTPError" else None.

(** The body of the [try] of [_execute_with_retry], on what the post gave. *)
Definition attempt_body (o : post_outcome) : body + raised :=
  match o with
  | Failed msg => inr (RequestException msg)
  | Response status b =>
      match raise_for_status status with
      | Some msg => inr (RequestException msg)
      | None =>
          match errors b with
          | Some errs => inr (Other (GraphQLErrors errs))
          | None => inl b
          end
      end
  end.

Section WithNetwork.
(** The endpoint: a state and what it answers to a request. *)
Context {St : Type} (post : St → request → post_outcome * St).
Variable cfg : config.

Record world : Type := {
  server : St;
  trace : list event
}.

Definition do_post (r : request) (w : world) : post_outcome * world :=
  let '(o, s) := post (server w) r in
  (o, {| server := s; trace := trace w ++ [EvPost r o] |}).

Definition sleep (seconds : Q) (w : world) : world :=
  {| server := server w; trace := trace w ++ [EvSleep seconds] |}.

(** [for attempt in range(self.max_retries)], [n] iterations left. *)
Fixpoint retry_loop (n : nat) (attempt : Z) (r : request) (w : world)
  : result body * world :=
  match n with
  | O => (Raise UnexpectedRetry, w)
  | S n' =>
      let '(o, w1) := do_post r w in
      match attempt_body o with
      | inl b => (Ok b, w1)
      | inr (RequestException msg) =>
          if (attempt =? max_retries cfg - 1)%Z
          then (Raise (QueryFailed (max_retries cfg) msg), w1)
          else retry_loop n' (attempt + 1)%Z r
                 (sleep (retry_delay cfg * inject_Z (attempt + 1)) w1)
      | inr (Other e) => (Raise e, w1)
      end
  end.

Definition _execute_with_retry (q : string) (vars : gmap string json)
    (w : world) : result body * world :=
  retry_loop (Z.to_nat (max_retries cfg)) 0%Z
    {| query := q; variables := vars |} w.

(** [response_data.get("data", {}).get(entity_name, [])]. *)
Fixpoint entities_of (d : list (string * list entity)) (entity_name : string)
  : list entity :=
  match d with
  | [] => []
  | (k, es) :: d' => if String.eqb k entity_name then es else entities_of d' entity_name
  end.

(** The [while True] loop of [fetch_all]; [None] when [fuel] runs out. *)
Fixpoint fetch_loop (fuel : nat) (q : string) (vars : gmap string json)
    (entity_name : string) (all_entities : list entity) (last_id : string)
    (w : world) : option (result (list entity) * world) :=
  match fuel with
  | O => None
  | S fuel' =>
      let batch_vars :=
        <["batch_size" := JNum (inject_Z (batch_size cfg))]>
          (<["last_id" := JStr last_id]> vars) in
      match _execute_with_retry q batch_vars w with
      | (Raise e, w1) => Some (Raise e, w1)
      | (Ok response_data, w1) =>
          let entities := entities_of (data response_data) entity_name in
          match last entities with
          | None => (* [if not entities: break] *)
              Some (Ok all_entities, w1)
          | Some e => (* [e] is [entities[-1]] *)
              let all_entities' := all_entities ++ entities in
              if (Z.of_nat (length entities) <? batch_size cfg)%Z
              then Some (Ok all_entities', w1)
              else fetch_loop fuel' q vars entity_name all_entities' (ent_id e)
                     (sleep (rate_limit_delay cfg) w1)
          end
      end
  end.

Definition fetch_all (fuel : nat) (q : string) (vars : gmap string json)
    (entity_name : string) (w : world) : option (result (list entity) * world) :=
  fetch_loop fuel q vars entity_name [] "" w.

End WithNetwork.

(** The pages a run received for [entity_name], in order. *)
Fixpoint pages_of (entity_name : string) (t : list event) : list (list entity) :=
  match t with
  | [] => []
  | EvPost _ (Response _ b) :: t' =>
      entities_of (data b) entity_name :: pages_of entity_name t'
  | _ :: t' => pages_of entity_name t'
  end.

(** The outcomes of the posts of a run, in order. *)
Fixpoint posts (t : list event) : list post_outcome :=
  match t with
  | [] => []
  | EvPost _ o :: t' => o :: posts t'
  | _ :: t' => posts t'
  end.

(** The sleeps of a run, in order. *)
Fixpoint sleeps (t : list event) : list Q :=
  match t with
  | [] => []
  | EvSleep s :: t' => s :: sleeps t'
  | _ :: t' => sleeps t'
  end.

(** *** Two endpoints *)

(** An indexer holding [db], sorted by id: it answers a query with the
    first records whose id is greater than [last_id]
    ([first: $batch_size, where: {id_gt: $last_id}, orderBy: id]), at most
    [batch_size] of them and at most [limit last_id], the number it is
    willing to serve for that query. *)
Definition paged_server (collection : string) (limit : string -> nat)
    (db : list entity) (_ : unit) (r : request) : post_outcome * unit :=
  let last_id :=
    match variables r !! "last_id" with Some (JStr s) => s | _ => "" end in
  let first :=
    match variables r !! "batch_size" with
    | Some (JNum n) => Z.to_nat (Qfloor n)
    | _ => O
    end in
  let page :=
    take (Nat.min first (limit last_id))
      (filter (fun e => String.ltb last_id (ent_id e) = true) db) in
  (Response 200 {| errors := None; data := [(collection, page)] |}, tt).

(** An endpoint that plays a fixed script of outcomes, one per post, and
    refuses the connection when the script is over. *)
Definition scripted_server (script : list post_outcome) (r : request)
    : post_outcome * list post_outcome :=
  match script with
  | [] => (Failed "ConnectionError", [])
  | o :: script' => (o, script')
  end.

End Paginator.

(** ** [tools/concentration_risk.py]: ConcentrationRiskAnalyzer *)

Module Concentration.
Import Py.

(** [config["risk_thresholds"]["concentration"]]. *)
Record thresholds : Type := {
  top10_dominance_critical_pct : Q;
  top10_dominance_high_risk_pct : Q;
  gini_critical : Q;
  gini_high_risk : Q;
  hhi_critical : Q;
  hhi_high_risk : Q
}.

(** [config["queries"]["lp_age_thresholds_days"]]. *)
Record lp_age_thresholds_days : Type := {
  mercenary : Q;
  long_term : Q
}.

Record config : Type := {
  risk_thresholds : thresholds;
  age_thresholds : lp_age_thresholds_days
}.

(** A fetched position: [float(p["liquidity"])] and
    [int(p["transaction"]["timestamp"])]. *)
Record position : Type := {
  liquidity : Q;
  timestamp : Z
}.

(** [np.sort(values)]. *)
Definition np_sort (values : list Q) : list Q := sort_by Qle_bool values.

(** [np.arange(a, a + n)]. *)
Fixpoint np_arange (a : Z) (n : nat) : list Q :=
  match n with
  | O => []
  | S n' => inject_Z a :: np_arange (a + 1) n'
  end.

(** [np.cumsum(values)], the running sums from [acc]. *)
Fixpoint np_cumsum (acc : Q) (values : list Q) : list Q :=
  match values with
  | [] => []
  | x :: values' => (acc + x)%Q :: np_cumsum (acc + x)%Q values'
  end.

Definition _calculate_gini (values : list Q) : Q :=
  match values with
  | [] => 0%Q
  | _ =>
      let sorted_values := np_sort values in
      let n := of_nat (length sorted_values) in
      let cumsum := np_cumsum 0 sorted_values in
      ((2 * sum (zip_with Qmult (np_arange 1 (length sorted_values)) sorted_values))
         / (n * List.last cumsum 0)
       - (n + 1) / n)%Q
  end.

Definition _calculate_hhi (values : list Q) (total : Q) : Q :=
  if Qeq_bool total 0 then 0%Q
  else
    let market_shares := map (fun v => (v / total * 100)%Q) values in
    sum (map (fun share => (share * share)%Q) market_shares).

Definition _calculate_top_n_dominance (values : list Q) (total : Q) (n : nat) : Q :=
  if Qeq_bool total 0 then 0%Q
  else
    let sorted_values := sort_by (fun a b => Qle_bool b a) values in
    let top_n_sum := sum (take n sorted_values) in
    (top_n_sum / total * 100)%Q.

Record age_bucket : Type := {
  count : nat;
  liquidity_pct : Q
}.

Record age_distribution : Type := {
  dist_mercenary : age_bucket;
  dist_medium_term : age_bucket;
  dist_long_term : age_bucket
}.

(** The counters of the loop of [_calculate_lp_age_distribution]. *)
Record age_acc : Type := {
  mercenary_count : nat; medium_count : nat; long_term_count : nat;
  mercenary_liquidity : Q; medium_liquidity : Q; long_term_liquidity : Q
}.

Definition age_step (cfg : config) (current_time : Z) (a : age_acc) (pos : position)
  : age_acc :=
  let mercenary_threshold := (mercenary (age_thresholds cfg) * 86400)%Q in
  let long_term_threshold := (long_term (age_thresholds cfg) * 86400)%Q in
  let age_seconds := inject_Z (current_time - timestamp pos) in
  if Qltb age_seconds mercenary_threshold then
    {| mercenary_count := S (mercenary_count a); medium_count := medium_count a;
       long_term_count := long_term_count a;
       mercenary_liquidity := (mercenary_liquidity a + liquidity pos)%Q;
       medium_liquidity := medium_liquidity a;
       long_term_liquidity := long_term_liquidity a |}
  else if Qltb age_seconds long_term_threshold then
    {| mercenary_count := mercenary_count a; medium_count := S (medium_count a);
       long_term_count := long_term_count a;
       mercenary_liquidity := mercenary_liquidity a;
       medium_liquidity := (medium_liquidity a + liquidity pos)%Q;
       long_term_liquidity := long_term_liquidity a |}
  else
    {| mercenary_count := mercenary_count a; medium_count := medium_count a;
       long_term_count := S (long_term_count a);
       mercenary_liquidity := mercenary_liquidity a;
       medium_liquidity := medium_liquidity a;
       long_term_liquidity := (long_term_liquidity a + liquidity pos)%Q |}.

(** [current_time] is [int(time.time())]. *)
Definition _calculate_lp_age_distribution (cfg : config) (current_time : Z)
    (positions : list position) : age_distribution :=
  let a := fold_left (age_step cfg current_time) positions
             {| mercenary_count := 0; medium_count := 0; long_term_count := 0;
                mercenary_liquidity := 0; medium_liquidity := 0;
                long_term_liquidity := 0 |} in
  let total_liquidity :=
    (mercenary_liquidity a + medium_liquidity a + long_term_liquidity a)%Q in
  let pct (x : Q) : Q :=
    round_to (if Qgtb total_liquidity 0 then (x / total_liquidity * 100)%Q else 0%Q) 2 in
  {| dist_mercenary :=
       {| count := mercenary_count a; liquidity_pct := pct (mercenary_liquidity a) |};
     dist_medium_term :=
       {| count := medium_count a; liquidity_pct := pct (medium_liquidity a) |};
     dist_long_term :=
       {| count := long_term_count a; liquidity_pct := pct (long_term_liquidity a) |} |}.

Definition _generate_risk_flags (cfg : config) (gini hhi top10_dominance : Q)
    (lp_age_dist : age_distribution) : list string :=
  let thresholds := risk_thresholds cfg in
  let flags := [] in
  let flags :=
    if Qgtb top10_dominance (top10_dominance_critical_pct thresholds)
    then flags ++ ["CRITICAL_TOP10_DOMINANCE"]
    else if Qgtb top10_dominance (top10_dominance_high_risk_pct thresholds)
    then flags ++ ["HIGH_TOP10_DOMINANCE"]
    else flags in
  let flags :=
    if Qgtb gini (gini_critical thresholds) then flags ++ ["CRITICAL_GINI"]
    else if Qgtb gini (gini_high_risk thresholds) then flags ++ ["HIGH_GINI"]
    else flags in
  let flags :=
    if Qgtb hhi (hhi_critical thresholds) then flags ++ ["CRITICAL_HHI"]
    else if Qgtb hhi (hhi_high_risk thresholds) then flags ++ ["HIGH_HHI"]
    else flags in
  let flags :=
    if Qgtb (liquidity_pct (dist_mercenary lp_age_dist)) 50
    then flags ++ ["HIGH_MERCENARY_LIQUIDITY"]
    else flags in
  match flags with [] => ["LOW_RISK"] | _ => flags end.

Definition _calculate_risk_score (gini hhi top10_dominance : Q) : Z :=
  let gini_score := (gini * 100)%Q in
  let hhi_score := Qmin (hhi / 10000 * 100)%Q 100 in
  let dominance_score := top10_dominance in
  let composite := ((gini_score + hhi_score + dominance_score) / 3)%Q in
  round composite.

Definition bucket_json (b : age_bucket) : json :=
  JObj [("count", JNum (of_nat (count b))); ("liquidity_pct", JNum (liquidity_pct b))].

Definition age_json (d : age_distribution) : json :=
  JObj [("mercenary", bucket_json (dist_mercenary d));
        ("medium_term", bucket_json (dist_medium_term d));
        ("long_term", bucket_json (dist_long_term d))].

(** [analyze], from the point where [_fetch_positions] has returned
    [positions] (an exception of the fetch leaves [analyze] before any
    result exists). *)
Definition analyze (cfg : config) (current_time : Z) (positions : list position)
  : dict :=
  match positions with
  | [] =>
      [("error", JStr "No positions found for this pool");
       ("gini", JNull);
       ("hhi", JNull);
       ("top10_dominance_pct", JNull);
       ("lp_age_distribution", JNull);
       ("risk_flags", strs ["NO_DATA"])]
  | _ =>
      let liquidity_values := map liquidity positions in
      let total_liquidity := sum liquidity_values in
      let gini := _calculate_gini liquidity_values in
      let hhi := _calculate_hhi liquidity_values total_liquidity in
      let top10_dominance :=
        _calculate_top_n_dominance liquidity_values total_liquidity 10 in
      let lp_age_dist := _calculate_lp_age_distribution cfg current_time positions in
      let risk_flags := _generate_risk_flags cfg gini hhi top10_dominance lp_age_dist in
      [("gini_coefficient", JNum (round_to gini 4));
       ("herfindahl_hirschman_index", JNum (round_to hhi 2));
       ("top10_dominance_pct", JNum (round_to top10_dominance 2));
       ("lp_age_distribution", age_json lp_age_dist);
       ("total_positions", JNum (of_nat (length positions)));
       ("risk_flags", strs risk_flags);
       ("risk_score", JNum (inject_Z (_calculate_risk_score gini hhi top10_dominance)))]
  end.

End Concentration.

(** ** [tools/behavioral_risk.py]: BehavioralRiskAnalyzer *)

Module Behavioral.
Import Py.

(** [config["risk_thresholds"]["behavioral"]]. *)
Record thresholds : Type := {
  wash_trading_critical_pct : Q;
  wash_trading_high_pct : Q;
  mev_exposure_critical_pct : Q;
  mev_exposure_high_pct : Q
}.

(** A fetched swap; [tx_id] and [blockNumber] are the fields of its
    ["transaction"]. *)
Record swap : Type := {
  id : string;
  sender : string;
  recipient : string;
  origin : string;
  tx_id : string;
  blockNumber : string
}.

(** An entry of [suspicious_patterns]. *)
Record pattern : Type := {
  block : string;
  addresses : list string;
  kind : string
}.

(** [swaps_by_block]: the swaps of each block, blocks in order of first
    appearance. *)
Definition group_by_block (swaps : list swap) : list (string * list swap) :=
  fold_left (fun d s => dd_append (blockNumber s) s d) swaps [].

(** [flows]: for each sender of the block, the recipients of its swaps. *)
Definition flows_of (block_swaps : list swap) : list (string * list string) :=
  fold_left (fun d s => dd_append (sender s) (recipient s) d) block_swaps [].

(** [for recipient in recipients: if sender in flows.get(recipient, [])]. *)
Definition scan_recipients (blk : string) (flows : list (string * list string))
    (sndr : string) (acc : list pattern * nat) (recipients : list string)
  : list pattern * nat :=
  fold_left
    (fun '(suspicious_patterns, suspicious_swap_count) rcpt =>
       if mem sndr (dd_get flows rcpt)
       then (suspicious_patterns
               ++ [{| block := blk; addresses := [sndr; rcpt]; kind := "circular" |}],
             suspicious_swap_count + 2)
       else (suspicious_patterns, suspicious_swap_count))
    recipients acc.

(** [for sender, recipients in flows.items()]. *)
Definition scan_flows (blk : string) (flows : list (string * list string))
    (acc : list pattern * nat) : list pattern * nat :=
  fold_left (fun acc '(sndr, recipients) => scan_recipients blk flows sndr acc recipients)
    flows acc.

(** [for block, block_swaps in swaps_by_block.items()]: the patterns and
    [suspicious_swap_count] when the loop ends. *)
Definition scan_blocks (swaps_by_block : list (string * list swap))
  : list pattern * nat :=
  fold_left
    (fun acc '(blk, block_swaps) =>
       if (length block_swaps <? 2)%nat then acc
       else scan_flows blk (flows_of block_swaps) acc)
    swaps_by_block ([], 0).

Definition suspicious_swap_count (swaps : list swap) : nat :=
  snd (scan_blocks (group_by_block swaps)).

Definition _detect_wash_trading (swaps : list swap) : Q * list pattern :=
  let '(suspicious_patterns, count) := scan_blocks (group_by_block swaps) in
  match swaps with
  | [] => (0%Q, [])
  | _ => ((of_nat count / of_nat (length swaps) * 100)%Q, suspicious_patterns)
  end.

(** [for i in range(len(sorted_swaps) - 2)] over consecutive triples. *)
Fixpoint scan_triples (sorted_swaps : list swap) (victims : gset string)
  : gset string :=
  match sorted_swaps with
  | swap_before :: rest =>
      match rest with
      | middle_swap :: swap_after :: _ =>
          scan_triples rest
            (if String.eqb (origin swap_before) (origin swap_after)
                && negb (String.eqb (origin middle_swap) (origin swap_before))
             then {[tx_id middle_swap]} ∪ victims
             else victims)
      | _ => victims
      end
  | [] => victims
  end.

Definition sandwich_scan (swaps_by_block : list (string * list swap)) : gset string :=
  fold_left
    (fun victims '(blk, block_swaps) =>
       if (length block_swaps <? 3)%nat then victims
       else
         let sorted_swaps :=
           sort_by (fun a b => String.leb (id a) (id b)) block_swaps in
         scan_triples sorted_swaps victims)
    swaps_by_block ∅.

Definition _detect_sandwich_attacks (swaps : list swap) : Q * list string :=
  let sandwich_victims := sandwich_scan (group_by_block swaps) in
  match swaps with
  | [] => (0%Q, [])
  | _ => ((of_nat (size sandwich_victims) / of_nat (length swaps) * 100)%Q,
          elements sandwich_victims)
  end.

Definition _generate_risk_flags (th : thresholds) (wash_trading_pct mev_exposure_pct : Q)
  : list string :=
  let flags := [] in
  let flags :=
    if Qgtb wash_trading_pct (wash_trading_critical_pct th)
    then flags ++ ["CRITICAL_WASH_TRADING"]
    else if Qgtb wash_trading_pct (wash_trading_high_pct th)
    then flags ++ ["HIGH_WASH_TRADING"]
    else flags in
  let flags :=
    if Qgtb mev_exposure_pct (mev_exposure_critical_pct th)
    then flags ++ ["CRITICAL_MEV_EXPOSURE"]
    else if Qgtb mev_exposure_pct (mev_exposure_high_pct th)
    then flags ++ ["HIGH_MEV_EXPOSURE"]
    else flags in
  match flags with [] => ["LOW_RISK"] | _ => flags end.

Definition _calculate_risk_score (wash_trading_pct mev_exposure_pct : Q) : Z :=
  let composite := ((wash_trading_pct + mev_exposure_pct) / 2)%Q in
  round (Qmin composite 100).

Definition pattern_json (p : pattern) : json :=
  JObj [("block", JStr (block p)); ("addresses", strs (addresses p));
        ("pattern", JStr (kind p))].

(** [analyze], from the point where [_fetch_recent_swaps] has returned
    [swaps]. *)
Definition analyze (th : thresholds) (swaps : list swap) : dict :=
  match swaps with
  | [] =>
      [("error", JStr "No swap data found for this pool");
       ("wash_trading_pct", JNull);
       ("mev_exposure_pct", JNull);
       ("suspicious_patterns", JArr []);
       ("risk_flags", strs ["NO_DATA"])]
  | _ =>
      let '(wash_trading_pct, wash_patterns) := _detect_wash_trading swaps in
      let '(mev_exposure_pct, sandwich_victims) := _detect_sandwich_attacks swaps in
      let risk_flags := _generate_risk_flags th wash_trading_pct mev_exposure_pct in
      [("wash_trading_pct", JNum (round_to wash_trading_pct 2));
       ("mev_exposure_pct", JNum (round_to mev_exposure_pct 2));
       ("total_swaps_analyzed", JNum (of_nat (length swaps)));
       ("wash_trading_patterns", JNum (of_nat (length wash_patterns)));
       ("sandwich_victims", JNum (of_nat (length sandwich_victims)));
       ("suspicious_patterns", JArr (map pattern_json (take 10 wash_patterns)));
       ("risk_flags", strs risk_flags);
       ("risk_score",
        JNum (inject_Z (_calculate_risk_score wash_trading_pct mev_exposure_pct)))]
  end.

End Behavioral.

(** ** [tools/liquidity_depth_risk.py]: LiquidityDepthAnalyzer *)

Module LiquidityDepth.
Import Py.

(** [config["risk_thresholds"]["liquidity_depth"]]. *)
Record thresholds : Type := {
  price_impact_100k_critical_pct : Q;
  price_impact_100k_high_pct : Q;
  price_impact_1m_critical_pct : Q;
  price_impact_1m_high_pct : Q;
  active_liquidity_low_pct : Q;
  tvl_volatility_high_pct : Q
}.

(** A fetched tick: [int(t["tickIdx"])] and [float(t["liquidityGross"])]. *)
Record tick : Type := {
  tickIdx : Z;
  liquidityGross : Q
}.

(** A day of [poolDayDatas]: [float(d["tvlUSD"])]. *)
Record day_data : Type := {
  tvlUSD : Q
}.

Section Numpy.
(** The transcendental functions of numpy, on floats. *)
Variables (np_sqrt np_log : Q -> Q) (np_std : list Q -> Q).

Definition np_mean (values : list Q) : Q := (sum values / of_nat (length values))%Q.

Definition _simulate_sell_order (ticks : list tick) (current_price sell_amount_usd : Q)
  : Q :=
  let sorted_ticks := sort_by (fun a b => (tickIdx a <=? tickIdx b)%Z) ticks in
  let total_liquidity := sum (map (fun t => Qabs (liquidityGross t)) sorted_ticks) in
  if Qeq_bool total_liquidity 0 then 100%Q
  else
    let impact := (sell_amount_usd / np_sqrt total_liquidity * 100)%Q in
    Qmin impact 100.

(** The loop of [_calculate_active_liquidity]: (active, total). *)
Definition active_step (lower_bound upper_bound : Z) (acc : Q * Q) (t : tick) : Q * Q :=
  let '(active_liquidity, total_liquidity) := acc in
  let liquidity := Qabs (liquidityGross t) in
  let total_liquidity := (total_liquidity + liquidity)%Q in
  if ((lower_bound <=? tickIdx t) && (tickIdx t <=? upper_bound))%Z
  then ((active_liquidity + liquidity)%Q, total_liquidity)
  else (active_liquidity, total_liquidity).

(** For a positive [current_price]: at a price of 0 or below the source's
    [int(np.log(current_price) / np.log(1.0001))] raises ([OverflowError] on
    an infinite value, [ValueError] on NaN), a path that is not followed
    here. *)
Definition _calculate_active_liquidity (ticks : list tick) (current_price : Q) : Q :=
  match ticks with
  | [] => 0%Q
  | _ =>
      let current_tick := int (np_log current_price / np_log (10001 # 10000))%Q in
      let tick_spacing := int (np_log (11 # 10) / np_log (10001 # 10000))%Q in
      let lower_bound := (current_tick - tick_spacing)%Z in
      let upper_bound := (current_tick + tick_spacing)%Z in
      let '(active_liquidity, total_liquidity) :=
        fold_left (active_step lower_bound upper_bound) ticks (0%Q, 0%Q) in
      if Qeq_bool total_liquidity 0 then 0%Q
      else (active_liquidity / total_liquidity * 100)%Q
  end.

(** [_calculate_tvl_volatility], from the point where the cache or the
    fetch has given [pool_day_data]. *)
Definition _calculate_tvl_volatility (pool_day_data : list day_data) : Q :=
  if (length pool_day_data <? 2)%nat then 0%Q
  else
    let tvl_values := map tvlUSD pool_day_data in
    let mean_tvl := np_mean tvl_values in
    let std_dev := np_std tvl_values in
    if Qeq_bool mean_tvl 0 then 0%Q
    else (std_dev / mean_tvl * 100)%Q.

(** The arguments are floats or [None]. *)
Definition _generate_risk_flags (th : thresholds)
    (impact_100k impact_1m active_liquidity_pct tvl_volatility : option Q)
  : list string :=
  match impact_100k, impact_1m with
  | Some impact_100k, Some impact_1m =>
      let flags := [] in
      let flags :=
        if Qgtb impact_100k (price_impact_100k_critical_pct th)
        then flags ++ ["CRITICAL_SLIPPAGE_100K"]
        else if Qgtb impact_100k (price_impact_100k_high_pct th)
        then flags ++ ["HIGH_SLIPPAGE_100K"]
        else flags in
      let flags :=
        if Qgtb impact_1m (price_impact_1m_critical_pct th)
        then flags ++ ["CRITICAL_SLIPPAGE_1M"]
        else if Qgtb impact_1m (price_impact_1m_high_pct th)
        then flags ++ ["HIGH_SLIPPAGE_1M"]
        else flags in
      let flags :=
        match active_liquidity_pct with
        | Some a =>
            if Qltb a (active_liquidity_low_pct th)
            then flags ++ ["LOW_ACTIVE_LIQUIDITY"] else flags
        | None => flags
        end in
      let flags :=
        match tvl_volatility with
        | Some v =>
            if Qgtb v (tvl_volatility_high_pct th)
            then flags ++ ["HIGH_TVL_VOLATILITY"] else flags
        | None => flags
        end in
      match flags with [] => ["LOW_RISK"] | _ => flags end
  | _, _ => ["NO_DATA"]
  end.

(** [x or 0] on a float or [None]. *)
Definition or_zero (x : option Q) : Q :=
  match x with Some q => q | None => 0%Q end.

Definition _calculate_risk_score
    (impact_100k impact_1m active_liquidity_pct tvl_volatility : option Q) : Z :=
  match impact_100k, impact_1m with
  | Some impact_100k, Some impact_1m =>
      let impact_score := Qmin ((impact_100k + impact_1m) / 2 * 10)%Q 100 in
      let inactive_liquidity_score := (100 - or_zero active_liquidity_pct)%Q in
      let volatility_score := Qmin (or_zero tvl_volatility * 2)%Q 100 in
      let composite :=
        (impact_score * (5 # 10) + inactive_liquidity_score * (3 # 10)
         + volatility_score * (2 # 10))%Q in
      round composite
  | _, _ => 100%Z
  end.

(** [analyze], from the point where [_fetch_ticks] has returned [ticks];
    [pool_day_data] is what [_calculate_tvl_volatility] gets from the cache
    or the fetch. *)
Definition analyze (th : thresholds) (ticks : list tick) (current_price : Q)
    (pool_day_data : list day_data) : dict :=
  match ticks with
  | [] =>
      [("error", JStr "No tick data found for this pool");
       ("price_impact_100k", JNull);
       ("price_impact_1m", JNull);
       ("active_liquidity_pct", JNull);
       ("tvl_volatility_pct", JNull);
       ("risk_flags", strs ["NO_DATA"])]
  | _ =>
      let impact_100k := _simulate_sell_order ticks current_price 100000 in
      let impact_1m := _simulate_sell_order ticks current_price 1000000 in
      let active_liquidity_pct := _calculate_active_liquidity ticks current_price in
      let tvl_volatility := _calculate_tvl_volatility pool_day_data in
      let risk_flags :=
        _generate_risk_flags th (Some impact_100k) (Some impact_1m)
          (Some active_liquidity_pct) (Some tvl_volatility) in
      [("price_impact_100k_pct", JNum (round_to impact_100k 4));
       ("price_impact_1m_pct", JNum (round_to impact_1m 4));
       ("active_liquidity_pct", JNum (round_to active_liquidity_pct 2));
       ("tvl_volatility_30d_pct", JNum (round_to tvl_volatility 2));
       ("total_ticks", JNum (of_nat (length ticks)));
       ("risk_flags", strs risk_flags);
       ("risk_score",
        JNum (inject_Z (_calculate_risk_score (Some impact_100k) (Some impact_1m)
                          (Some active_liquidity_pct) (Some tvl_volatility))))]
  end.

End Numpy.
End LiquidityDepth.

(** ** [tools/market_risk.py]: MarketRiskAnalyzer *)

Module MarketRisk.
Import Py.

(** [config["risk_thresholds"]["market_risk"]]. *)
Record thresholds : Type := {
  utilization_rate_critical_low : Q;
  utilization_rate_low : Q;
  price_correlation_high_il_risk : Q;
  price_correlation_low_il_risk : Q
}.

(** A day of [poolDayDatas], each field through [float(d.get(k, 0))]. *)
Record day_data : Type := {
  tvlUSD : Q;
  volumeUSD : Q;
  token0Price : Q;
  token1Price : Q
}.

Section Numpy.
(** [np.corrcoef(x, y)[0, 1]]; [None] stands for NaN. *)
Variable np_corrcoef : list Q -> list Q -> option Q.

Definition np_mean (values : list Q) : Q := (sum values / of_nat (length values))%Q.

Definition _calculate_avg_utilization (pool_day_data : list day_data) : Q :=
  let utilization_rates :=
    flat_map (fun d => if Qgtb (tvlUSD d) 0 then [(volumeUSD d / tvlUSD d)%Q] else [])
      pool_day_data in
  match utilization_rates with
  | [] => 0%Q
  | _ => np_mean utilization_rates
  end.

(** [np.diff(prices) / prices[:-1]]. *)
Fixpoint returns (prices : list Q) : list Q :=
  match prices with
  | p :: rest =>
      match rest with
      | p' :: _ => ((p' - p) / p)%Q :: returns rest
      | [] => []
      end
  | [] => []
  end.

Definition _calculate_price_correlation (pool_day_data : list day_data) : Q :=
  let kept :=
    List.filter (fun d => Qgtb (token0Price d) 0 && Qgtb (token1Price d) 0)
      pool_day_data in
  let token0_prices := map token0Price kept in
  let token1_prices := map token1Price kept in
  if (length token0_prices <? 2)%nat then 0%Q
  else
    let token0_returns := returns token0_prices in
    let token1_returns := returns token1_prices in
    if (length token0_returns <? 2)%nat then 0%Q
    else
      match np_corrcoef token0_returns token1_returns with
      | None => 0%Q
      | Some correlation => correlation
      end.

Definition _determine_il_risk (th : thresholds) (correlation : Q) : string :=
  if Qltb correlation (price_correlation_high_il_risk th) then "VERY_HIGH"
  else if Qltb correlation (price_correlation_low_il_risk th) then "HIGH"
  else if Qltb correlation (7 # 10) then "MEDIUM"
  else "LOW".

Definition _generate_risk_flags (th : thresholds) (utilization correlation : Q)
  : list string :=
  let flags := [] in
  let flags :=
    if Qltb utilization (utilization_rate_critical_low th)
    then flags ++ ["CRITICAL_LOW_UTILIZATION"]
    else if Qltb utilization (utilization_rate_low th)
    then flags ++ ["LOW_UTILIZATION"]
    else flags in
  let flags :=
    if Qltb correlation (price_correlation_high_il_risk th)
    then flags ++ ["VERY_HIGH_IL_RISK"]
    else if Qltb correlation (price_correlation_low_il_risk th)
    then flags ++ ["HIGH_IL_RISK"]
    else flags in
  match flags with [] => ["LOW_RISK"] | _ => flags end.

Definition _calculate_risk_score (utilization correlation : Q) : Z :=
  let target_utilization := (5 # 100)%Q in
  let utilization_score := Qmax 0 (100 - utilization / target_utilization * 100)%Q in
  let utilization_score := Qmin utilization_score 100 in
  let correlation_score := ((1 - correlation) / 2 * 100)%Q in
  let composite := (utilization_score * (3 # 10) + correlation_score * (7 # 10))%Q in
  round composite.

(** [analyze], from the point where [_fetch_pool_day_data] has returned
    [pool_day_data]. *)
Definition analyze (th : thresholds) (pool_day_data : list day_data) : dict :=
  match pool_day_data with
  | [] =>
      [("error", JStr "No historical data found for this pool");
       ("avg_utilization_rate", JNull);
       ("price_correlation", JNull);
       ("il_risk_level", JNull);
       ("risk_flags", strs ["NO_DATA"])]
  | _ =>
      let avg_utilization := _calculate_avg_utilization pool_day_data in
      let price_correlation := _calculate_price_correlation pool_day_data in
      let il_risk_level := _determine_il_risk th price_correlation in
      let risk_flags := _generate_risk_flags th avg_utilization price_correlation in
      [("avg_utilization_rate", JNum (round_to avg_utilization 6));
       ("price_correlation", JNum (round_to price_correlation 4));
       ("il_risk_level", JStr il_risk_level);
       ("data_points", JNum (of_nat (length pool_day_data)));
       ("risk_flags", strs risk_flags);
       ("risk_score",
        JNum (inject_Z (_calculate_risk_score avg_utilization price_correlation)))]
  end.

End Numpy.
End MarketRisk.

(** ** [tools/risk_scorer.py]: RiskScorer *)

Module RiskScorer.
Import Py.

(** [config["scoring"]["weights"]]. *)
Record weights : Type := {
  concentration : Q;
  liquidity_depth : Q;
  market_risk : Q;
  behavioral : Q
}.

(** The [{"min": .., "max": ..}] of a level of [config["scoring"]["risk_levels"]]. *)
Record bounds : Type := {
  level_min : Q;
  level_max : Q
}.

Record config : Type := {
  scoring_weights : weights;
  risk_levels : list (string * bounds)
}.

Definition upper_ascii (c : ascii) : ascii :=
  let n := nat_of_ascii c in
  if ((97 <=? n) && (n <=? 122))%nat then ascii_of_nat (n - 32) else c.

(** [s.upper()], on ASCII. *)
Fixpoint upper (s : string) : string :=
  match s with
  | EmptyString => EmptyString
  | String c s' => String (upper_ascii c) (upper s')
  end.

(** [for level, bounds in self.risk_levels.items()]. *)
Fixpoint level_loop (levels : list (string * bounds)) (score : Z) : string :=
  match levels with
  | [] => "UNKNOWN"
  | (level, b) :: levels' =>
      if Qle_bool (level_min b) (inject_Z score) && Qle_bool (inject_Z score) (level_max b)
      then upper level
      else level_loop levels' score
  end.

Definition _determine_risk_level (cfg : config) (score : Z) : string :=
  level_loop (risk_levels cfg) score.

(** [result.get("risk_score", 0)], as the number the products need. *)
Definition risk_score_of (result : dict) : option Q :=
  as_num (get_or result "risk_score" (JNum 0)).

(** [result.get("risk_flags", [])], as the list the [+] needs. *)
Definition risk_flags_of (result : dict) : option (list json) :=
  match get_or result "risk_flags" (JArr []) with
  | JArr l => Some l
  | _ => None
  end.

(** [f == "LOW_RISK"]. *)
Definition is_low_risk (f : json) : bool :=
  match f with
  | JStr s => String.eqb s "LOW_RISK"
  | _ => false
  end.

(** The weighted sum of [score], rounded. *)
Definition composite_of (w : weights)
    (concentration_score liquidity_score market_score behavioral_score : Q) : Z :=
  round (concentration_score * concentration w
         + liquidity_score * liquidity_depth w
         + market_score * market_risk w
         + behavioral_score * behavioral w)%Q.

(** [critical_flags if critical_flags else ["LOW_RISK"]]. *)
Definition final_flags_of (all_flags : list json) : list json :=
  let critical_flags := List.filter (fun f => negb (is_low_risk f)) all_flags in
  match critical_flags with
  | [] => [JStr "LOW_RISK"]
  | _ => critical_flags
  end.

(** [score]; [None] when a score is not a number or a flag list is not a
    list (the arithmetic or the [+] raises [TypeError]). *)
Definition score (cfg : config)
    (concentration_result liquidity_result market_result behavioral_result : dict)
  : option dict :=
  concentration_score ← risk_score_of concentration_result;
  liquidity_score ← risk_score_of liquidity_result;
  market_score ← risk_score_of market_result;
  behavioral_score ← risk_score_of behavioral_result;
  let composite_score :=
    composite_of (scoring_weights cfg)
      concentration_score liquidity_score market_score behavioral_score in
  let risk_level := _determine_risk_level cfg composite_score in
  fc ← risk_flags_of concentration_result;
  fl ← risk_flags_of liquidity_result;
  fm ← risk_flags_of market_result;
  fb ← risk_flags_of behavioral_result;
  let all_flags := fc ++ fl ++ fm ++ fb in
  let final_flags := final_flags_of all_flags in
  Some
    [("composite_score", JNum (inject_Z composite_score));
     ("risk_level", JStr risk_level);
     ("risk_flags", JArr final_flags);
     ("component_scores",
      JObj [("concentration", JNum concentration_score);
            ("liquidity_depth", JNum liquidity_score);
            ("market_risk", JNum market_score);
            ("behavioral", JNum behavioral_score)]);
     ("raw_metrics",
      JObj [("concentration", JObj concentration_result);
            ("liquidity_depth", JObj liquidity_result);
            ("market_risk", JObj market_result);
            ("behavioral", JObj behavioral_result)])].

(** The three fields of the composite result that a caller reads. *)
Definition composite_score_of (r : dict) : option json := get r "composite_score".
Definition risk_level_of (r : dict) : option json := get r "risk_level".
Definition final_flags (r : dict) : option json := get r "risk_flags".

End RiskScorer.

(** ** [workflows/rag/plan_execute.py]: PlanExecuteGraph *)

Module PlanExecute.
Import Py.

Definition CONCENTRATION : string := "analyze_concentration_risk".
Definition LIQUIDITY : string := "analyze_liquidity_depth".
Definition MARKET : string := "analyze_market_risk".
Definition BEHAVIORAL : string := "analyze_behavioral_risk".
Definition COMPOSITE : string := "calculate_composite_risk_score".

(** What [tool.ainvoke(args)] does: it returns a value or raises. *)
Inductive outcome : Type :=
| Returned (v : json)
| Raised (msg : string).

(** A tool loaded from the MCP server, by its behaviour on its arguments. *)
Abbreviation tool := (dict -> outcome).

(** [AnalysisPlan] of [state.py]. *)
Record AnalysisPlan : Type := {
  reasoning : string;
  plan_tools_to_call : list string;
  needs_comprehensive : bool
}.

(** What [self.planner_llm.invoke(...)] does. *)
Inductive planner_outcome : Type :=
| Planned (p : AnalysisPlan)
| PlannerRaised (msg : string).

(** The keys of [OverallState] that the nodes read and write. *)
Record state : Type := {
  user_question : string;
  pool_address : option string;
  plan : string;
  tools_to_call : list string;
  tool_results : list dict;
  synthesized_answer : option string;
  exit_flag : bool
}.

(** An invocation of a tool: its name and arguments. *)
Abbreviation invocation := (string * dict)%type.

Definition _plan_node (tools_by_name : gmap string tool) (answer : planner_outcome)
    (st : state) : state :=
  match answer with
  | Planned plan_result =>
      let tools :=
        if needs_comprehensive plan_result
        then [CONCENTRATION; LIQUIDITY; MARKET; BEHAVIORAL]
        else List.filter (fun t => bool_decide (is_Some (tools_by_name !! t)))
               (plan_tools_to_call plan_result) in
      {| user_question := user_question st; pool_address := pool_address st;
         plan := reasoning plan_result;
         tools_to_call := tools;
         tool_results := tool_results st;
         synthesized_answer := synthesized_answer st;
         exit_flag := false |}
  | PlannerRaised e =>
      {| user_question := user_question st; pool_address := pool_address st;
         plan := "Planning failed: " ++ e;
         tools_to_call := [];
         tool_results := tool_results st;
         synthesized_answer := synthesized_answer st;
         exit_flag := true |}
  end.

Definition _route_after_plan (st : state) : string :=
  if exit_flag st then "error"
  else match tools_to_call st with
       | [] => "no_tools"
       | _ => "execute_tools"
       end.

(** [execute_single_tool]: the entry for [tool_name] and the invocation it
    made, if any. *)
Definition execute_single_tool (tools_by_name : gmap string tool) (address : string)
    (tool_name : string) : dict * list invocation :=
  match tools_by_name !! tool_name with
  | None =>
      ([("tool", JStr tool_name);
        ("error", JStr ("Tool " ++ tool_name ++ " not found"))], [])
  | Some t =>
      let run (args : dict) : dict * list invocation :=
        match t args with
        | Returned result => ([("tool", JStr tool_name); ("result", result)],
                              [(tool_name, args)])
        | Raised e => ([("tool", JStr tool_name); ("error", JStr e)],
                       [(tool_name, args)])
        end in
      if String.eqb tool_name LIQUIDITY
      then run [("pool_address", JStr address); ("current_price", JNum 1)]
      else if String.eqb tool_name COMPOSITE
      then ([("tool", JStr tool_name); ("skip", JBool true)], [])
      else run [("pool_address", JStr address)]
  end.

(** [r["tool"]]. *)
Definition tool_of (r : dict) : string :=
  match get r "tool" with
  | Some (JStr s) => s
  | _ => ""
  end.

(** [{r["tool"]: r.get("result", {}) for r in results if "result" in r}]. *)
Definition risk_results_of (results : list dict) : gmap string json :=
  fold_left
    (fun m r => if has_key r "result"
                then <[tool_of r := get_or r "result" (JObj [])]> m
                else m)
    results ∅.

(** [risk_results.get(k, {})]. *)
Definition risk_result (risk_results : gmap string json) (k : string) : json :=
  default (JObj []) (risk_results !! k).

Definition composite_args (risk_results : gmap string json) : dict :=
  [("concentration_result", risk_result risk_results CONCENTRATION);
   ("liquidity_result", risk_result risk_results LIQUIDITY);
   ("market_result", risk_result risk_results MARKET);
   ("behavioral_result", risk_result risk_results BEHAVIORAL)].

(** The first wave: [asyncio.gather] over every selected tool but the
    composite one, results in the order of the tasks. *)
Definition first_wave (tools_by_name : gmap string tool) (address : string)
    (selected : list string) : list dict * list invocation :=
  let tasks :=
    map (execute_single_tool tools_by_name address)
      (List.filter (fun name => negb (String.eqb name COMPOSITE)) selected) in
  (List.filter (fun r => negb (truthy (get_or r "skip" JNull))) (map fst tasks),
   concat (map snd tasks)).

(** [_execute_tools_node]: the new state, and the invocations made, in order. *)
Definition _execute_tools_node (tools_by_name : gmap string tool) (st : state)
  : state * list invocation :=
  let with_results (results : list dict) (flag : bool) : state :=
    {| user_question := user_question st; pool_address := pool_address st;
       plan := plan st; tools_to_call := tools_to_call st;
       tool_results := results;
       synthesized_answer := synthesized_answer st;
       exit_flag := flag |} in
  match pool_address st with
  | None | Some "" =>
      (with_results [[("error", JStr "No pool address provided")]] true, [])
  | Some address =>
      let '(results, log) := first_wave tools_by_name address (tools_to_call st) in
      if mem COMPOSITE (tools_to_call st) then
        let risk_results := risk_results_of results in
        if (4 <=? size risk_results)%nat then
          match tools_by_name !! COMPOSITE with
          | Some composite_tool =>
              let args := composite_args risk_results in
              match composite_tool args with
              | Returned composite_result =>
                  (with_results
                     (results ++ [[("tool", JStr COMPOSITE); ("result", composite_result)]])
                     false,
                   log ++ [(COMPOSITE, args)])
              | Raised _ => (with_results results false, log ++ [(COMPOSITE, args)])
              end
          | None => (with_results results false, log)
          end
        else (with_results results false, log)
      else (with_results results false, log)
  end.

(** The loop of [_finalize_node]: the ["result"] of the first entry of the
    composite tool that has one. *)
Fixpoint composite_entry (results : list dict) : option json :=
  match results with
  | [] => None
  | tr :: results' =>
      match get tr "tool", get tr "result" with
      | Some (JStr name), Some result =>
          if String.eqb name COMPOSITE then Some result else composite_entry results'
      | _, _ => composite_entry results'
      end
  end.

(** [_finalize_node]: the answer and the metadata; [None] when the
    composite result is not a dict ([.get] raises [AttributeError]). *)
Definition _finalize_node (st : state) : option (string * dict) :=
  '(risk_score, risk_level) ←
    match composite_entry (tool_results st) with
    | None => Some (JNull, JNull)
    | Some (JObj result) =>
        Some (get_or result "composite_score" JNull, get_or result "risk_level" JNull)
    | Some _ => None
    end;
  let metadata :=
    [("plan", JStr (plan st));
     ("tools_called", strs (tools_to_call st));
     ("tool_count", JNum (of_nat (length (tools_to_call st))));
     ("mcp_protocol", JBool true)] in
  let metadata :=
    match risk_score with
    | JNull => metadata
    | _ => metadata ++ [("risk_score", risk_score); ("risk_level", risk_level)]
    end in
  Some (default "No answer generated" (synthesized_answer st), metadata).

(** An entry of [tool_results] is a successful result when it has a
    ["result"]. *)
Definition successes (results : list dict) : nat :=
  length (List.filter (fun r => has_key r "result") results).

End PlanExecute.

(** ** [backend/workflows/rag/nodes.py]: OrchestratorNodes *)

Module Orchestrator.
Import Py.

(** What sending a message over a connection gives, once
    [_extract_result_from_response] has read the response: a result dict,
    or an exception. *)
Inductive send_outcome : Type :=
| Replied (result : dict)
| SendRaised (msg : string).

(** A [RemoteAgentConnections], by its behaviour on the data of a message. *)
Abbreviation connection := (dict -> send_outcome).

(** The keys of [OverallState] that the nodes read and write. *)
Record state : Type := {
  query : string;
  pool_address : json;
  trace_id : json;
  pool_risk_result : option dict;
  token_intel_result : option dict;
  final_answer : option string;
  answer : option string
}.

Definition message_data (st : state) : dict :=
  [("user_question", JStr (query st));
   ("pool_address", pool_address st);
   ("trace_id", trace_id st)].

(** The value [invoke_pool_risk] returns under ["pool_risk_result"]. *)
Definition invoke_pool_risk (remote_agent_connections : gmap string connection)
    (st : state) : dict :=
  match remote_agent_connections !! "pool_risk" with
  | None =>
      [("answer", JStr "Pool Risk agent unavailable");
       ("metadata", JObj [("error", JStr "Agent not discovered")]);
       ("risk_score", JNum 0)]
  | Some conn =>
      match conn (message_data st) with
      | Replied result =>
          [("answer", get_or result "answer" (JStr ""));
           ("metadata", get_or result "metadata" (JObj []));
           ("risk_score", get_or result "risk_score" (JNum 0))]
      | SendRaised e =>
          [("answer", JStr ("Pool risk analysis failed: " ++ e));
           ("metadata", JObj [("error", JStr e)]);
           ("risk_score", JNum 0)]
      end
  end.

(** The value [invoke_token_intel] returns under ["token_intel_result"]. *)
Definition invoke_token_intel (remote_agent_connections : gmap string connection)
    (st : state) : dict :=
  match remote_agent_connections !! "token_intelligence" with
  | None =>
      [("answer", JStr "Token Intelligence agent unavailable");
       ("metadata", JObj [("error", JStr "Agent not discovered")]);
       ("risk_score", JNum 0)]
  | Some conn =>
      match conn (message_data st) with
      | Replied result =>
          [("answer", get_or result "answer" (JStr ""));
           ("metadata", get_or result "metadata" (JObj []));
           ("risk_score", get_or result "risk_score" (JNum 0))]
      | SendRaised e =>
          [("answer", JStr ("Token intelligence analysis failed: " ++ e));
           ("metadata", JObj [("error", JStr e)]);
           ("risk_score", JNum 0)]
      end
  end.

(** [if r.get("risk_score"): risk_scores.append(r["risk_score"])]. *)
Definition present_score (r : dict) : list json :=
  match get r "risk_score" with
  | Some v => if truthy v then [v] else []
  | None => []
  end.

(** [sum(risk_scores)] from 0; [None] when an addition raises [TypeError]. *)
Fixpoint sum_scores (acc : Q) (risk_scores : list json) : option Q :=
  match risk_scores with
  | [] => Some acc
  | v :: rest =>
      match as_num v with
      | Some q => sum_scores (acc + q)%Q rest
      | None => None
      end
  end.

(** The output of the graph. *)
Record output : Type := {
  out_answer : string;
  out_metadata : dict;
  out_risk_score : Q
}.

(** [finalize_output]; [None] when the sum raises. *)
Definition finalize_output (st : state) : option output :=
  let pool_risk := default [] (pool_risk_result st) in
  let token_intel := default [] (token_intel_result st) in
  let risk_scores := present_score pool_risk ++ present_score token_intel in
  composite_risk ←
    match risk_scores with
    | [] => Some 0%Q
    | _ => total ← sum_scores 0 risk_scores;
           Some (total / of_nat (length risk_scores))%Q
    end;
  let metadata :=
    [("pool_risk", get_or pool_risk "metadata" (JObj []));
     ("token_intel", get_or token_intel "metadata" (JObj []));
     ("composite_risk_score", JNum composite_risk)] in
  let final :=
    match final_answer st with
    | Some a => a
    | None => default "No answer generated" (answer st)
    end in
  Some {| out_answer := final; out_metadata := metadata;
          out_risk_score := composite_risk |}.

(** The nodes a routing decision runs after discovery, up to the output:
    [invoke_pool_risk] unless the route is ["token_intel"], then
    [invoke_token_intel] unless the route is ["pool_risk"], then
    [finalize_output] ([synthesize_results] only sets [final_answer], here
    given by [synthesis]). *)
Definition run (remote_agent_connections : gmap string connection)
    (routing_decision : string) (synthesis : string) (st : state) : option output :=
  let st1 :=
    if String.eqb routing_decision "token_intel" then st
    else {| query := query st; pool_address := pool_address st;
            trace_id := trace_id st;
            pool_risk_result := Some (invoke_pool_risk remote_agent_connections st);
            token_intel_result := token_intel_result st;
            final_answer := final_answer st; answer := answer st |} in
  let st2 :=
    if String.eqb routing_decision "pool_risk" then st1
    else {| query := query st1; pool_address := pool_address st1;
            trace_id := trace_id st1;
            pool_risk_result := pool_risk_result st1;
            token_intel_result := Some (invoke_token_intel remote_agent_connections st1);
            final_answer := final_answer st1; answer := answer st1 |} in
  finalize_output
    {| query := query st2; pool_address := pool_address st2;
       trace_id := trace_id st2;
       pool_risk_result := pool_risk_result st2;
       token_intel_result := token_intel_result st2;
       final_answer := Some synthesis; answer := answer st2 |}.

End Orchestrator.

(** ** [utils.py]: CacheManager *)

Module Cache.
Import Py.

(** [config["cache"]]. *)
Record config : Type := {
  enabled : bool;
  directory : string;
  static_data_ttl_seconds : Q;
  cache_entities : gmap string bool
}.

(** A file of the cache directory, by what [json.load] makes of it: text
    that is not JSON, or a JSON document. *)
Inductive file : Type :=
| Garbage
| Document (v : json).

(** What a call gives: the value it returns ([JNull] is [None]) or an
    exception that no handler of the method catches. *)
Inductive outcome : Type :=
| Returns (v : json)
| RaisesTypeError.

Fixpoint ends_with_slash (s : string) : bool :=
  match s with
  | EmptyString => false
  | String c EmptyString => Ascii.eqb c "/"
  | String _ s' => ends_with_slash s'
  end.

(** [os.path.join(a, b)] on POSIX paths. *)
Definition os_path_join (a b : string) : string :=
  match b with
  | String "/" _ => b
  | _ =>
      match a with
      | EmptyString => b
      | _ => if ends_with_slash a then a ++ b else a ++ "/" ++ b
      end
  end.

Section WithClock.
(** [hashlib.sha256(key.encode()).hexdigest()], and the two conversions of
    [datetime] (a point in time is its number of seconds). *)
Variables (sha256_hex : string -> string)
          (isoformat : Q -> string) (fromisoformat : string -> option Q).
Variable cfg : config.

Definition _get_cache_path (key : string) : string :=
  os_path_join (directory cfg) (sha256_hex key ++ ".json").

(** [self.enabled and self.cache_entities.get(entity_type, False)]. *)
Definition caches (entity_type : string) : bool :=
  enabled cfg && default false (cache_entities cfg !! entity_type).

(** [get]; [now] is what [datetime.now()] reads. *)
Definition get (now : Q) (key entity_type : string) (files : gmap string file)
  : outcome * gmap string file :=
  if negb (caches entity_type) then (Returns JNull, files)
  else
    let cache_file := _get_cache_path key in
    (* the handler of [JSONDecodeError], [KeyError] and [ValueError] *)
    let corrupted := (Returns JNull, delete cache_file files) in
    match files !! cache_file with
    | None => (Returns JNull, files)
    | Some Garbage => corrupted
    | Some (Document (JObj cache_data)) =>
        match Py.get cache_data "cached_at" with
        | None => corrupted
        | Some (JStr s) =>
            match fromisoformat s with
            | None => corrupted
            | Some cached_at =>
                if Qgtb (now - cached_at) (static_data_ttl_seconds cfg)
                then (Returns JNull, delete cache_file files)
                else
                  match Py.get cache_data "data" with
                  | Some data => (Returns data, files)
                  | None => corrupted
                  end
            end
        | Some _ => (RaisesTypeError, files)
        end
    | Some (Document _) => (RaisesTypeError, files)
    end.

(** [set]. *)
Definition set (now : Q) (key entity_type : string) (data : json)
    (files : gmap string file) : gmap string file :=
  if negb (caches entity_type) then files
  else
    let cache_file := _get_cache_path key in
    let cache_data :=
      [("cached_at", JStr (isoformat now));
       ("entity_type", JStr entity_type);
       ("data", data)] in
    <[cache_file := Document (JObj cache_data)]> files.

End WithClock.

End Cache.

(** ** [utils.py]: load_config *)

Module ConfigFile.
Import Py.

(** The file at a path, by what [json.load] makes of it; a configuration
    is a JSON object. *)
Inductive file : Type :=
| Garbage (error : string)
| Document (config : dict).

(** The exceptions of [load_config], by their messages. *)
Inductive outcome : Type :=
| Loaded (config : dict)
| NotFound (config_path : string)
| MissingSection (key : string)
| InvalidJSON (error : string).

Definition required_keys : list string :=
  ["api"; "pagination"; "cache"; "queries"; "risk_thresholds"; "scoring"].

(** [for key in required_keys: if key not in config: raise ...]. *)
Fixpoint first_missing (keys : list string) (config : dict) : option string :=
  match keys with
  | [] => None
  | key :: keys' =>
      if has_key config key then first_missing keys' config else Some key
  end.

Definition load_config (files : gmap string file) (config_path : string) : outcome :=
  match files !! config_path with
  | None => NotFound config_path
  | Some (Garbage e) => InvalidJSON e
  | Some (Document config) =>
      match first_missing required_keys config with
      | Some key => MissingSection key
      | None => Loaded config
      end
  end.

End ConfigFile.

(** ** [backend/workflows/rag/orchestrator.py]: the edges of the graph *)

Module OrchestratorGraph.
Import Py Orchestrator.

(** [decision == s], for the value under ["routing_decision"]. *)
Definition is_str (decision : json) (s : string) : bool :=
  match decision with
  | JStr s' => String.eqb s' s
  | _ => false
  end.

(** [decision] is [state.get("routing_decision", "both")]. *)
Definition route_to_agents (decision : json) : string :=
  if is_str decision "pool_risk" then "invoke_pool_risk_only"
  else if is_str decision "token_intel" then "invoke_token_intel_only"
  else "invoke_both".

Definition check_token_intel_needed (decision : json) : string :=
  if is_str decision "both" then "invoke_token_intel"
  else "synthesize_results".

(** The update of the state by a node that returns one key. *)
Definition set_pool_risk_result (st : state) (r : dict) : state :=
  {| query := query st; pool_address := pool_address st; trace_id := trace_id st;
     pool_risk_result := Some r;
     token_intel_result := token_intel_result st;
     final_answer := final_answer st; answer := answer st |}.

Definition set_token_intel_result (st : state) (r : dict) : state :=
  {| query := query st; pool_address := pool_address st; trace_id := trace_id st;
     pool_risk_result := pool_risk_result st;
     token_intel_result := Some r;
     final_answer := final_answer st; answer := answer st |}.

Definition set_final_answer (st : state) (a : string) : state :=
  {| query := query st; pool_address := pool_address st; trace_id := trace_id st;
     pool_risk_result := pool_risk_result st;
     token_intel_result := token_intel_result st;
     final_answer := Some a; answer := answer st |}.

(** The nodes from [invoke_token_intel] on: the names of the nodes that
    run, in order, and the output. *)
Definition from_token_intel (remote_agent_connections : gmap string connection)
    (synthesis : string) (st : state) : list string * option output :=
  let st := set_token_intel_result st (invoke_token_intel remote_agent_connections st) in
  (["invoke_token_intel"; "synthesize_results"; "finalize_output"],
   finalize_output (set_final_answer st synthesis)).

(** The nodes from [invoke_pool_risk] on, through the conditional edge of
    [check_token_intel_needed]. *)
Definition from_pool_risk (remote_agent_connections : gmap string connection)
    (decision : json) (synthesis : string) (st : state)
  : list string * option output :=
  let st := set_pool_risk_result st (invoke_pool_risk remote_agent_connections st) in
  if String.eqb (check_token_intel_needed decision) "invoke_token_intel"
  then
    let '(nodes, out) := from_token_intel remote_agent_connections synthesis st in
    ("invoke_pool_risk" :: "check_token_intel_needed" :: nodes, out)
  else
    (["invoke_pool_risk"; "check_token_intel_needed"; "synthesize_results";
      "finalize_output"],
     finalize_output (set_final_answer st synthesis)).

(** The graph after [analyze_query] has stored [decision]: the conditional
    edge of [route_to_agents] sends ["invoke_pool_risk_only"] and
    ["invoke_both"] to [invoke_pool_risk], and ["invoke_token_intel_only"]
    to [invoke_token_intel]. *)
Definition run_graph (remote_agent_connections : gmap string connection)
    (decision : json) (synthesis : string) (st : state)
  : list string * option output :=
  if String.eqb (route_to_agents decision) "invoke_token_intel_only"
  then from_token_intel remote_agent_connections synthesis st
  else from_pool_risk remote_agent_connections decision synthesis st.

End OrchestratorGraph.

(** ** [tools/concentration_risk.py]: the Gini coefficient in doubles *)

From Stdlib Require PrimFloat.

Module ConcentrationDoubles.
Import PrimFloat.
Local Open Scope float_scope.

(** [float(n)] for a count; exact below 2^53. *)
Fixpoint of_nat (n : nat) : float :=
  match n with
  | O => 0
  | S n' => of_nat n' + 1
  end.

(** [np.sort(values)]. *)
Definition np_sort (values : list float) : list float := Py.sort_by leb values.

(** [np.arange(a, a + n)], as the float64 values its product with a
    float64 array takes. *)
Fixpoint np_arange (a : nat) (n : nat) : list float :=
  match n with
  | O => []
  | S n' => of_nat a :: np_arange (S a) n'
  end.

(** [np.cumsum(values)], the running sums from [acc]. *)
Fixpoint np_cumsum (acc : float) (values : list float) : list float :=
  match values with
  | [] => []
  | x :: values' => (acc + x) :: np_cumsum (acc + x) values'
  end.

(** [np.sum(values)]: numpy adds an array of fewer than eight elements in
    order; longer arrays are added in blocks, an order that is not followed
    here ([None]). *)
Definition np_sum (values : list float) : option float :=
  if (length values <? 8)%nat then Some (fold_left add values 0) else None.

(** [_calculate_gini] on float64 values, for fewer than eight of them. *)
Definition _calculate_gini (values : list float) : option float :=
  match values with
  | [] => Some 0
  | _ =>
      let sorted_values := np_sort values in
      let n := of_nat (length sorted_values) in
      let cumsum := np_cumsum 0 sorted_values in
      total ← np_sum (zip_with mul (np_arange 1 (length sorted_values)) sorted_values);
      Some ((2 * total) / (n * List.last cumsum 0) - (n + 1) / n)
  end.

(** [g < 0]. *)
Definition below_zero (g : float) : bool := g <? 0.

(** Two equal positions, and the double -2^-52 (about -2.22e-16). *)
Definition two_equal : list float := [800494577724512010240; 800494577724512010240].
Definition minus_epsilon : float := -0x1p-52.

End ConcentrationDoubles.

(** * Properties *)

(** ** Planning *)

(** C2: when the planner returns a plan with [needs_comprehensive] set, the
    tools to call are exactly the four analyzers, whatever tool names the
    plan proposed and whatever tools are loaded, and the graph goes on to
    execute them. *)
Theorem plan_comprehensive_full_set
    (tools_by_name : gmap string PlanExecute.tool) (p : PlanExecute.AnalysisPlan)
    (st : PlanExecute.state) :
  PlanExecute.needs_comprehensive p = true ->
  PlanExecute.tools_to_call
    (PlanExecute._plan_node tools_by_name (PlanExecute.Planned p) st)
  = ["analyze_concentration_risk"; "analyze_liquidity_depth";
     "analyze_market_risk"; "analyze_behavioral_risk"]
  /\ PlanExecute._route_after_plan
       (PlanExecute._plan_node tools_by_name (PlanExecute.Planned p) st)
     = "execute_tools".
Proof.
  intros Hc. unfold PlanExecute._plan_node. rewrite Hc.
  unfold PlanExecute._route_after_plan. cbn. split; reflexivity.
Qed.

(** A plan that asks for everything but proposes one analyzer and an unknown
    name, with no tool loaded at all. *)
Definition lazy_plan : PlanExecute.AnalysisPlan :=
  {| PlanExecute.reasoning := "The user wants a full analysis";
     PlanExecute.plan_tools_to_call := ["analyze_market_risk"; "summarize_pool"];
     PlanExecute.needs_comprehensive := true |}.

Definition asked : PlanExecute.state :=
  {| PlanExecute.user_question := "Give me a comprehensive risk analysis";
     PlanExecute.pool_address := Some "0x88e6";
     PlanExecute.plan := ""; PlanExecute.tools_to_call := [];
     PlanExecute.tool_results := []; PlanExecute.synthesized_answer := None;
     PlanExecute.exit_flag := false |}.

(** C2 on that plan. *)
Lemma plan_comprehensive_full_set_witness :
  PlanExecute.tools_to_call
    (PlanExecute._plan_node ∅ (PlanExecute.Planned lazy_plan) asked)
  = ["analyze_concentration_risk"; "analyze_liquidity_depth";
     "analyze_market_risk"; "analyze_behavioral_risk"]
  /\ PlanExecute._route_after_plan
       (PlanExecute._plan_node ∅ (PlanExecute.Planned lazy_plan) asked)
     = "execute_tools".
Proof.
  apply (plan_comprehensive_full_set ∅ lazy_plan asked). reflexivity.
Defined.

(** Without the flag the proposal is kept, filtered to the loaded tools. *)
Lemma plan_selective_filters
    (tools_by_name : gmap string PlanExecute.tool) (why : string)
    (proposed : list string) (st : PlanExecute.state) (t : string) :
  In t (PlanExecute.tools_to_call
          (PlanExecute._plan_node tools_by_name
             (PlanExecute.Planned
                {| PlanExecute.reasoning := why;
                   PlanExecute.plan_tools_to_call := proposed;
                   PlanExecute.needs_comprehensive := false |}) st))
  <-> In t proposed /\ is_Some (tools_by_name !! t).
Proof.
  cbn. rewrite List.filter_In, bool_decide_eq_true. reflexivity.
Qed.

(** ** Analyzer flags *)

Section AnalyzerFlags.
Import Py.

Definition concentration_flags : list string :=
  ["CRITICAL_TOP10_DOMINANCE"; "HIGH_TOP10_DOMINANCE"; "CRITICAL_GINI"; "HIGH_GINI";
   "CRITICAL_HHI"; "HIGH_HHI"; "HIGH_MERCENARY_LIQUIDITY"].

Definition liquidity_flags : list string :=
  ["CRITICAL_SLIPPAGE_100K"; "HIGH_SLIPPAGE_100K"; "CRITICAL_SLIPPAGE_1M";
   "HIGH_SLIPPAGE_1M"; "LOW_ACTIVE_LIQUIDITY"; "HIGH_TVL_VOLATILITY"].

Definition market_flags : list string :=
  ["CRITICAL_LOW_UTILIZATION"; "LOW_UTILIZATION"; "VERY_HIGH_IL_RISK"; "HIGH_IL_RISK"].

Definition behavioral_flags : list string :=
  ["CRITICAL_WASH_TRADING"; "HIGH_WASH_TRADING"; "CRITICAL_MEV_EXPOSURE";
   "HIGH_MEV_EXPOSURE"].

(** What a result's flag list may be: on empty data the one flag
    [NO_DATA]; otherwise the sentinel alone, or a non-empty list of
    threshold flags. *)
Definition flags_shape (no_data : bool) (threshold_flags flags : list string) : Prop :=
  flags <> []
  /\ (if no_data then flags = ["NO_DATA"]
      else flags = ["LOW_RISK"] \/ Forall (fun f => In f threshold_flags) flags).

Definition is_nil {A : Type} (l : list A) : bool :=
  match l with [] => true | _ => false end.

Ltac flag_cases :=
  repeat match goal with
         | |- context [if ?b then _ else _] =>
             lazymatch type of b with bool => destruct b end
         end;
  cbn;
  (split;
   [ discriminate
   | first [ left; reflexivity
           | right; repeat constructor; cbn; tauto ] ]).

Lemma concentration_flags_shape cfg gini hhi top lp :
  flags_shape false concentration_flags
    (Concentration._generate_risk_flags cfg gini hhi top lp).
Proof. unfold Concentration._generate_risk_flags, flags_shape. flag_cases. Qed.

Lemma behavioral_flags_shape th w m :
  flags_shape false behavioral_flags (Behavioral._generate_risk_flags th w m).
Proof. unfold Behavioral._generate_risk_flags, flags_shape. flag_cases. Qed.

Lemma liquidity_flags_shape th a b c d :
  flags_shape false liquidity_flags
    (LiquidityDepth._generate_risk_flags th (Some a) (Some b) (Some c) (Some d)).
Proof. unfold LiquidityDepth._generate_risk_flags, flags_shape. flag_cases. Qed.

Lemma market_flags_shape th u c :
  flags_shape false market_flags (MarketRisk._generate_risk_flags th u c).
Proof. unfold MarketRisk._generate_risk_flags, flags_shape. flag_cases. Qed.

End AnalyzerFlags.

(** C5: the [risk_flags] of the result of each of the four analyzers is a
    non-empty list of strings, for every input: [["NO_DATA"]] when the
    fetched data is empty, and otherwise either the sentinel [["LOW_RISK"]]
    or a non-empty list of threshold flags. *)
Theorem analyzers_flags_never_empty :
  (forall cfg now positions, exists flags,
      Py.get (Concentration.analyze cfg now positions) "risk_flags"
        = Some (Py.strs flags)
      /\ flags_shape (is_nil positions) concentration_flags flags)
  /\ (forall np_sqrt np_log np_std th ticks price days, exists flags,
      Py.get (LiquidityDepth.analyze np_sqrt np_log np_std th ticks price days)
        "risk_flags" = Some (Py.strs flags)
      /\ flags_shape (is_nil ticks) liquidity_flags flags)
  /\ (forall np_corrcoef th days, exists flags,
      Py.get (MarketRisk.analyze np_corrcoef th days) "risk_flags"
        = Some (Py.strs flags)
      /\ flags_shape (is_nil days) market_flags flags)
  /\ (forall th swaps, exists flags,
      Py.get (Behavioral.analyze th swaps) "risk_flags" = Some (Py.strs flags)
      /\ flags_shape (is_nil swaps) behavioral_flags flags).
Proof.
  repeat split.
  - intros cfg now [|p ps].
    + exists ["NO_DATA"]. repeat split; discriminate.
    + eexists. split; [reflexivity | apply concentration_flags_shape].
  - intros np_sqrt np_log np_std th [|t ts] price days.
    + exists ["NO_DATA"]. repeat split; discriminate.
    + eexists. split; [reflexivity | apply liquidity_flags_shape].
  - intros np_corrcoef th [|d ds].
    + exists ["NO_DATA"]. repeat split; discriminate.
    + eexists. split; [reflexivity | apply market_flags_shape].
  - intros th [|s ss].
    + exists ["NO_DATA"]. repeat split; discriminate.
    + cbn [Behavioral.analyze is_nil].
      destruct (Behavioral._detect_wash_trading (s :: ss)) as [w wp].
      destruct (Behavioral._detect_sandwich_attacks (s :: ss)) as [m mv].
      eexists. split; [reflexivity | apply behavioral_flags_shape].
Qed.

(** ** The composite scorer *)

Section ScorerFacts.
Import Py RiskScorer.

Lemma round_comp (x y : Q) : x == y -> round x = round y.
Proof.
  intros E. unfold round.
  rewrite (Qfloor_comp _ _ E).
  assert (E' : x - inject_Z (Qfloor y) == y - inject_Z (Qfloor y))
    by (rewrite E; reflexivity).
  rewrite (Qcompare_comp _ _ E' (1 # 2) (1 # 2) (Qeq_refl _)).
  reflexivity.
Qed.

Lemma sum_Permutation (l l' : list Q) : Permutation l l' -> sum l == sum l'.
Proof.
  induction 1 as [|x l l' _ IH|x y l|l l' l'' _ IH1 _ IH2]; cbn.
  - reflexivity.
  - rewrite IH. reflexivity.
  - ring.
  - rewrite IH1. exact IH2.
Qed.

(** What [score] computes, when it returns. *)
Lemma score_inv cfg c l m b out :
  score cfg c l m b = Some out ->
  exists cs ls ms bs fc fl fm fb,
    risk_score_of c = Some cs /\ risk_score_of l = Some ls
    /\ risk_score_of m = Some ms /\ risk_score_of b = Some bs
    /\ risk_flags_of c = Some fc /\ risk_flags_of l = Some fl
    /\ risk_flags_of m = Some fm /\ risk_flags_of b = Some fb
    /\ composite_score_of out
       = Some (JNum (inject_Z (composite_of (scoring_weights cfg) cs ls ms bs)))
    /\ risk_level_of out
       = Some (JStr (_determine_risk_level cfg
                       (composite_of (scoring_weights cfg) cs ls ms bs)))
    /\ final_flags out = Some (JArr (final_flags_of (fc ++ fl ++ fm ++ fb))).
Proof.
  unfold score. intros H.
  destruct (risk_score_of c) as [cs|]; [|discriminate].
  destruct (risk_score_of l) as [ls|]; [|discriminate].
  destruct (risk_score_of m) as [ms|]; [|discriminate].
  destruct (risk_score_of b) as [bs|]; [|discriminate].
  destruct (risk_flags_of c) as [fc|]; [|discriminate].
  destruct (risk_flags_of l) as [fl|]; [|discriminate].
  destruct (risk_flags_of m) as [fm|]; [|discriminate].
  destruct (risk_flags_of b) as [fb|]; [|discriminate].
  cbn in H. injection H as <-.
  exists cs, ls, ms, bs, fc, fl, fm, fb. repeat split; reflexivity.
Qed.

(** [score] returns whenever the four scores are numbers and the four flag
    values are lists. *)
Lemma score_returns cfg c l m b :
  Forall (fun r => is_Some (risk_score_of r) /\ is_Some (risk_flags_of r)) [c; l; m; b] ->
  is_Some (score cfg c l m b).
Proof.
  intros H.
  repeat match goal with
         | H : Forall _ (_ :: _) |- _ =>
             let a := fresh in let b := fresh in
             apply Forall_cons_1 in H as [[[? a] [? b]] H]
         end.
  unfold score.
  repeat match goal with E : _ = Some _ |- _ => rewrite E; clear E end.
  cbn. eauto.
Qed.

Lemma final_flags_of_Permutation (a b : list json) :
  Permutation a b -> Permutation (final_flags_of a) (final_flags_of b).
Proof.
  intros P. unfold final_flags_of.
  assert (PF : Permutation (List.filter (fun f => negb (is_low_risk f)) a)
                           (List.filter (fun f => negb (is_low_risk f)) b)).
  { clear -P. induction P; cbn;
      repeat match goal with |- context [if ?c then _ else _] => destruct c end;
      eauto using Permutation. }
  destruct (List.filter _ a) as [|x xs], (List.filter _ b) as [|y ys]; auto.
  - apply Permutation_nil in PF. discriminate.
  - apply Permutation_sym, Permutation_nil in PF. discriminate.
Qed.

(** The flags of a component, for the results [score] accepts. *)
Definition flags_or_nil (r : dict) : list json := default [] (risk_flags_of r).
Definition score_or_zero (r : dict) : Q := default 0%Q (risk_score_of r).

Definition equal_weights (w : weights) : Prop :=
  concentration w == liquidity_depth w
  /\ liquidity_depth w == market_risk w
  /\ market_risk w == behavioral w.

Lemma composite_equal_weights w cs ls ms bs :
  equal_weights w ->
  composite_of w cs ls ms bs = round (sum [cs; ls; ms; bs] * concentration w).
Proof.
  intros (E1 & E2 & E3). unfold composite_of. apply round_comp. cbn.
  rewrite <- E3, <- E2, <- E1. ring.
Qed.

End ScorerFacts.

Section ScorerExamples.
Import Py RiskScorer.

Definition sample_levels : list (string * bounds) :=
  [("low", {| level_min := 0; level_max := 25 |});
   ("medium", {| level_min := 26; level_max := 50 |});
   ("high", {| level_min := 51; level_max := 75 |});
   ("critical", {| level_min := 76; level_max := 100 |})].

(** Weights that sum to one and differ between the components. *)
Definition skewed_config : config :=
  {| scoring_weights :=
       {| concentration := 1 # 2; liquidity_depth := 1 # 4;
          market_risk := 1 # 8; behavioral := 1 # 8 |};
     risk_levels := sample_levels |}.

Definition even_config : config :=
  {| scoring_weights :=
       {| concentration := 1 # 4; liquidity_depth := 1 # 4;
          market_risk := 1 # 4; behavioral := 1 # 4 |};
     risk_levels := sample_levels |}.

Definition risky : dict :=
  [("risk_flags", strs ["CRITICAL_GINI"]); ("risk_score", JNum 100)].

Definition calm : dict :=
  [("risk_flags", strs ["LOW_RISK"]); ("risk_score", JNum 0)].

(** The results of the four analyzers on a pool with no data. *)
Definition no_data_results : list dict :=
  [Concentration.analyze
     {| Concentration.risk_thresholds :=
          {| Concentration.top10_dominance_critical_pct := 90;
             Concentration.top10_dominance_high_risk_pct := 70;
             Concentration.gini_critical := 9 # 10;
             Concentration.gini_high_risk := 8 # 10;
             Concentration.hhi_critical := 2500;
             Concentration.hhi_high_risk := 1500 |};
        Concentration.age_thresholds :=
          {| Concentration.mercenary := 7; Concentration.long_term := 90 |} |}
     0 [];
   LiquidityDepth.analyze (fun x => x) (fun x => x) (fun _ => 0%Q)
     {| LiquidityDepth.price_impact_100k_critical_pct := 5;
        LiquidityDepth.price_impact_100k_high_pct := 2;
        LiquidityDepth.price_impact_1m_critical_pct := 10;
        LiquidityDepth.price_impact_1m_high_pct := 5;
        LiquidityDepth.active_liquidity_low_pct := 30;
        LiquidityDepth.tvl_volatility_high_pct := 20 |}
     [] 1 [];
   MarketRisk.analyze (fun _ _ => None)
     {| MarketRisk.utilization_rate_critical_low := 1 # 100;
        MarketRisk.utilization_rate_low := 2 # 100;
        MarketRisk.price_correlation_high_il_risk := 0;
        MarketRisk.price_correlation_low_il_risk := 3 # 10 |}
     [];
   Behavioral.analyze
     {| Behavioral.wash_trading_critical_pct := 20;
        Behavioral.wash_trading_high_pct := 10;
        Behavioral.mev_exposure_critical_pct := 10;
        Behavioral.mev_exposure_high_pct := 5 |}
     []].

End ScorerExamples.

(** C1, as stated, fails: with weights that differ between the components,
    exchanging the first two arguments changes the composite score (50
    against 25) and the risk level (MEDIUM against LOW). *)
Lemma score_depends_on_argument_order :
  Permutation [risky; calm; calm; calm] [calm; risky; calm; calm]
  /\ RiskScorer.composite_score_of <$> RiskScorer.score skewed_config risky calm calm calm
     = Some (Some (Py.JNum 50))
  /\ RiskScorer.composite_score_of <$> RiskScorer.score skewed_config calm risky calm calm
     = Some (Some (Py.JNum 25))
  /\ RiskScorer.risk_level_of <$> RiskScorer.score skewed_config risky calm calm calm
     = Some (Some (Py.JStr "MEDIUM"))
  /\ RiskScorer.risk_level_of <$> RiskScorer.score skewed_config calm risky calm calm
     = Some (Some (Py.JStr "LOW")).
Proof.
  split; [apply perm_swap |].
  repeat split; vm_compute; reflexivity.
Qed.

(** C1, amended: under every permutation of the four results, [score]
    still returns, and the flags of the two composite results are the same
    up to order; when the four weights are equal, the composite score and
    the risk level are the same too. *)
Theorem score_permutation_invariance
    (cfg : RiskScorer.config) (r1 r2 r3 r4 s1 s2 s3 s4 : Py.dict) (out : Py.dict) :
  Permutation [r1; r2; r3; r4] [s1; s2; s3; s4] ->
  RiskScorer.score cfg r1 r2 r3 r4 = Some out ->
  exists out' f f',
    RiskScorer.score cfg s1 s2 s3 s4 = Some out'
    /\ RiskScorer.final_flags out = Some (Py.JArr f)
    /\ RiskScorer.final_flags out' = Some (Py.JArr f')
    /\ Permutation f f'
    /\ (equal_weights (RiskScorer.scoring_weights cfg) ->
        RiskScorer.composite_score_of out' = RiskScorer.composite_score_of out
        /\ RiskScorer.risk_level_of out' = RiskScorer.risk_level_of out).
Proof.
  intros P H.
  destruct (score_inv _ _ _ _ _ _ H)
    as (cs & ls & ms & bs & fc & fl & fm & fb
        & Ec & El & Em & Eb & Fc & Fl & Fm & Fb & Hs & Hl & Hf).
  assert (A : Forall (fun r => is_Some (RiskScorer.risk_score_of r)
                               /\ is_Some (RiskScorer.risk_flags_of r))
                [r1; r2; r3; r4]).
  { repeat constructor; eauto. }
  assert (A' := A). rewrite P in A'.
  destruct (score_returns cfg _ _ _ _ A') as [out' H'].
  destruct (score_inv _ _ _ _ _ _ H')
    as (cs' & ls' & ms' & bs' & fc' & fl' & fm' & fb'
        & Ec' & El' & Em' & Eb' & Fc' & Fl' & Fm' & Fb' & Hs' & Hl' & Hf').
  exists out'. do 2 eexists.
  split; [exact H' |]. split; [exact Hf |]. split; [exact Hf' |]. split.
  - apply final_flags_of_Permutation.
    pose proof (@Permutation_flat_map _ _ flags_or_nil _ _ P) as PF.
    unfold flags_or_nil in PF. cbn in PF.
    rewrite Fc, Fl, Fm, Fb, Fc', Fl', Fm', Fb' in PF. cbn in PF.
    rewrite !app_nil_r in PF. exact PF.
  - intros W.
    assert (E : RiskScorer.composite_of (RiskScorer.scoring_weights cfg) cs' ls' ms' bs'
                = RiskScorer.composite_of (RiskScorer.scoring_weights cfg) cs ls ms bs).
    { rewrite !composite_equal_weights by exact W.
      apply round_comp.
      pose proof (sum_Permutation _ _ (Permutation_map score_or_zero P)) as PS.
      unfold score_or_zero in PS. cbn [map] in PS.
      rewrite Ec, El, Em, Eb, Ec', El', Em', Eb' in PS. cbn [default] in PS.
      rewrite PS. reflexivity. }
    rewrite Hs, Hs', Hl, Hl', E. split; reflexivity.
Qed.

(** The amended C1 at a concrete input: equal weights, first two arguments
    exchanged. *)
Lemma score_permutation_invariance_witness :
  exists out' f f',
    RiskScorer.score even_config calm risky calm calm = Some out'
    /\ RiskScorer.final_flags
         (default [] (RiskScorer.score even_config risky calm calm calm))
       = Some (Py.JArr f)
    /\ RiskScorer.final_flags out' = Some (Py.JArr f')
    /\ Permutation f f'
    /\ (equal_weights (RiskScorer.scoring_weights even_config) ->
        RiskScorer.composite_score_of out'
        = RiskScorer.composite_score_of
            (default [] (RiskScorer.score even_config risky calm calm calm))
        /\ RiskScorer.risk_level_of out'
           = RiskScorer.risk_level_of
               (default [] (RiskScorer.score even_config risky calm calm calm))).
Proof.
  apply (score_permutation_invariance even_config
           risky calm calm calm calm risky calm calm).
  - apply perm_swap.
  - vm_compute. reflexivity.
Defined.

(** C7, as stated, fails: the flags are not deduplicated. On the results of
    the four analyzers for a pool without data, the composite result
    carries [NO_DATA] four times. *)
Lemma score_keeps_repeated_flags :
  exists out f,
    match no_data_results with
    | [c; l; m; b] => RiskScorer.score even_config c l m b
    | _ => None
    end = Some out
    /\ RiskScorer.final_flags out = Some (Py.JArr f)
    /\ f = map Py.JStr ["NO_DATA"; "NO_DATA"; "NO_DATA"; "NO_DATA"]
    /\ ~ NoDup f.
Proof.
  eexists. eexists. split; [vm_compute; reflexivity |].
  split; [vm_compute; reflexivity |].
  split; [reflexivity |].
  intros N. apply NoDup_cons_1_1 in N. apply N. cbn. left.
Qed.

(** C7, amended: the flag list of the composite result is the concatenation
    of the four component flag lists, in argument order, with every
    [LOW_RISK] removed and repeated flags kept; when nothing remains it is
    [["LOW_RISK"]]. So a flag other than the sentinel is in the result
    exactly when a component has it, and the sentinel is in the result
    exactly when no component has another flag. *)
Theorem score_flags_concatenation
    (cfg : RiskScorer.config) (c l m b out : Py.dict) :
  RiskScorer.score cfg c l m b = Some out ->
  exists fc fl fm fb final,
    RiskScorer.risk_flags_of c = Some fc /\ RiskScorer.risk_flags_of l = Some fl
    /\ RiskScorer.risk_flags_of m = Some fm /\ RiskScorer.risk_flags_of b = Some fb
    /\ RiskScorer.final_flags out = Some (Py.JArr final)
    /\ let all_flags := fc ++ fl ++ fm ++ fb in
       let real := List.filter (fun f => negb (RiskScorer.is_low_risk f)) all_flags in
       (real <> [] -> final = real)
       /\ (real = [] -> final = [Py.JStr "LOW_RISK"])
       /\ (forall f, RiskScorer.is_low_risk f = false ->
                     (In f final <-> In f all_flags))
       /\ (In (Py.JStr "LOW_RISK") final <->
           forall f, In f all_flags -> RiskScorer.is_low_risk f = true).
Proof.
  intros H.
  destruct (score_inv _ _ _ _ _ _ H)
    as (cs & ls & ms & bs & fc & fl & fm & fb
        & _ & _ & _ & _ & Fc & Fl & Fm & Fb & _ & _ & Hf).
  exists fc, fl, fm, fb, (RiskScorer.final_flags_of (fc ++ fl ++ fm ++ fb)).
  repeat (split; [assumption |]).
  cbv zeta. unfold RiskScorer.final_flags_of.
  set (all_flags := fc ++ fl ++ fm ++ fb).
  assert (M : forall f, In f (List.filter (fun f => negb (RiskScorer.is_low_risk f)) all_flags)
                        <-> In f all_flags /\ RiskScorer.is_low_risk f = false).
  { intros f. rewrite List.filter_In, negb_true_iff. reflexivity. }
  destruct (List.filter _ all_flags) as [|x real] eqn:E.
  - split; [congruence |]. split; [reflexivity |]. split.
    + intros f Lf. split.
      * intros [<- | []]. discriminate.
      * intros I. exfalso. apply (proj2 (M f)); auto.
    + split; [| intros _; left; reflexivity].
      intros _ f I. destruct (RiskScorer.is_low_risk f) eqn:Lf; [reflexivity |].
      exfalso. apply (proj2 (M f)); auto.
  - split; [reflexivity |]. split; [discriminate |]. split.
    + intros f Lf. rewrite M. tauto.
    + split.
      * intros I. apply M in I as [_ I]. discriminate.
      * intros A. exfalso. destruct (proj1 (M x)) as [I Lx]; [left; reflexivity |].
        rewrite (A x I) in Lx. discriminate.
Qed.

(** The amended C7 on the four results without data. *)
Lemma score_flags_concatenation_witness :
  exists fc fl fm fb final,
    RiskScorer.risk_flags_of (nth 0 no_data_results []) = Some fc
    /\ RiskScorer.risk_flags_of (nth 1 no_data_results []) = Some fl
    /\ RiskScorer.risk_flags_of (nth 2 no_data_results []) = Some fm
    /\ RiskScorer.risk_flags_of (nth 3 no_data_results []) = Some fb
    /\ RiskScorer.final_flags
         (default []
            (RiskScorer.score even_config
               (nth 0 no_data_results []) (nth 1 no_data_results [])
               (nth 2 no_data_results []) (nth 3 no_data_results [])))
       = Some (Py.JArr final)
    /\ let all_flags := fc ++ fl ++ fm ++ fb in
       let real := List.filter (fun f => negb (RiskScorer.is_low_risk f)) all_flags in
       (real <> [] -> final = real)
       /\ (real = [] -> final = [Py.JStr "LOW_RISK"])
       /\ (forall f, RiskScorer.is_low_risk f = false ->
                     (In f final <-> In f all_flags))
       /\ (In (Py.JStr "LOW_RISK") final <->
           forall f, In f all_flags -> RiskScorer.is_low_risk f = true).
Proof.
  apply (score_flags_concatenation even_config).
  vm_compute. reflexivity.
Defined.

(** ** The agent router *)

Section RouterFacts.
Import Py Orchestrator.

(** The mean of the scores that are present, that is, not zero; 0 when
    there is none. *)
Definition mean_of_present (scores : list Q) : Q :=
  let present := List.filter Qnonzero scores in
  match present with
  | [] => 0%Q
  | _ => (sum present / of_nat (length present))%Q
  end.

(** The score a sub-agent contributes: the number its reply carries, and 0
    for an agent that was not discovered or whose invocation failed. *)
Definition sub_score (conns : gmap string connection) (agent : string)
    (st : state) (q : Q) : Prop :=
  match conns !! agent with
  | None => q = 0%Q
  | Some conn =>
      match conn (message_data st) with
      | Replied result => get_or result "risk_score" (JNum 0) = JNum q
      | SendRaised _ => q = 0%Q
      end
  end.

Definition unavailable (agent : string) : dict :=
  [("answer", JStr (agent ++ " agent unavailable"));
   ("metadata", JObj [("error", JStr "Agent not discovered")]);
   ("risk_score", JNum 0)].

Lemma Qnonzero_false (q : Q) : Qnonzero q = false -> q == 0.
Proof.
  unfold Qnonzero. intros H. apply negb_false_iff in H.
  apply Qeq_bool_eq. exact H.
Qed.

Lemma mean_skips_zero (q : Q) :
  mean_of_present [0%Q; q] == q /\ mean_of_present [q; 0%Q] == q.
Proof.
  unfold mean_of_present. cbn [List.filter].
  change (Qnonzero 0) with false.
  destruct (Qnonzero q) eqn:E; unfold of_nat; cbn.
  - split; field.
  - apply Qnonzero_false in E. split; rewrite E; reflexivity.
Qed.

(** The score field of what an invocation stores. *)
Lemma invoke_pool_risk_score conns st p :
  sub_score conns "pool_risk" st p ->
  get (invoke_pool_risk conns st) "risk_score" = Some (JNum p).
Proof.
  unfold sub_score, invoke_pool_risk.
  destruct (conns !! "pool_risk") as [conn|]; [|intros ->; reflexivity].
  destruct (conn (message_data st)); [intros -> | intros ->]; reflexivity.
Qed.

Lemma invoke_token_intel_score conns st t :
  sub_score conns "token_intelligence" st t ->
  get (invoke_token_intel conns st) "risk_score" = Some (JNum t).
Proof.
  unfold sub_score, invoke_token_intel.
  destruct (conns !! "token_intelligence") as [conn|]; [|intros ->; reflexivity].
  destruct (conn (message_data st)); [intros -> | intros ->]; reflexivity.
Qed.

Lemma finalize_output_mean st pr ti p t :
  pool_risk_result st = Some pr -> token_intel_result st = Some ti ->
  get pr "risk_score" = Some (JNum p) -> get ti "risk_score" = Some (JNum t) ->
  exists out, finalize_output st = Some out
              /\ out_risk_score out == mean_of_present [p; t].
Proof.
  intros Hp Ht Gp Gt. unfold finalize_output, present_score, mean_of_present.
  rewrite Hp, Ht. cbn [from_option]. unfold id.
  rewrite Gp, Gt. cbn [truthy List.filter].
  destruct (Qnonzero p), (Qnonzero t); cbn; eexists; (split; [reflexivity |]);
    unfold of_nat; cbn; try reflexivity; field.
Qed.

End RouterFacts.

(** C8: for a query routed to both agents, where [p] and [t] are the
    scores the two sub-agents contribute (0 for an agent that is missing
    from the discovery table or whose call failed): a missing agent gets
    the placeholder result "<agent> agent unavailable" with score 0, the
    request still produces an output, the composite score is the mean of
    the scores present (not zero), so that a missing agent leaves the other
    agent's score as the composite instead of halving it, and it is 0 when
    no score is present. *)
Theorem router_composite_mean
    (conns : gmap string Orchestrator.connection) (st : Orchestrator.state)
    (synthesis : string) (p t : Q) :
  sub_score conns "pool_risk" st p ->
  sub_score conns "token_intelligence" st t ->
  (conns !! "pool_risk" = None ->
   Orchestrator.invoke_pool_risk conns st = unavailable "Pool Risk")
  /\ (conns !! "token_intelligence" = None ->
      Orchestrator.invoke_token_intel conns st = unavailable "Token Intelligence")
  /\ exists out,
      Orchestrator.run conns "both" synthesis st = Some out
      /\ Orchestrator.out_risk_score out == mean_of_present [p; t]
      /\ (conns !! "pool_risk" = None -> Orchestrator.out_risk_score out == t)
      /\ (conns !! "token_intelligence" = None -> Orchestrator.out_risk_score out == p)
      /\ (p == 0 -> t == 0 -> Orchestrator.out_risk_score out == 0).
Proof.
  intros Sp St.
  split; [intros E; unfold Orchestrator.invoke_pool_risk; rewrite E; reflexivity |].
  split; [intros E; unfold Orchestrator.invoke_token_intel; rewrite E; reflexivity |].
  unfold Orchestrator.run. cbn [String.eqb Ascii.eqb Bool.eqb].
  cbn [Orchestrator.query Orchestrator.pool_address Orchestrator.trace_id
       Orchestrator.pool_risk_result Orchestrator.token_intel_result
       Orchestrator.final_answer Orchestrator.answer].
  match goal with
  | |- exists out, Orchestrator.finalize_output ?s = _ /\ _ =>
      destruct (finalize_output_mean s _ _ p t eq_refl eq_refl) as (out & Ho & Hm)
  end.
  - apply invoke_pool_risk_score. exact Sp.
  - apply invoke_token_intel_score. exact St.
  - exists out. split; [exact Ho |]. split; [exact Hm |].
    split; [| split].
    + intros E. unfold sub_score in Sp. rewrite E in Sp. subst p.
      rewrite Hm. apply mean_skips_zero.
    + intros E. unfold sub_score in St. rewrite E in St. subst t.
      rewrite Hm. apply mean_skips_zero.
    + intros Zp Zt. rewrite Hm. unfold mean_of_present. cbn [List.filter].
      unfold Py.Qnonzero.
      rewrite (Qeq_eq_bool _ _ Zp), (Qeq_eq_bool _ _ Zt). reflexivity.
Qed.

Section RouterExample.
Import Py Orchestrator.

(** A token-intelligence agent that answers with score 40, and no pool-risk
    agent in the table. *)
Definition token_only : gmap string connection :=
  {[ "token_intelligence" :=
       fun _ => Replied [("answer", JStr "token looks fine");
                         ("metadata", JObj []);
                         ("risk_score", JNum 40)] ]}.

Definition sample_query : state :=
  {| query := "Analyze this pool"; pool_address := JStr "0x88e6";
     trace_id := JNull; pool_risk_result := None; token_intel_result := None;
     final_answer := None; answer := None |}.

End RouterExample.

(** C8 at a concrete input: the pool-risk agent is missing, the token agent
    scores 40. *)
Lemma router_composite_mean_witness :
  (token_only !! "pool_risk" = None ->
   Orchestrator.invoke_pool_risk token_only sample_query = unavailable "Pool Risk")
  /\ (token_only !! "token_intelligence" = None ->
      Orchestrator.invoke_token_intel token_only sample_query
      = unavailable "Token Intelligence")
  /\ exists out,
      Orchestrator.run token_only "both" "summary" sample_query = Some out
      /\ Orchestrator.out_risk_score out == mean_of_present [0%Q; 40%Q]
      /\ (token_only !! "pool_risk" = None -> Orchestrator.out_risk_score out == 40)
      /\ (token_only !! "token_intelligence" = None ->
          Orchestrator.out_risk_score out == 0)
      /\ (0 == 0 -> 40 == 0 -> Orchestrator.out_risk_score out == 0).
Proof.
  apply (router_composite_mean token_only sample_query "summary" 0 40).
  - vm_compute. reflexivity.
  - vm_compute. reflexivity.
Defined.

(** The run of the witness, evaluated: the composite is 40, not 20. *)
Example router_missing_agent_run :
  Orchestrator.out_risk_score
    <$> Orchestrator.run token_only "both" "summary" sample_query
  = Some (40 / 1)%Q.
Proof. vm_compute. reflexivity. Qed.

(** ** Tool execution *)

Section ExecuteFacts.
Import Py PlanExecute.

(** The successful results of the tools other than the composite one. *)
Definition other_successes (results : list dict) : nat :=
  length (List.filter
            (fun r => has_key r "result" && negb (String.eqb (tool_of r) COMPOSITE))
            results).

(** An entry of the composite tool, be it a result or an error. *)
Definition composite_entry_in (results : list dict) : Prop :=
  exists r, In r results /\ get r "tool" = Some (JStr COMPOSITE).

Lemma single_tool_name tools address name :
  get (fst (execute_single_tool tools address name)) "tool" = Some (JStr name).
Proof.
  unfold execute_single_tool.
  destruct (tools !! name) as [t|]; [|reflexivity].
  destruct (String.eqb name LIQUIDITY).
  - destruct (t _); reflexivity.
  - destruct (String.eqb name COMPOSITE); [reflexivity |].
    destruct (t _); reflexivity.
Qed.

Lemma single_tool_log tools address name :
  Forall (fun i : invocation => fst i = name)
    (snd (execute_single_tool tools address name)).
Proof.
  unfold execute_single_tool.
  destruct (tools !! name) as [t|]; [|constructor].
  destruct (String.eqb name LIQUIDITY).
  - destruct (t _); repeat constructor.
  - destruct (String.eqb name COMPOSITE); [constructor |].
    destruct (t _); repeat constructor.
Qed.

(** Nothing of the first wave bears the name of the composite tool. *)
Lemma first_wave_names tools address selected :
  Forall (fun r => exists name, get r "tool" = Some (JStr name) /\ name <> COMPOSITE)
    (fst (first_wave tools address selected))
  /\ Forall (fun i : invocation => fst i <> COMPOSITE)
       (snd (first_wave tools address selected)).
Proof.
  unfold first_wave. cbn [fst snd].
  induction selected as [|name selected [IH1 IH2]]; cbn [List.filter map concat].
  - split; constructor.
  - destruct (String.eqb name COMPOSITE) eqn:E; cbn [negb]; [split; assumption |].
    apply String.eqb_neq in E. cbn [map List.filter concat]. split.
    + destruct (negb _); [constructor |]; try assumption.
      exists name. split; [apply single_tool_name | assumption].
    + apply Forall_app. split; [| assumption].
      eapply List.Forall_impl; [| apply single_tool_log].
      intros i ->. assumption.
Qed.

Lemma risk_results_size (results : list dict) (m : gmap string json) :
  size (fold_left
          (fun m r => if has_key r "result"
                      then <[tool_of r := get_or r "result" (JObj [])]> m
                      else m)
          results m)
  <= size m + length (List.filter (fun r => has_key r "result") results).
Proof.
  revert m. induction results as [|r results IH]; intros m; cbn [fold_left List.filter].
  - lia.
  - destruct (has_key r "result").
    + etransitivity; [apply IH |]. cbn [length].
      rewrite map_size_insert. destruct (m !! tool_of r); unfold id; lia.
    + apply IH.
Qed.

Lemma tool_of_name r name : get r "tool" = Some (JStr name) -> tool_of r = name.
Proof. unfold tool_of. intros ->. reflexivity. Qed.

(** On the results of a first wave, every success is one of another tool. *)
Lemma other_successes_all results :
  Forall (fun r => exists name, get r "tool" = Some (JStr name) /\ name <> COMPOSITE)
    results ->
  other_successes results = successes results.
Proof.
  unfold other_successes, successes. intros H. f_equal.
  induction H as [|r results (name & Hn & Hc) _ IH]; [reflexivity |].
  cbn [List.filter]. rewrite (tool_of_name _ _ Hn).
  apply String.eqb_neq in Hc. rewrite Hc, andb_true_r, IH. reflexivity.
Qed.

Lemma composite_entry_none results :
  ~ composite_entry_in results -> composite_entry results = None.
Proof.
  induction results as [|r results IH]; intros N; [reflexivity |].
  cbn [composite_entry].
  assert (IH' : composite_entry results = None).
  { apply IH. intros (r' & I & E). apply N. exists r'. split; [right |]; assumption. }
  destruct (get r "tool") as [[| | |name| |]|] eqn:G; try exact IH'.
  destruct (get r "result"); [| exact IH'].
  destruct (String.eqb name COMPOSITE) eqn:E; [| exact IH'].
  apply String.eqb_eq in E. subst name.
  exfalso. apply N. exists r. split; [left; reflexivity | exact G].
Qed.

(** Without an entry of the composite tool, [_finalize_node] returns
    metadata that has neither score nor level. *)
Lemma finalize_without_composite st :
  ~ composite_entry_in (tool_results st) ->
  exists answer metadata,
    _finalize_node st = Some (answer, metadata)
    /\ get metadata "risk_score" = None /\ get metadata "risk_level" = None.
Proof.
  intros N. unfold _finalize_node. rewrite (composite_entry_none _ N).
  cbn. eauto.
Qed.

Lemma not_composite_entry_in results :
  Forall (fun r => exists name, get r "tool" = Some (JStr name) /\ name <> COMPOSITE)
    results ->
  ~ composite_entry_in results.
Proof.
  intros H (r & I & E). rewrite Forall_forall in H.
  destruct (H r) as (name & Hn & Hc).
  - apply list_elem_of_In. exact I.
  - rewrite E in Hn. injection Hn as <-. apply Hc. reflexivity.
Qed.

End ExecuteFacts.

Section ExecuteTheorem.
Import Py PlanExecute.

(** No entry of the composite tool, and whatever state carries these
    results to [_finalize_node], its metadata has no score and no level. *)
Definition no_composite_outcome (st' : state) : Prop :=
  ~ composite_entry_in (tool_results st')
  /\ forall st'', tool_results st'' = tool_results st' ->
       exists answer metadata,
         _finalize_node st'' = Some (answer, metadata)
         /\ get metadata "risk_score" = None /\ get metadata "risk_level" = None.

Lemma no_composite_outcome_intro st' :
  ~ composite_entry_in (tool_results st') -> no_composite_outcome st'.
Proof.
  intros N. split; [exact N |].
  intros st'' E. apply finalize_without_composite. rewrite E. exact N.
Qed.

Lemma other_successes_snoc results v :
  other_successes (results ++ [[("tool", JStr COMPOSITE); ("result", v)]])
  = other_successes results.
Proof.
  unfold other_successes. rewrite List.filter_app, length_app. cbn. lia.
Qed.

Lemma log_composite_last (log0 : list invocation) args args' :
  Forall (fun i : invocation => fst i <> COMPOSITE) log0 ->
  In (COMPOSITE, args') (log0 ++ [(COMPOSITE, args)]) -> args' = args.
Proof.
  intros N I. apply in_app_or in I as [I | [E | []]].
  - rewrite Forall_forall in N. exfalso.
    apply (N (COMPOSITE, args')); [apply list_elem_of_In; exact I | reflexivity].
  - congruence.
Qed.

Lemma log_without_composite (log0 : list invocation) :
  Forall (fun i : invocation => fst i <> COMPOSITE) log0 ->
  ~ In COMPOSITE (map fst log0).
Proof.
  intros N I. apply in_map_iff in I as (i & E & I).
  rewrite Forall_forall in N. apply (N i); [apply list_elem_of_In|]; assumption.
Qed.

End ExecuteTheorem.

(** C10: in [_execute_tools_node] the invocations are those of a first wave
    that never holds the composite tool, followed by at most one invocation
    of the composite tool; that invocation happens only when at least four
    of the other tools returned a result; and when fewer than four did, or
    when the composite invocation raises, [tool_results] holds no entry of
    the composite tool (neither result nor error) and the metadata of
    [_finalize_node] has no [risk_score] and no [risk_level]. *)
Theorem composite_tool_after_first_wave
    (tools : gmap string PlanExecute.tool) (st : PlanExecute.state) :
  let st' := fst (PlanExecute._execute_tools_node tools st) in
  let log := snd (PlanExecute._execute_tools_node tools st) in
  (exists wave late,
      log = wave ++ late
      /\ Forall (fun i : PlanExecute.invocation => fst i <> PlanExecute.COMPOSITE) wave
      /\ (late = [] \/ exists args, late = [(PlanExecute.COMPOSITE, args)]))
  /\ (In PlanExecute.COMPOSITE (map fst log) ->
      4 <= other_successes (PlanExecute.tool_results st'))
  /\ (other_successes (PlanExecute.tool_results st') < 4 -> no_composite_outcome st')
  /\ (forall t args msg,
         tools !! PlanExecute.COMPOSITE = Some t ->
         In (PlanExecute.COMPOSITE, args) log ->
         t args = PlanExecute.Raised msg ->
         no_composite_outcome st').
Proof.
  cbv zeta. unfold PlanExecute._execute_tools_node.
  assert (NoAddress :
    forall flag,
      let st' :=
        {| PlanExecute.user_question := PlanExecute.user_question st;
           PlanExecute.pool_address := PlanExecute.pool_address st;
           PlanExecute.plan := PlanExecute.plan st;
           PlanExecute.tools_to_call := PlanExecute.tools_to_call st;
           PlanExecute.tool_results := [[("error", Py.JStr "No pool address provided")]];
           PlanExecute.synthesized_answer := PlanExecute.synthesized_answer st;
           PlanExecute.exit_flag := flag |} in
      no_composite_outcome st').
  { intros flag. apply no_composite_outcome_intro. cbn.
    intros (r & [<- | []] & E). discriminate. }
  assert (Quiet :
    forall results log0 flag,
      Forall (fun r => exists name, Py.get r "tool" = Some (Py.JStr name)
                                    /\ name <> PlanExecute.COMPOSITE) results ->
      Forall (fun i : PlanExecute.invocation => fst i <> PlanExecute.COMPOSITE) log0 ->
      let st' :=
        {| PlanExecute.user_question := PlanExecute.user_question st;
           PlanExecute.pool_address := PlanExecute.pool_address st;
           PlanExecute.plan := PlanExecute.plan st;
           PlanExecute.tools_to_call := PlanExecute.tools_to_call st;
           PlanExecute.tool_results := results;
           PlanExecute.synthesized_answer := PlanExecute.synthesized_answer st;
           PlanExecute.exit_flag := flag |} in
      (exists wave late,
          log0 = wave ++ late
          /\ Forall (fun i : PlanExecute.invocation => fst i <> PlanExecute.COMPOSITE) wave
          /\ (late = [] \/ exists args, late = [(PlanExecute.COMPOSITE, args)]))
      /\ (In PlanExecute.COMPOSITE (map fst log0) ->
          4 <= other_successes (PlanExecute.tool_results st'))
      /\ (other_successes (PlanExecute.tool_results st') < 4 -> no_composite_outcome st')
      /\ (forall t args msg,
             tools !! PlanExecute.COMPOSITE = Some t ->
             In (PlanExecute.COMPOSITE, args) log0 ->
             t args = PlanExecute.Raised msg ->
             no_composite_outcome st')).
  { intros results log0 flag N1 N2. cbv zeta.
    assert (O : no_composite_outcome
                  {| PlanExecute.user_question := PlanExecute.user_question st;
                     PlanExecute.pool_address := PlanExecute.pool_address st;
                     PlanExecute.plan := PlanExecute.plan st;
                     PlanExecute.tools_to_call := PlanExecute.tools_to_call st;
                     PlanExecute.tool_results := results;
                     PlanExecute.synthesized_answer := PlanExecute.synthesized_answer st;
                     PlanExecute.exit_flag := flag |}).
    { apply no_composite_outcome_intro. cbn. apply not_composite_entry_in, N1. }
    split; [exists log0, []; rewrite app_nil_r; auto |].
    split; [intros I; exfalso; exact (log_without_composite _ N2 I) |].
    split; [intros _; exact O | intros; exact O]. }
  destruct (PlanExecute.pool_address st) as [address|].
  2: { cbn [fst snd]. split; [exists [], []; auto |].
       split; [intros [] |]. split; [intros _ | intros]; apply NoAddress. }
  destruct address as [|a address].
  { cbn [fst snd]. split; [exists [], []; auto |].
    split; [intros [] |]. split; [intros _ | intros]; apply NoAddress. }
  pose proof (first_wave_names tools (String a address) (PlanExecute.tools_to_call st))
    as [N1 N2].
  destruct (PlanExecute.first_wave tools (String a address) (PlanExecute.tools_to_call st))
    as [results log0].
  cbn [fst snd] in N1, N2.
  destruct (Py.mem PlanExecute.COMPOSITE (PlanExecute.tools_to_call st));
    [| cbn [fst snd]; apply Quiet; assumption].
  destruct (4 <=? size (PlanExecute.risk_results_of results))%nat eqn:Four;
    [| cbn [fst snd]; apply Quiet; assumption].
  apply Nat.leb_le in Four.
  assert (Enough : 4 <= other_successes results).
  { rewrite (other_successes_all _ N1). etransitivity; [exact Four |].
    unfold PlanExecute.risk_results_of, PlanExecute.successes.
    etransitivity; [apply risk_results_size |]. rewrite map_size_empty. lia. }
  destruct (tools !! PlanExecute.COMPOSITE) as [composite_tool|] eqn:Loaded;
    [| cbn [fst snd]; apply Quiet; assumption].
  destruct (composite_tool (PlanExecute.composite_args (PlanExecute.risk_results_of results)))
    as [v | e] eqn:Call; cbn [fst snd PlanExecute.tool_results].
  - split; [exists log0; eexists; split; [reflexivity |]; split; eauto |].
    rewrite other_successes_snoc.
    split; [intros _; exact Enough |].
    split; [intros Few; lia |].
    intros t args msg Et I Er. exfalso.
    apply (log_composite_last _ _ _ N2) in I. subst args.
    injection Et as <-. congruence.
  - assert (O : no_composite_outcome
                  {| PlanExecute.user_question := PlanExecute.user_question st;
                     PlanExecute.pool_address := Some (String a address);
                     PlanExecute.plan := PlanExecute.plan st;
                     PlanExecute.tools_to_call := PlanExecute.tools_to_call st;
                     PlanExecute.tool_results := results;
                     PlanExecute.synthesized_answer := PlanExecute.synthesized_answer st;
                     PlanExecute.exit_flag := false |}).
    { apply no_composite_outcome_intro. cbn. apply not_composite_entry_in, N1. }
    split; [exists log0; eexists; split; [reflexivity |]; split; eauto |].
    split; [intros _; exact Enough |].
    split; [intros _; exact O | intros; exact O].
Qed.

Section ExecuteExamples.
Import Py PlanExecute.

Definition analyzer_ok (score : Q) : tool :=
  fun _ => Returned (JObj [("risk_score", JNum score); ("risk_flags", strs ["LOW_RISK"])]).

Definition composite_ok : tool :=
  fun _ => Returned (JObj [("composite_score", JNum 42); ("risk_level", JStr "MEDIUM")]).

Definition tools_with (market composite : tool) : gmap string tool :=
  <[CONCENTRATION := analyzer_ok 40]>
    (<[LIQUIDITY := analyzer_ok 50]>
       (<[MARKET := market]>
          (<[BEHAVIORAL := analyzer_ok 30]>
             (<[COMPOSITE := composite]> ∅)))).

Definition full_request : state :=
  {| user_question := "Full analysis"; pool_address := Some "0x88e6";
     plan := "all tools";
     tools_to_call := [CONCENTRATION; LIQUIDITY; MARKET; BEHAVIORAL; COMPOSITE];
     tool_results := []; synthesized_answer := Some "done"; exit_flag := false |}.

Definition metadata_of (tools : gmap string tool) (st : state) : option dict :=
  snd <$> _finalize_node (fst (_execute_tools_node tools st)).

End ExecuteExamples.

(** Four successes and a composite tool that returns: the score reaches
    the metadata. *)
Example composite_runs_after_four :
  map fst (snd (PlanExecute._execute_tools_node
                  (tools_with (analyzer_ok 20) composite_ok) full_request))
  = ["analyze_concentration_risk"; "analyze_liquidity_depth"; "analyze_market_risk";
     "analyze_behavioral_risk"; "calculate_composite_risk_score"]
  /\ (fun m => Py.get m "risk_score")
       <$> metadata_of (tools_with (analyzer_ok 20) composite_ok) full_request
     = Some (Some (Py.JNum 42)).
Proof. split; vm_compute; reflexivity. Qed.

(** Three successes: the composite tool is not invoked and nothing of it is
    in the results. *)
Example composite_skipped_below_four :
  map fst (snd (PlanExecute._execute_tools_node
                  (tools_with (fun _ => PlanExecute.Raised "timeout") composite_ok)
                  full_request))
  = ["analyze_concentration_risk"; "analyze_liquidity_depth"; "analyze_market_risk";
     "analyze_behavioral_risk"]
  /\ other_successes
       (PlanExecute.tool_results
          (fst (PlanExecute._execute_tools_node
                  (tools_with (fun _ => PlanExecute.Raised "timeout") composite_ok)
                  full_request))) = 3
  /\ (fun m => (Py.get m "risk_score", Py.get m "risk_level"))
       <$> metadata_of (tools_with (fun _ => PlanExecute.Raised "timeout") composite_ok)
             full_request
     = Some (None, None).
Proof. repeat split; vm_compute; reflexivity. Qed.

(** A composite tool that raises leaves four entries and no score. *)
Example composite_raises_leaves_no_entry :
  length (PlanExecute.tool_results
            (fst (PlanExecute._execute_tools_node
                    (tools_with (analyzer_ok 20) (fun _ => PlanExecute.Raised "boom"))
                    full_request))) = 4
  /\ (fun m => (Py.get m "risk_score", Py.get m "risk_level"))
       <$> metadata_of (tools_with (analyzer_ok 20) (fun _ => PlanExecute.Raised "boom"))
             full_request
     = Some (None, None).
Proof. repeat split; vm_compute; reflexivity. Qed.

(** ** Wash trading *)

Section WashExamples.
Import Py Behavioral.

Definition swap_of (n sndr rcpt blk : string) : swap :=
  {| id := n; sender := sndr; recipient := rcpt; origin := sndr;
     tx_id := "tx" ++ n; blockNumber := blk |}.

(** One mutual pair in one block: A sends to B and B sends to A. *)
Definition mutual_pair : list swap :=
  [swap_of "1" "0xA" "0xB" "100"; swap_of "2" "0xB" "0xA" "100"].

(** The same pair, with the swap from A to B made twice. *)
Definition mutual_pair_twice : list swap :=
  [swap_of "1" "0xA" "0xB" "100"; swap_of "2" "0xA" "0xB" "100";
   swap_of "3" "0xB" "0xA" "100"].

End WashExamples.

(** Every pattern found adds 2 to the counter. *)
Lemma scan_recipients_count blk flows sndr recipients
    (acc : list Behavioral.pattern * nat) :
  snd acc = 2 * length (fst acc) ->
  snd (Behavioral.scan_recipients blk flows sndr acc recipients)
  = 2 * length (fst (Behavioral.scan_recipients blk flows sndr acc recipients)).
Proof.
  unfold Behavioral.scan_recipients. revert acc.
  induction recipients as [|rcpt recipients IH]; intros [pats cnt] Hacc; [exact Hacc |].
  cbn [fold_left]. apply IH.
  destruct (Py.mem sndr (Py.dd_get flows rcpt)); [| exact Hacc].
  cbn [fst snd] in *. rewrite length_app. cbn. lia.
Qed.

Lemma scan_flows_count blk flows (acc : list Behavioral.pattern * nat) :
  snd acc = 2 * length (fst acc) ->
  snd (Behavioral.scan_flows blk flows acc)
  = 2 * length (fst (Behavioral.scan_flows blk flows acc)).
Proof.
  unfold Behavioral.scan_flows.
  generalize flows at 2 4. intros senders. revert acc.
  induction senders as [|[sndr recipients] senders IH]; intros acc Hacc; [exact Hacc |].
  cbn [fold_left]. apply IH. apply scan_recipients_count. exact Hacc.
Qed.

Lemma wash_count_twice_patterns (swaps : list Behavioral.swap) :
  Behavioral.suspicious_swap_count swaps
  = 2 * length (fst (Behavioral.scan_blocks (Behavioral.group_by_block swaps))).
Proof.
  unfold Behavioral.suspicious_swap_count, Behavioral.scan_blocks.
  generalize (Behavioral.group_by_block swaps). intros blocks.
  assert (G : forall acc : list Behavioral.pattern * nat,
             snd acc = 2 * length (fst acc) ->
             snd (fold_left
                    (fun acc '(blk, block_swaps) =>
                       if (length block_swaps <? 2)%nat then acc
                       else Behavioral.scan_flows blk
                              (Behavioral.flows_of block_swaps) acc)
                    blocks acc)
             = 2 * length (fst (fold_left
                    (fun acc '(blk, block_swaps) =>
                       if (length block_swaps <? 2)%nat then acc
                       else Behavioral.scan_flows blk
                              (Behavioral.flows_of block_swaps) acc)
                    blocks acc))).
  { induction blocks as [|[blk block_swaps] blocks IH]; intros acc Hacc; [exact Hacc |].
    cbn [fold_left]. apply IH.
    destruct (length block_swaps <? 2)%nat; [exact Hacc |].
    apply scan_flows_count. exact Hacc. }
  apply (G ([], 0)). reflexivity.
Qed.

(** C6, the code at the failing input: for one mutual pair in one block
    the loop finds the pair once from each side, so the counter is 4 for
    two swaps and the wash-trading percentage is 200. With the swap from A
    to B repeated, the counter is 6 for three swaps. *)
Theorem wash_pair_counted_from_both_sides :
  Behavioral.suspicious_swap_count mutual_pair = 4
  /\ fst (Behavioral._detect_wash_trading mutual_pair) == 200
  /\ map Behavioral.addresses (snd (Behavioral._detect_wash_trading mutual_pair))
     = [["0xA"; "0xB"]; ["0xB"; "0xA"]]
  /\ Behavioral.suspicious_swap_count mutual_pair_twice = 6
  /\ fst (Behavioral._detect_wash_trading mutual_pair_twice) == 200.
Proof. repeat split; vm_compute; reflexivity. Qed.

(** ** Retries *)

Section RetryFacts.
Import Py Paginator.

(** An endpoint that fails every post in the same way. *)
Definition failing_server (o : post_outcome) (_ : unit) (r : request)
  : post_outcome * unit := (o, tt).

(** [retry_delay * 1, ..., retry_delay * k], from attempt number [a]. *)
Fixpoint backoffs (cfg : config) (a : Z) (k : nat) : list Q :=
  match k with
  | O => []
  | S k' => (retry_delay cfg * inject_Z a)%Q :: backoffs cfg (a + 1) k'
  end.

Lemma posts_app t1 t2 : posts (t1 ++ t2) = posts t1 ++ posts t2.
Proof.
  induction t1 as [|[r o|s] t1 IH]; cbn; [reflexivity | f_equal; exact IH | exact IH].
Qed.

Lemma sleeps_app t1 t2 : sleeps (t1 ++ t2) = sleeps t1 ++ sleeps t2.
Proof.
  induction t1 as [|[r o|s] t1 IH]; cbn; [reflexivity | exact IH | f_equal; exact IH].
Qed.

(** A failure that the handler catches: a transport failure or an error
    status. *)
Definition request_failure (o : post_outcome) : Prop :=
  exists msg, attempt_body o = inr (RequestException msg).

(** When every post meets such a failure, the loop posts once per
    remaining attempt, sleeps [retry_delay * attemptNumber] between two
    attempts, and raises after the last one. *)
Lemma retry_loop_exhausted cfg o msg (r : request) :
  attempt_body o = inr (RequestException msg) ->
  forall (n : nat) (attempt : Z) (w : world),
    n <> 0 ->
    (attempt + Z.of_nat n = max_retries cfg)%Z ->
    exists w',
      retry_loop (failing_server o) cfg n attempt r w
      = (Raise (QueryFailed (max_retries cfg) msg), w')
      /\ posts (trace w') = posts (trace w) ++ repeat o n
      /\ sleeps (trace w') = sleeps (trace w) ++ backoffs cfg (attempt + 1) (n - 1).
Proof.
  intros Ho. induction n as [|n IH]; intros attempt w Hn Hsum; [congruence |].
  cbn [retry_loop]. unfold do_post, failing_server. rewrite Ho.
  destruct n as [|n].
  - replace (attempt =? max_retries cfg - 1)%Z with true
      by (symmetry; apply Z.eqb_eq; lia).
    eexists. split; [reflexivity |]. cbn [trace].
    rewrite posts_app, sleeps_app. cbn. rewrite app_nil_r. split; reflexivity.
  - replace (attempt =? max_retries cfg - 1)%Z with false
      by (symmetry; apply Z.eqb_neq; lia).
    edestruct (IH (attempt + 1)%Z) as (w' & E & P & S); [lia | lia |].
    eexists. split; [exact E |]. rewrite P, S. unfold sleep. cbn [trace].
    rewrite !posts_app, !sleeps_app. cbn.
    rewrite Nat.sub_0_r, app_nil_r, <- !app_assoc. split; reflexivity.
Qed.

Lemma execute_with_retry_exhausted cfg o msg q vars (w : world) :
  attempt_body o = inr (RequestException msg) ->
  (0 < max_retries cfg)%Z ->
  exists w',
    _execute_with_retry (failing_server o) cfg q vars w
    = (Raise (QueryFailed (max_retries cfg) msg), w')
    /\ posts (trace w') = posts (trace w) ++ repeat o (Z.to_nat (max_retries cfg))
    /\ sleeps (trace w')
       = sleeps (trace w) ++ backoffs cfg 1 (Z.to_nat (max_retries cfg) - 1).
Proof.
  intros Ho Hpos. unfold _execute_with_retry.
  apply (retry_loop_exhausted cfg o msg _ Ho); lia.
Qed.

Definition sample_pagination : config :=
  {| batch_size := 2; rate_limit_delay := 1 # 10; max_retries := 3; retry_delay := 1 |}.

Definition good_body : body := {| errors := None; data := [("positions", [])] |}.
Definition graphql_error_body : body :=
  {| errors := Some ["Store error: database unavailable"]; data := [] |}.

(** What a call from a fresh world gives: the result, the number of posts,
    and the sleeps. *)
Definition observe (script : list post_outcome) : result body * nat * list Q :=
  let '(r, w) :=
    _execute_with_retry scripted_server sample_pagination "query" ∅
      {| server := script; trace := [] |} in
  (r, length (posts (trace w)), sleeps (trace w)).

End RetryFacts.

(** C4, the code at the failing input: with three attempts allowed, a 200
    response whose body has an ["errors"] array ends the call at the first
    attempt, with no sleep and no second post, although the next post would
    have succeeded; the same script with a 503 in place of the GraphQL
    error is retried after [retry_delay * 1] and succeeds. *)
Theorem graphql_errors_raise_without_retry :
  observe [Paginator.Response 200 graphql_error_body; Paginator.Response 200 good_body]
  = (Paginator.Raise (Paginator.GraphQLErrors ["Store error: database unavailable"]),
     1, [])
  /\ observe [Paginator.Response 503 good_body; Paginator.Response 200 good_body]
     = (Paginator.Ok good_body, 2, [1 * inject_Z (0 + 1)]%Q)
  /\ observe [Paginator.Failed "timeout"; Paginator.Response 502 good_body;
              Paginator.Response 500 good_body]
     = (Paginator.Raise (Paginator.QueryFailed 3 "HTTPError"), 3,
        [1 * inject_Z (0 + 1); 1 * inject_Z (0 + 1 + 1)]%Q).
Proof. repeat split; vm_compute; reflexivity. Qed.

(** A response with GraphQL errors ends the call at the attempt that
    receives it, for any endpoint. *)
Lemma graphql_error_ends_call {St : Type}
    (post : St -> Paginator.request -> Paginator.post_outcome * St)
    (cfg : Paginator.config) q vars (w : Paginator.world) status b errs s' :
  (0 < Paginator.max_retries cfg)%Z ->
  post (Paginator.server w) {| Paginator.query := q; Paginator.variables := vars |}
  = (Paginator.Response status b, s') ->
  Paginator.raise_for_status status = None ->
  Paginator.errors b = Some errs ->
  fst (Paginator._execute_with_retry post cfg q vars w)
  = Paginator.Raise (Paginator.GraphQLErrors errs)
  /\ Paginator.posts (Paginator.trace (snd (Paginator._execute_with_retry post cfg q vars w)))
     = Paginator.posts (Paginator.trace w) ++ [Paginator.Response status b]
  /\ Paginator.sleeps (Paginator.trace (snd (Paginator._execute_with_retry post cfg q vars w)))
     = Paginator.sleeps (Paginator.trace w).
Proof.
  intros Hpos Hpost Hstatus Herr. unfold Paginator._execute_with_retry.
  destruct (Z.to_nat (Paginator.max_retries cfg)) as [|n] eqn:E; [lia |].
  cbn [Paginator.retry_loop]. unfold Paginator.do_post. rewrite Hpost.
  cbn [Paginator.attempt_body]. rewrite Hstatus, Herr. cbn [fst snd Paginator.trace].
  rewrite posts_app, sleeps_app. cbn. rewrite app_nil_r. auto.
Qed.

(** ** Pagination *)

Section PagingFacts.
Import Py Paginator.

(** The order of ids, as the indexer compares them. *)
Definition id_lt (a b : string) : Prop := String.ltb a b = true.
Definition ent_lt (a b : entity) : Prop := id_lt (ent_id a) (ent_id b).

Lemma id_lt_lt a b : id_lt a b <-> String_as_OT.lt a b.
Proof.
  unfold id_lt, String.ltb. rewrite <- String_as_OT.cmp_lt.
  unfold String_as_OT.cmp. destruct (String.compare a b); split; congruence.
Qed.

Lemma id_lt_trans a b c : id_lt a b -> id_lt b c -> id_lt a c.
Proof. rewrite !id_lt_lt. apply String_as_OT.lt_trans. Qed.

Lemma id_lt_irrefl a : ~ id_lt a a.
Proof.
  rewrite id_lt_lt. intros H. exact (String_as_OT.lt_not_eq _ _ H eq_refl).
Qed.

Lemma id_lt_asym a b : id_lt a b -> ~ id_lt b a.
Proof. intros H1 H2. exact (id_lt_irrefl a (id_lt_trans _ _ _ H1 H2)). Qed.

Lemma id_lt_empty s : s <> "" -> id_lt "" s.
Proof. destruct s; [congruence | reflexivity]. Qed.

#[local] Instance ent_lt_trans : Transitive ent_lt.
Proof. intros a b c. apply id_lt_trans. Qed.

(** The page the indexer serves after the cursor [c]. *)
Definition page_after (first : nat) (limit : string -> nat) (c : string)
    (db : list entity) : list entity :=
  take (Nat.min first (limit c))
    (filter (fun e => String.ltb c (ent_id e) = true) db).

Lemma filter_split (c : string) (pre rest : list entity) :
  Forall (fun e => ~ id_lt c (ent_id e)) pre ->
  Forall (fun e => id_lt c (ent_id e)) rest ->
  filter (fun e => String.ltb c (ent_id e) = true) (pre ++ rest) = rest.
Proof.
  intros Hpre Hrest. rewrite filter_app.
  replace (filter _ pre) with (@nil entity).
  - cbn. induction Hrest as [|e rest He _ IH]; [reflexivity |].
    rewrite filter_cons_True by exact He. f_equal. exact IH.
  - symmetry. induction Hpre as [|e pre He _ IH]; [reflexivity |].
    rewrite filter_cons_False by exact He. exact IH.
Qed.

(** One call of [_execute_with_retry] against the indexer: a single post,
    answered with the page after the cursor. *)
Lemma execute_paged cfg coll limit db q (vars : gmap string json) c
    (w : world (St := unit)) :
  (0 < batch_size cfg)%Z -> (0 < max_retries cfg)%Z ->
  exists r,
    _execute_with_retry (paged_server coll limit db) cfg q
      (<["batch_size" := JNum (inject_Z (batch_size cfg))]>
         (<["last_id" := JStr c]> vars)) w
    = (Ok {| errors := None;
             data := [(coll, page_after (Z.to_nat (batch_size cfg)) limit c db)] |},
       {| server := tt;
          trace := trace w
                   ++ [EvPost r
                         (Response 200
                            {| errors := None;
                               data := [(coll,
                                         page_after (Z.to_nat (batch_size cfg))
                                           limit c db)] |})] |}).
Proof.
  intros Hb Hr. unfold _execute_with_retry.
  destruct (Z.to_nat (max_retries cfg)) as [|n] eqn:E; [lia |].
  cbn [retry_loop]. unfold do_post, paged_server. cbn [variables].
  rewrite lookup_insert_eq.
  rewrite lookup_insert_ne by discriminate. rewrite lookup_insert_eq.
  rewrite Qfloor_Z. cbn. eexists. reflexivity.
Qed.

(** The shape of a run: full pages, then one short page. *)
Definition paged (first : nat) (pages : list (list entity)) : Prop :=
  exists front final_page,
    pages = front ++ [final_page]
    /\ Forall (fun p => length p = first) front
    /\ length final_page < first.

Lemma pages_of_app coll t1 t2 :
  pages_of coll (t1 ++ t2) = pages_of coll t1 ++ pages_of coll t2.
Proof.
  induction t1 as [|[r [msg|status b]|s] t1 IH]; cbn; try exact IH; [reflexivity |].
  f_equal. exact IH.
Qed.

End PagingFacts.

Section PagingLoop.
Import Py Paginator.

Variables (cfg : config) (coll : string) (limit : string -> nat)
          (db : list entity) (q : string) (vars : gmap string json).
Hypothesis batch_pos : (0 < batch_size cfg)%Z.
Hypothesis retries_pos : (0 < max_retries cfg)%Z.
Hypothesis db_sorted : StronglySorted ent_lt db.

Let first := Z.to_nat (batch_size cfg).

(** The indexer fills every page as long as records remain. *)
Definition fills_pages : Prop := forall c, first <= limit c.

(** After a full page, its last id separates what has been read from what
    is still to come. *)
Lemma cursor_advances (pre page' rest' : list entity) (e : entity) :
  db = pre ++ (page' ++ [e]) ++ rest' ->
  Forall (fun x => ~ id_lt (ent_id e) (ent_id x)) (pre ++ page' ++ [e])
  /\ Forall (fun x => id_lt (ent_id e) (ent_id x)) rest'.
Proof.
  intros E. rewrite E in db_sorted. split.
  - rewrite app_assoc. apply Forall_app. split.
    + apply Forall_forall. intros x Hx. apply id_lt_asym.
      rewrite !app_assoc, <- (app_assoc (pre ++ page')) in db_sorted.
      eapply (StronglySorted_app_1_elem_of ent_lt _ _ x e db_sorted); [exact Hx |].
      apply elem_of_app. left. apply list_elem_of_singleton. reflexivity.
    + repeat constructor. apply id_lt_irrefl.
  - apply Forall_forall. intros y Hy.
    rewrite app_assoc in db_sorted.
    eapply (StronglySorted_app_1_elem_of ent_lt _ _ e y db_sorted); [| exact Hy].
    apply elem_of_app. right. apply elem_of_app. right.
    apply list_elem_of_singleton. reflexivity.
Qed.

Lemma fetch_loop_paged :
  forall (fuel : nat) (rest pre : list entity) (c : string) (w : world (St := unit)),
    db = pre ++ rest ->
    Forall (fun e => ~ id_lt c (ent_id e)) pre ->
    Forall (fun e => id_lt c (ent_id e)) rest ->
    length rest < fuel ->
    exists w' pages remaining,
      fetch_loop (paged_server coll limit db) cfg fuel q vars coll pre c w
      = Some (Ok (pre ++ concat pages), w')
      /\ rest = concat pages ++ remaining
      /\ (fills_pages -> remaining = [])
      /\ pages_of coll (trace w') = pages_of coll (trace w) ++ pages
      /\ paged first pages
      /\ length (posts (trace w')) = length (posts (trace w)) + length pages
      /\ sleeps (trace w')
         = sleeps (trace w) ++ repeat (rate_limit_delay cfg) (length pages - 1).
Proof.
  assert (Hfirst : 0 < first) by (unfold first; lia).
  induction fuel as [|fuel IH]; intros rest pre c w Hdb Hpre Hrest Hfuel; [lia |].
  cbn [fetch_loop].
  destruct (execute_paged cfg coll limit db q vars c w batch_pos retries_pos) as [r ->].
  cbn [data entities_of]. rewrite String.eqb_refl.
  unfold page_after. fold first.
  assert (F : filter (fun e => String.ltb c (ent_id e) = true) db = rest)
    by (rewrite Hdb; apply filter_split; assumption).
  rewrite F. clear F.
  set (m := Nat.min first (limit c)).
  assert (Hm : m <= first) by (unfold m, first in *; lia).
  destruct (last (take m rest)) as [e|] eqn:L.
  - destruct (Z.of_nat (length (take m rest)) <? batch_size cfg)%Z eqn:Short.
    + (* a short page: the last one *)
      apply Z.ltb_lt in Short.
      assert (Hlen : length (take m rest) < first) by (unfold first; lia).
      eexists. exists [take m rest], (drop m rest).
      split; [cbn [concat]; rewrite app_nil_r; reflexivity |].
      split; [cbn [concat]; rewrite app_nil_r, take_drop; reflexivity |].
      split.
      { intros Fill. apply drop_ge.
        assert (m = first) by (specialize (Fill c); unfold m, first in *; lia).
        rewrite length_take in Hlen. lia. }
      cbn [trace]. rewrite pages_of_app, sleeps_app, posts_app, length_app. cbn.
      rewrite String.eqb_refl. rewrite !app_nil_r.
      repeat split. exists [], (take m rest). repeat split; [constructor | exact Hlen].
    + (* a full page: the loop goes on from its last id *)
      apply Z.ltb_ge in Short. rewrite length_take in Short.
      assert (Em : m = first) by (unfold first; lia).
      rewrite Em in *. clear Em Hm m.
      assert (Hlen : first <= length rest) by (unfold first; lia).
      apply last_Some in L as [page' Hpage].
      assert (Hsplit : db = pre ++ (page' ++ [e]) ++ drop first rest).
      { rewrite <- Hpage, take_drop. exact Hdb. }
      destruct (cursor_advances _ _ _ _ Hsplit) as [Hpre' Hrest'].
      edestruct (IH (drop first rest) (pre ++ take first rest) (ent_id e))
        as (w' & pages & remaining & Run & Cat & Fill
            & Pages & (front & final_page & Pf & Ff & Fl) & Po & Sl).
      * rewrite <- app_assoc, take_drop. exact Hdb.
      * rewrite Hpage. exact Hpre'.
      * exact Hrest'.
      * rewrite length_drop. lia.
      * exists w', (take first rest :: pages), remaining.
        split; [rewrite Run, <- app_assoc; reflexivity |].
        split; [cbn [concat]; rewrite <- app_assoc, <- Cat, take_drop; reflexivity |].
        split; [exact Fill |].
        unfold sleep in Pages, Sl, Po. cbn [trace] in Pages, Sl, Po.
        rewrite !pages_of_app in Pages. rewrite !sleeps_app in Sl.
        rewrite !posts_app, !length_app in Po.
        cbn in Pages, Sl, Po. rewrite String.eqb_refl in Pages.
        rewrite !app_nil_r in *.
        split; [rewrite Pages, <- app_assoc; reflexivity |].
        split.
        -- exists (take first rest :: front), final_page.
           split; [rewrite Pf; reflexivity |].
           split; [| exact Fl].
           constructor; [rewrite length_take; lia | exact Ff].
        -- split; [cbn [length]; lia |].
           rewrite Sl, <- app_assoc. f_equal.
           assert (Hl : length pages = S (length front))
             by (rewrite Pf, length_app; cbn; lia).
           cbn [length]. rewrite Hl. cbn. rewrite Nat.sub_0_r. reflexivity.
  - (* an empty page: the loop stops *)
    apply last_None in L. rewrite L.
    eexists. exists [[]], rest.
    split; [cbn [concat]; rewrite !app_nil_r; reflexivity |].
    split; [reflexivity |].
    split.
    { intros Fill.
      assert (Em : m = first) by (specialize (Fill c); unfold m, first in *; lia).
      rewrite Em in L. destruct rest as [|x rest]; [reflexivity |].
      destruct first; [lia | discriminate]. }
    cbn [trace]. rewrite pages_of_app, sleeps_app, posts_app, length_app. cbn.
    rewrite String.eqb_refl. rewrite !app_nil_r.
    repeat split. exists [], []. repeat split; [constructor | exact Hfirst].
Qed.

End PagingLoop.

Section PagingTheorem.
Import Py Paginator.

Lemma sorted_ids_NoDup (db : list entity) :
  StronglySorted ent_lt db -> NoDup (map ent_id db).
Proof.
  induction 1 as [|x l _ IH Hx]; cbn; constructor; [| exact IH].
  intros I. apply list_elem_of_In, in_map_iff in I as (y & E & I).
  rewrite Forall_forall in Hx.
  assert (L : ent_lt x y) by (apply Hx, list_elem_of_In, I).
  unfold ent_lt in L. rewrite E in L. exact (id_lt_irrefl _ L).
Qed.

Definition record (n : string) : entity :=
  {| ent_id := n; ent_fields := [("liquidity", JStr "100")] |}.

(** Five records, served two at a time. *)
Definition five_records : list entity :=
  [record "0x01"; record "0x02"; record "0x03"; record "0x04"; record "0x05"].

Definition fresh : world (St := unit) := {| server := tt; trace := [] |}.

End PagingTheorem.

(** C3: against an indexer that holds records with strictly increasing
    (non-empty) ids and serves, for each query, the next records after the
    cursor, at most [batch_size] of them, with a positive batch size and at
    least one attempt allowed: [fetch_all] returns, given enough fuel,
    exactly the concatenation of the pages it received, which are full
    pages followed by one page shorter than [batch_size] (one post per
    page, none after the short page, a sleep of [rate_limit_delay] after
    each full page); the result is a prefix of the indexer's records, in
    its order and without a repeated id, and it is all of them when the
    indexer fills every page as long as records remain. *)
Theorem fetch_all_concatenates_pages
    (cfg : Paginator.config) (coll q : string) (vars : gmap string Py.json)
    (limit : string -> nat) (db : list Paginator.entity) (fuel : nat) :
  (0 < Paginator.batch_size cfg)%Z ->
  (0 < Paginator.max_retries cfg)%Z ->
  Sorted ent_lt db ->
  Forall (fun e => Paginator.ent_id e <> "") db ->
  length db < fuel ->
  exists w' front final_page remaining,
    Paginator.fetch_all (Paginator.paged_server coll limit db) cfg fuel q vars coll fresh
    = Some (Paginator.Ok (concat (front ++ [final_page])), w')
    /\ Paginator.pages_of coll (Paginator.trace w') = front ++ [final_page]
    /\ Forall (fun p => Z.of_nat (length p) = Paginator.batch_size cfg) front
    /\ (Z.of_nat (length final_page) < Paginator.batch_size cfg)%Z
    /\ length (Paginator.posts (Paginator.trace w')) = length (front ++ [final_page])
    /\ Paginator.sleeps (Paginator.trace w')
       = repeat (Paginator.rate_limit_delay cfg) (length front)
    /\ db = concat (front ++ [final_page]) ++ remaining
    /\ NoDup (map Paginator.ent_id (concat (front ++ [final_page])))
    /\ ((forall c, Z.to_nat (Paginator.batch_size cfg) <= limit c) -> remaining = []).
Proof.
  intros Hb Hr Hs Hid Hfuel.
  assert (SS : StronglySorted ent_lt db)
    by (apply Sorted_StronglySorted; [apply ent_lt_trans | exact Hs]).
  destruct (fetch_loop_paged cfg coll limit db q vars Hb Hr SS fuel db [] "" fresh)
    as (w' & pages & remaining & Run & Cat & Fill
        & Pages & (front & final_page & Pf & Ff & Fl) & Po & Sl).
  - reflexivity.
  - constructor.
  - eapply List.Forall_impl; [| exact Hid]. intros e. apply id_lt_empty.
  - exact Hfuel.
  - exists w', front, final_page, remaining. subst pages. cbn in Pages, Po, Sl, Run.
    split; [exact Run |].
    split; [exact Pages |].
    split; [eapply List.Forall_impl; [| exact Ff]; cbn; intros p Hp; lia |].
    split; [lia |].
    split; [exact Po |].
    split; [rewrite Sl, length_app; cbn; f_equal; lia |].
    split; [exact Cat |].
    split; [| exact Fill].
    apply sorted_ids_NoDup. rewrite Cat in SS.
    apply StronglySorted_app_1_l in SS. exact SS.
Qed.

(** C3 on the scenario of the specification: batch size 2, five records,
    an indexer that fills its pages. *)
Lemma fetch_all_concatenates_pages_witness :
  exists w' front final_page remaining,
    Paginator.fetch_all
      (Paginator.paged_server "positions" (fun _ => 1000) five_records)
      sample_pagination 6 "query" ∅ "positions" fresh
    = Some (Paginator.Ok (concat (front ++ [final_page])), w')
    /\ Paginator.pages_of "positions" (Paginator.trace w') = front ++ [final_page]
    /\ Forall (fun p => Z.of_nat (length p) = Paginator.batch_size sample_pagination)
         front
    /\ (Z.of_nat (length final_page) < Paginator.batch_size sample_pagination)%Z
    /\ length (Paginator.posts (Paginator.trace w')) = length (front ++ [final_page])
    /\ Paginator.sleeps (Paginator.trace w')
       = repeat (Paginator.rate_limit_delay sample_pagination) (length front)
    /\ five_records = concat (front ++ [final_page]) ++ remaining
    /\ NoDup (map Paginator.ent_id (concat (front ++ [final_page])))
    /\ ((forall c : string,
           Z.to_nat (Paginator.batch_size sample_pagination) <= 1000) ->
        remaining = []).
Proof.
  apply (fetch_all_concatenates_pages sample_pagination "positions" "query" ∅
           (fun _ => 1000) five_records 6).
  - reflexivity.
  - reflexivity.
  - repeat constructor.
  - repeat constructor; discriminate.
  - cbn. lia.
Defined.

(** The same run, evaluated: three pages of 2, 2 and 1 records, the five
    records in the order of the indexer. *)
Example fetch_all_two_two_one :
  (fun '(r, w) =>
     (r, map length (Paginator.pages_of "positions" (Paginator.trace w)),
      Paginator.sleeps (Paginator.trace w)))
    <$> Paginator.fetch_all
          (Paginator.paged_server "positions" (fun _ => 1000) five_records)
          sample_pagination 6 "query" ∅ "positions" fresh
  = Some (Paginator.Ok five_records, [2; 2; 1], [1 # 10; 1 # 10]%Q).
Proof. vm_compute. reflexivity. Qed.

(** An indexer that serves a single record after the first page: the loop
    takes the short page for the last one and returns three records. *)
Example fetch_all_stops_at_short_page :
  (fun '(r, w) =>
     (r, map length (Paginator.pages_of "positions" (Paginator.trace w))))
    <$> Paginator.fetch_all
          (Paginator.paged_server "positions"
             (fun c => if String.eqb c "" then 2 else 1) five_records)
          sample_pagination 6 "query" ∅ "positions" fresh
  = Some (Paginator.Ok (take 3 five_records), [2; 1]).
Proof. vm_compute. reflexivity. Qed.

(** ** The Gini coefficient *)

Section GiniFacts.
Import Py Concentration.
Local Open Scope Q_scope.

Lemma of_nat_S (n : nat) : of_nat (S n) == of_nat n + 1.
Proof.
  unfold of_nat. rewrite Nat2Z.inj_succ, <- Z.add_1_r, inject_Z_plus. reflexivity.
Qed.

Lemma of_nat_nonneg (n : nat) : 0 <= of_nat n.
Proof.
  unfold of_nat. change 0%Q with (inject_Z 0). rewrite <- Zle_Qle. lia.
Qed.

(** *** The sort *)

Lemma insert_by_Permutation {A : Type} (leb : A -> A -> bool) (x : A) (l : list A) :
  Permutation (insert_by leb x l) (x :: l).
Proof.
  induction l as [|y l IH]; cbn; [reflexivity |].
  destruct (leb x y); [reflexivity |].
  rewrite IH. apply perm_swap.
Qed.

Lemma sort_by_Permutation {A : Type} (leb : A -> A -> bool) (l : list A) :
  Permutation (sort_by leb l) l.
Proof.
  induction l as [|x l IH]; cbn; [reflexivity |].
  rewrite insert_by_Permutation, IH. reflexivity.
Qed.

Lemma insert_ascending (x : Q) (l : list Q) :
  StronglySorted Qle l -> StronglySorted Qle (insert_by Qle_bool x l).
Proof.
  induction 1 as [|y l Hs IH Hy]; cbn; [repeat constructor |].
  destruct (Qle_bool x y) eqn:E.
  - apply Qle_bool_iff in E. constructor; [constructor; assumption |].
    constructor; [exact E |].
    eapply List.Forall_impl; [| exact Hy]. intros z Hz. lra.
  - assert (Hyx : y <= x).
    { destruct (Qlt_le_dec x y) as [L | L]; [| exact L].
      apply Qlt_le_weak, Qle_bool_iff in L. congruence. }
    constructor; [exact IH |].
    rewrite (insert_by_Permutation Qle_bool x l). constructor; assumption.
Qed.

Lemma np_sort_ascending (values : list Q) : StronglySorted Qle (np_sort values).
Proof.
  unfold np_sort, sort_by.
  induction values as [|x values IH]; cbn; [constructor |].
  apply insert_ascending, IH.
Qed.

(** *** Sums *)

Lemma sum_lower (x : Q) (l : list Q) :
  Forall (Qle x) l -> of_nat (length l) * x <= sum l.
Proof.
  induction 1 as [|y l Hy _ IH]; cbn [length sum foldr].
  - change (of_nat 0) with 0. lra.
  - rewrite of_nat_S. fold (sum l). lra.
Qed.

Lemma sum_nonneg (l : list Q) : Forall (Qle 0) l -> 0 <= sum l.
Proof.
  intros H. pose proof (sum_lower 0 l H). lra.
Qed.

Lemma cumsum_last (l : list Q) (acc d : Q) :
  l <> [] -> List.last (np_cumsum acc l) d == acc + sum l.
Proof.
  revert acc. induction l as [|x l IH]; intros acc Hne; [congruence |].
  destruct l as [|y l].
  - cbn. lra.
  - change (np_cumsum acc (x :: y :: l))
      with ((acc + x)%Q :: np_cumsum (acc + x)%Q (y :: l)).
    change (List.last ((acc + x)%Q :: np_cumsum (acc + x)%Q (y :: l)) d)
      with (List.last (np_cumsum (acc + x)%Q (y :: l)) d).
    rewrite IH by discriminate. cbn. lra.
Qed.

(** [np.sum(np.arange(k, k + n) * values)]. *)
Definition weighted (k : Z) (l : list Q) : Q :=
  sum (zip_with Qmult (np_arange k (length l)) l).

Lemma weighted_cons (k : Z) (x : Q) (l : list Q) :
  weighted k (x :: l) = (inject_Z k * x + weighted (k + 1) l)%Q.
Proof. reflexivity. Qed.

Lemma inject_Z_succ (k : Z) : inject_Z (k + 1) == inject_Z k + 1.
Proof. rewrite inject_Z_plus. reflexivity. Qed.

(** Ascending values weigh at least as much as their mean would
    (Chebyshev's sum inequality for the weights k, k+1, ...). *)
Lemma weighted_lower (l : list Q) :
  StronglySorted Qle l ->
  forall k : Z,
    (2 * inject_Z k + of_nat (length l) - 1) * sum l <= 2 * weighted k l.
Proof.
  induction 1 as [|x l _ IH Hx]; intros k.
  - unfold weighted. cbn [length np_arange zip_with sum foldr].
    change (of_nat 0) with 0. lra.
  - rewrite weighted_cons. cbn [length sum foldr]. fold (sum l).
    rewrite of_nat_S.
    specialize (IH (k + 1)%Z). rewrite inject_Z_succ in IH.
    pose proof (sum_lower x l Hx) as Hl.
    pose proof (of_nat_nonneg (length l)) as Hn.
    nra.
Qed.

(** No weight exceeds the last one. *)
Lemma weighted_upper (l : list Q) :
  Forall (Qle 0) l ->
  forall k : Z,
    (0 <= k)%Z ->
    weighted k l <= (inject_Z k + of_nat (length l) - 1) * sum l.
Proof.
  induction 1 as [|x l Hx Hl IH]; intros k Hk.
  - unfold weighted. cbn [length np_arange zip_with sum foldr].
    change (of_nat 0) with 0. lra.
  - rewrite weighted_cons. cbn [length sum foldr]. fold (sum l).
    rewrite of_nat_S.
    specialize (IH (k + 1)%Z ltac:(lia)). rewrite inject_Z_succ in IH.
    pose proof (sum_nonneg l Hl) as Hs.
    pose proof (of_nat_nonneg (length l)) as Hn.
    assert (Hk' : 0 <= inject_Z k) by (change 0%Q with (inject_Z 0); rewrite <- Zle_Qle; lia).
    nra.
Qed.

(** Equal values. *)
Lemma weighted_equal (c : Q) (l : list Q) :
  Forall (fun x => x == c) l ->
  forall k : Z,
    2 * weighted k l == c * of_nat (length l) * (2 * inject_Z k + of_nat (length l) - 1)
    /\ sum l == of_nat (length l) * c.
Proof.
  induction 1 as [|x l Hx _ IH]; intros k.
  - unfold weighted. cbn [length np_arange zip_with sum foldr].
    change (of_nat 0) with 0. split; ring.
  - rewrite weighted_cons. cbn [length sum foldr]. fold (sum l).
    rewrite of_nat_S.
    destruct (IH (k + 1)%Z) as [IHw IHs]. rewrite inject_Z_succ in IHw.
    rewrite Hx. split; lra.
Qed.

(** *** The coefficient *)

(** The value of [_calculate_gini] on a non-empty list, with the running
    sum read as the total. *)
Lemma gini_formula (values : list Q) :
  values <> [] ->
  _calculate_gini values
  == (2 * weighted 1 (np_sort values))
       / (of_nat (length values) * sum (np_sort values))
     - (of_nat (length values) + 1) / of_nat (length values).
Proof.
  intros Hne. pose proof (sort_by_Permutation Qle_bool values) as P.
  fold (np_sort values) in P.
  assert (Hs : np_sort values <> []).
  { intros E. rewrite E in P. apply Permutation_nil in P. congruence. }
  destruct values as [|v vs]; [congruence |].
  unfold _calculate_gini. fold (weighted 1 (np_sort (v :: vs))).
  rewrite (cumsum_last _ 0 0 Hs).
  rewrite (Permutation_length P).
  rewrite Qplus_0_l. reflexivity.
Qed.

Lemma of_nat_pos (l : list Q) : l <> [] -> 0 < of_nat (length l).
Proof.
  destruct l as [|x l]; [congruence |]. intros _. cbn [length].
  rewrite of_nat_S. pose proof (of_nat_nonneg (length l)). lra.
Qed.

Lemma sum_pos (l : list Q) : l <> [] -> Forall (fun x => 0 < x) l -> 0 < sum l.
Proof.
  destruct l as [|x l]; [congruence |]. intros _ H.
  apply Forall_cons_1 in H as [Hx Hl]. change (0 < x + sum l).
  assert (0 <= sum l); [| lra].
  apply sum_nonneg. eapply List.Forall_impl; [| exact Hl].
  intros y Hy. apply Qlt_le_weak, Hy.
Qed.

End GiniFacts.

(** The two equal positions of [ConcentrationDoubles.two_equal], as exact
    numbers. *)
Definition two_equal_exact : list Q :=
  [800494577724512010240%Q; 800494577724512010240%Q].

(** C9, as stated, fails in the arithmetic of the code: for two equal
    positions of 800494577724512010240 the coefficient computed in IEEE
    doubles is -2^-52, below 0 and not 0 (the sum x + 2x is rounded down, so
    the quotient is the double before 3/2), where the exact value is 0. *)
Lemma gini_below_zero_in_doubles :
  ConcentrationDoubles._calculate_gini ConcentrationDoubles.two_equal
  = Some ConcentrationDoubles.minus_epsilon
  /\ ConcentrationDoubles.below_zero
       <$> ConcentrationDoubles._calculate_gini ConcentrationDoubles.two_equal
     = Some true
  /\ Concentration._calculate_gini two_equal_exact == 0.
Proof. repeat split; vm_compute; reflexivity. Qed.

(** C9, amended: in exact arithmetic (floats read as exact rationals), for
    every non-empty list of positive liquidity values the Gini coefficient
    of [_calculate_gini] (sort ascending, 2 * sum(i * x_i) / (n * sum(x)) -
    (n + 1) / n) lies between 0 and 1, and it is 0 when all the values are
    equal. *)
Theorem gini_in_unit_interval (values : list Q) :
  values <> [] ->
  Forall (fun x => (0 < x)%Q) values ->
  (0 <= Concentration._calculate_gini values)%Q
  /\ (Concentration._calculate_gini values <= 1)%Q
  /\ ((forall x y, In x values -> In y values -> x == y) ->
      Concentration._calculate_gini values == 0).
Proof.
  intros Hne Hpos.
  pose proof (sort_by_Permutation Qle_bool values) as P.
  fold (Concentration.np_sort values) in P.
  set (sorted := Concentration.np_sort values) in *.
  assert (Hs : sorted <> []).
  { intros E. rewrite E in P. apply Permutation_nil in P. congruence. }
  assert (Hspos : Forall (fun x => (0 < x)%Q) sorted) by (rewrite P; exact Hpos).
  assert (Hsnn : Forall (Qle 0) sorted).
  { eapply List.Forall_impl; [| exact Hspos]. intros y. apply Qlt_le_weak. }
  pose proof (of_nat_pos values Hne) as Hn.
  pose proof (sum_pos sorted Hs Hspos) as HS.
  pose proof (weighted_lower sorted (np_sort_ascending values) 1) as Lo.
  pose proof (weighted_upper sorted Hsnn 1 ltac:(lia)) as Up.
  rewrite (Permutation_length P) in Lo, Up.
  rewrite (gini_formula values Hne). fold sorted.
  set (n := Py.of_nat (length values)) in *.
  set (S := Py.sum sorted) in *.
  set (W := weighted 1 sorted) in *.
  change (inject_Z 1) with 1%Q in Lo, Up.
  assert (Hden : (0 < n * S)%Q) by nra.
  split; [| split].
  - assert (((n + 1) / n <= 2 * W / (n * S))%Q); [| lra].
    apply Qle_shift_div_l; [exact Hden |].
    assert (E : ((n + 1) / n * (n * S) == (n + 1) * S)%Q) by (field; lra).
    rewrite E. lra.
  - assert ((2 * W / (n * S) <= 1 + (n + 1) / n)%Q); [| lra].
    apply Qle_shift_div_r; [exact Hden |].
    assert (E : ((1 + (n + 1) / n) * (n * S) == (2 * n + 1) * S)%Q) by (field; lra).
    rewrite E. nra.
  - intros Heq.
    destruct values as [|c vs]; [congruence |].
    assert (Hc : Forall (fun x => x == c) sorted).
    { rewrite P. apply Forall_forall. intros x Hx.
      apply Heq; [apply list_elem_of_In; exact Hx | left; reflexivity]. }
    destruct (weighted_equal c sorted Hc 1) as [Ew Es].
    rewrite (Permutation_length P) in Ew, Es.
    fold n in Ew, Es. fold W in Ew. fold S in Es.
    change (inject_Z 1) with 1%Q in Ew.
    assert (Hcpos : (0 < c)%Q) by (apply Forall_cons_1 in Hpos as [Hc0 _]; exact Hc0).
    rewrite Ew, Es. field. split; lra.
Qed.

(** The scenario of the specification: ten positions of liquidity 100. *)
Definition ten_equal : list Q := repeat 100%Q 10.

(** C9 on ten equal positions. *)
Lemma gini_in_unit_interval_witness :
  (0 <= Concentration._calculate_gini ten_equal)%Q
  /\ (Concentration._calculate_gini ten_equal <= 1)%Q
  /\ ((forall x y, In x ten_equal -> In y ten_equal -> x == y) ->
      Concentration._calculate_gini ten_equal == 0).
Proof.
  apply (gini_in_unit_interval ten_equal).
  - discriminate.
  - repeat constructor.
Defined.

(** Evaluated: equal positions give 0, and one position holding 97 of 100
    gives 18/25. *)
Example gini_values :
  Concentration._calculate_gini ten_equal == 0
  /\ Concentration._calculate_gini [97; 1; 1; 1]%Q == 18 # 25.
Proof. split; vm_compute; reflexivity. Qed.

(** * Further properties of the code *)

(** ** Retries and failures of the fetch layer *)

Section RetryMore.
Import Py Paginator.

Lemma backoffs_snoc cfg (a : Z) (k : nat) :
  backoffs cfg a (S k)
  = backoffs cfg a k ++ [(retry_delay cfg * inject_Z (a + Z.of_nat k))%Q].
Proof.
  revert a. induction k as [|k IH]; intros a.
  - cbn. rewrite Z.add_0_r. reflexivity.
  - change (backoffs cfg a (S (S k)))
      with ((retry_delay cfg * inject_Z a)%Q :: backoffs cfg (a + 1) (S k)).
    rewrite IH. cbn [backoffs app].
    replace (a + 1 + Z.of_nat k)%Z with (a + Z.of_nat (S k))%Z by lia.
    reflexivity.
Qed.

(** Failures the handler catches, then a good response: the loop returns
    the body of that response. *)
Lemma retry_loop_recovers cfg (r : request) status b (rest : list post_outcome) :
  raise_for_status status = None -> errors b = None ->
  forall (fails : list post_outcome) (n : nat) (attempt : Z) (t : list event),
    Forall request_failure fails ->
    length fails < n ->
    (attempt + Z.of_nat n = max_retries cfg)%Z ->
    exists t',
      retry_loop scripted_server cfg n attempt r
        {| server := fails ++ Response status b :: rest; trace := t |}
      = (Ok b, {| server := rest; trace := t' |})
      /\ posts t' = posts t ++ fails ++ [Response status b]
      /\ sleeps t' = sleeps t ++ backoffs cfg (attempt + 1) (length fails).
Proof.
  intros Hs He. induction fails as [|o fails IH]; intros n attempt t Hf Hn Hsum.
  - destruct n as [|n]; [cbn in Hn; lia |].
    cbn [retry_loop app]. unfold do_post. cbn [server scripted_server trace].
    cbn [attempt_body]. rewrite Hs, He.
    eexists. split; [reflexivity |].
    rewrite posts_app, sleeps_app. cbn. rewrite !app_nil_r. auto.
  - apply Forall_cons_1 in Hf as [[msg Ho] Hf].
    destruct n as [|n]; [cbn in Hn; lia |].
    cbn [retry_loop app]. unfold do_post. cbn [server scripted_server trace].
    rewrite Ho.
    replace (attempt =? max_retries cfg - 1)%Z with false
      by (symmetry; apply Z.eqb_neq; cbn [length] in Hn; lia).
    unfold sleep. cbn [server trace].
    edestruct (IH n (attempt + 1)%Z) as (t' & E & P & S);
      [exact Hf | cbn [length] in Hn; lia | lia |].
    eexists. split; [exact E |].
    rewrite P, S, !posts_app, !sleeps_app. cbn.
    rewrite !app_nil_r, <- !app_assoc. split; reflexivity.
Qed.

(** The outcomes of [n] posts of one request, and the state of the
    endpoint after them. *)
Fixpoint replies {St : Type} (post : St -> request -> post_outcome * St)
    (s : St) (r : request) (n : nat) : list post_outcome * St :=
  match n with
  | O => ([], s)
  | S n' =>
      let '(o, s1) := post s r in
      let '(os, s') := replies post s1 r n' in
      (o :: os, s')
  end.

(** The request of the first page of [fetch_all]. *)
Definition first_page (cfg : config) (q : string) (vars : gmap string json) : request :=
  {| query := q;
     variables :=
       <["batch_size" := JNum (inject_Z (batch_size cfg))]>
         (<["last_id" := JStr ""]> vars) |}.

(** When every remaining attempt meets a failure that the handler catches,
    the loop posts once per attempt and raises with the last failure. *)
Lemma retry_loop_all_fail {St : Type}
    (post : St -> request -> post_outcome * St) cfg (r : request) :
  forall (n : nat) (attempt : Z) (w : world),
    n <> 0 ->
    (attempt + Z.of_nat n = max_retries cfg)%Z ->
    Forall request_failure (fst (replies post (server w) r n)) ->
    exists o msg t',
      retry_loop post cfg n attempt r w
      = (Raise (QueryFailed (max_retries cfg) msg),
         {| server := snd (replies post (server w) r n); trace := t' |})
      /\ last (fst (replies post (server w) r n)) = Some o
      /\ attempt_body o = inr (RequestException msg)
      /\ posts t' = posts (trace w) ++ fst (replies post (server w) r n)
      /\ sleeps t' = sleeps (trace w) ++ backoffs cfg (attempt + 1) (n - 1).
Proof.
  induction n as [|n IH]; intros attempt w Hn Hsum Hf; [congruence |].
  cbn [retry_loop replies] in *. unfold do_post.
  destruct (post (server w) r) as [o s1] eqn:P.
  destruct (replies post s1 r n) as [os s'] eqn:R.
  cbn [fst snd] in *. apply Forall_cons_1 in Hf as [[msg Ho] Hos].
  rewrite Ho. destruct n as [|n].
  - cbn in R. injection R as <- <-.
    replace (attempt =? max_retries cfg - 1)%Z with true
      by (symmetry; apply Z.eqb_eq; lia).
    exists o, msg, (trace w ++ [EvPost r o]).
    split; [reflexivity |]. split; [reflexivity |]. split; [exact Ho |].
    rewrite posts_app, sleeps_app. cbn. rewrite app_nil_r. split; reflexivity.
  - replace (attempt =? max_retries cfg - 1)%Z with false
      by (symmetry; apply Z.eqb_neq; lia).
    destruct (IH (attempt + 1)%Z
                (sleep (retry_delay cfg * inject_Z (attempt + 1))
                   {| server := s1; trace := trace w ++ [EvPost r o] |}))
      as (o' & msg' & t' & E & L & A & Ps & Sl).
    + discriminate.
    + lia.
    + cbn [sleep server]. rewrite R. exact Hos.
    + cbn [sleep server trace] in E, L, Ps, Sl. rewrite R in E, L, Ps.
      cbn [fst snd] in E, L, Ps.
      exists o', msg', t'. split; [exact E |].
      split.
      { destruct os as [|o2 os]; [discriminate L | exact L]. }
      split; [exact A |].
      rewrite Ps, Sl, !posts_app, !sleeps_app. cbn.
      rewrite Nat.sub_0_r, !app_nil_r, <- !app_assoc. split; reflexivity.
Qed.

End RetryMore.


Section RetryExample.
Import Paginator.

(** Three failures of three kinds, then a response that is never asked
    for. *)
Definition three_failures : list post_outcome :=
  [Failed "ReadTimeout"; Response 502 good_body; Failed "ConnectionResetError";
   Response 200 good_body].

Definition failing_start : world :=
  {| server := three_failures; trace := [] |}.

End RetryExample.


(** The run of the three failures, evaluated: the exception carries the
    message of the third failure, after three posts and the sleeps 1 and 2,
    and the fourth outcome of the endpoint is left unread. *)
Example retry_reports_the_last_failure :
  (let '(r, w) :=
     Paginator._execute_with_retry Paginator.scripted_server sample_pagination
       "query" ∅ failing_start in
   (r, Paginator.posts (Paginator.trace w), Paginator.sleeps (Paginator.trace w),
    Paginator.server w))
  = (Paginator.Raise (Paginator.QueryFailed 3 "ConnectionResetError"),
     [Paginator.Failed "ReadTimeout"; Paginator.Response 502 good_body;
      Paginator.Failed "ConnectionResetError"],
     [(1 * inject_Z 1)%Q; (1 * inject_Z 2)%Q],
     [Paginator.Response 200 good_body]).
Proof. vm_compute. reflexivity. Qed.

(** X2: when fewer than [max_retries] posts fail with a transport failure
    or an error status and the next response is a 2xx one without GraphQL
    errors, [_execute_with_retry] returns the body of that response, having
    posted once per failure and once more, and slept [retry_delay * k]
    after the k-th failure; it consumes nothing further from the endpoint. *)
Theorem retry_recovers_after_failures
    (cfg : Paginator.config) (q : string) (vars : gmap string Py.json)
    (fails rest : list Paginator.post_outcome) (status : Z) (b : Paginator.body) :
  Forall request_failure fails ->
  (Z.of_nat (length fails) < Paginator.max_retries cfg)%Z ->
  Paginator.raise_for_status status = None ->
  Paginator.errors b = None ->
  exists t',
    Paginator._execute_with_retry Paginator.scripted_server cfg q vars
      {| Paginator.server := fails ++ Paginator.Response status b :: rest;
         Paginator.trace := [] |}
    = (Paginator.Ok b, {| Paginator.server := rest; Paginator.trace := t' |})
    /\ Paginator.posts t' = fails ++ [Paginator.Response status b]
    /\ Paginator.sleeps t' = backoffs cfg 1 (length fails).
Proof.
  intros Hf Hn Hs He. unfold Paginator._execute_with_retry.
  destruct (retry_loop_recovers cfg
              {| Paginator.query := q; Paginator.variables := vars |}
              status b rest Hs He fails
              (Z.to_nat (Paginator.max_retries cfg)) 0%Z [] Hf)
    as (t' & E & P & S); [lia | lia |].
  exists t'. split; [exact E |]. split; [exact P | exact S].
Qed.

(** X2 with a timeout and a 503 before the good response. *)
Lemma retry_recovers_after_failures_witness :
  exists t',
    Paginator._execute_with_retry Paginator.scripted_server sample_pagination
      "query" ∅
      {| Paginator.server :=
           [Paginator.Failed "timeout"; Paginator.Response 503 good_body]
           ++ Paginator.Response 200 good_body :: [Paginator.Failed "unused"];
         Paginator.trace := [] |}
    = (Paginator.Ok good_body,
       {| Paginator.server := [Paginator.Failed "unused"]; Paginator.trace := t' |})
    /\ Paginator.posts t'
       = [Paginator.Failed "timeout"; Paginator.Response 503 good_body]
         ++ [Paginator.Response 200 good_body]
    /\ Paginator.sleeps t'
       = backoffs sample_pagination 1
           (length [Paginator.Failed "timeout"; Paginator.Response 503 good_body]).
Proof.
  apply (retry_recovers_after_failures sample_pagination "query" ∅
           [Paginator.Failed "timeout"; Paginator.Response 503 good_body]
           [Paginator.Failed "unused"] 200 good_body).
  - repeat constructor; eexists; reflexivity.
  - cbn. lia.
  - reflexivity.
  - reflexivity.
Defined.

(** X3: with [max_retries] zero or negative, [_execute_with_retry] makes no
    post at all and raises the "Unexpected error in retry logic" exception,
    whatever the endpoint; [fetch_all] then raises it too. *)
Theorem no_attempt_without_retries
    {St : Type} (post : St -> Paginator.request -> Paginator.post_outcome * St)
    (cfg : Paginator.config) (q entity_name : string) (vars : gmap string Py.json)
    (w : Paginator.world) (fuel : nat) :
  (Paginator.max_retries cfg <= 0)%Z ->
  Paginator._execute_with_retry post cfg q vars w
  = (Paginator.Raise Paginator.UnexpectedRetry, w)
  /\ Paginator.fetch_all post cfg (S fuel) q vars entity_name w
     = Some (Paginator.Raise Paginator.UnexpectedRetry, w).
Proof.
  intros H.
  assert (E : forall vars', Paginator._execute_with_retry post cfg q vars' w
                            = (Paginator.Raise Paginator.UnexpectedRetry, w)).
  { intros vars'. unfold Paginator._execute_with_retry.
    replace (Z.to_nat (Paginator.max_retries cfg)) with 0 by lia. reflexivity. }
  split; [apply E |].
  unfold Paginator.fetch_all. cbn [Paginator.fetch_loop]. rewrite E. reflexivity.
Qed.

(** X3 with [max_retries = 0] against the indexer of five records. *)
Lemma no_attempt_without_retries_witness :
  Paginator._execute_with_retry
    (Paginator.paged_server "positions" (fun _ => 1000) five_records)
    {| Paginator.batch_size := 2; Paginator.rate_limit_delay := 0;
       Paginator.max_retries := 0; Paginator.retry_delay := 1 |}
    "query" ∅ fresh
  = (Paginator.Raise Paginator.UnexpectedRetry, fresh)
  /\ Paginator.fetch_all
       (Paginator.paged_server "positions" (fun _ => 1000) five_records)
       {| Paginator.batch_size := 2; Paginator.rate_limit_delay := 0;
          Paginator.max_retries := 0; Paginator.retry_delay := 1 |}
       1 "query" ∅ "positions" fresh
     = Some (Paginator.Raise Paginator.UnexpectedRetry, fresh).
Proof.
  apply (no_attempt_without_retries
           (Paginator.paged_server "positions" (fun _ => 1000) five_records)
           {| Paginator.batch_size := 2; Paginator.rate_limit_delay := 0;
              Paginator.max_retries := 0; Paginator.retry_delay := 1 |}
           "query" "positions" ∅ fresh 0).
  cbn. lia.
Defined.

(** X4: when every post that [fetch_all] makes for its first page fails with
    a transport failure or an error status (the failures may differ), it
    raises the "Query failed after max_retries retries" exception with the
    message of the last failure after exactly [max_retries] posts, asks for
    no further page, and returns no list, empty or partial; this for every
    endpoint and every state of it. *)
Theorem fetch_all_fails_fast
    {St : Type} (post : St -> Paginator.request -> Paginator.post_outcome * St)
    (cfg : Paginator.config) (q entity_name : string) (vars : gmap string Py.json)
    (w : Paginator.world) (fuel : nat) :
  (0 < Paginator.max_retries cfg)%Z ->
  Forall request_failure
    (fst (replies post (Paginator.server w) (first_page cfg q vars)
            (Z.to_nat (Paginator.max_retries cfg)))) ->
  exists o msg t',
    Paginator.fetch_all post cfg (S fuel) q vars entity_name w
    = Some (Paginator.Raise
              (Paginator.QueryFailed (Paginator.max_retries cfg) msg),
            {| Paginator.server :=
                 snd (replies post (Paginator.server w) (first_page cfg q vars)
                        (Z.to_nat (Paginator.max_retries cfg)));
               Paginator.trace := t' |})
    /\ last (fst (replies post (Paginator.server w) (first_page cfg q vars)
                    (Z.to_nat (Paginator.max_retries cfg)))) = Some o
    /\ Paginator.attempt_body o = inr (Paginator.RequestException msg)
    /\ Paginator.posts t'
       = Paginator.posts (Paginator.trace w)
         ++ fst (replies post (Paginator.server w) (first_page cfg q vars)
                   (Z.to_nat (Paginator.max_retries cfg))).
Proof.
  intros Hpos Hf. unfold Paginator.fetch_all. cbn [Paginator.fetch_loop].
  unfold Paginator._execute_with_retry.
  destruct (retry_loop_all_fail post cfg (first_page cfg q vars)
              (Z.to_nat (Paginator.max_retries cfg)) 0%Z w)
    as (o & msg & t' & E & L & A & P & _); [lia | lia | exact Hf |].
  unfold first_page in E. rewrite E.
  exists o, msg, t'. split; [reflexivity |]. split; [exact L |].
  split; [exact A | exact P].
Qed.

(** X4 against the endpoint of the three failures. *)
Lemma fetch_all_fails_fast_witness :
  exists o msg t',
    Paginator.fetch_all Paginator.scripted_server sample_pagination 1 "query" ∅
      "positions" failing_start
    = Some (Paginator.Raise
              (Paginator.QueryFailed (Paginator.max_retries sample_pagination) msg),
            {| Paginator.server :=
                 snd (replies Paginator.scripted_server (Paginator.server failing_start)
                        (first_page sample_pagination "query" ∅)
                        (Z.to_nat (Paginator.max_retries sample_pagination)));
               Paginator.trace := t' |})
    /\ last (fst (replies Paginator.scripted_server (Paginator.server failing_start)
                    (first_page sample_pagination "query" ∅)
                    (Z.to_nat (Paginator.max_retries sample_pagination)))) = Some o
    /\ Paginator.attempt_body o = inr (Paginator.RequestException msg)
    /\ Paginator.posts t'
       = Paginator.posts (Paginator.trace failing_start)
         ++ fst (replies Paginator.scripted_server (Paginator.server failing_start)
                   (first_page sample_pagination "query" ∅)
                   (Z.to_nat (Paginator.max_retries sample_pagination))).
Proof.
  apply (fetch_all_fails_fast Paginator.scripted_server sample_pagination
           "query" "positions" ∅ failing_start 0).
  - reflexivity.
  - repeat constructor; eexists; reflexivity.
Defined.

(** ** The cache *)

Section CacheFacts.
Import Py.

Variables (sha256_hex : string -> string)
          (isoformat : Q -> string) (fromisoformat : string -> option Q).
Variable cfg : Cache.config.

Lemma not_expired (now cached_at : Q) :
  (now - cached_at <= Cache.static_data_ttl_seconds cfg)%Q ->
  Qgtb (now - cached_at) (Cache.static_data_ttl_seconds cfg) = false.
Proof.
  intros H. unfold Qgtb. apply negb_false_iff, Qle_bool_iff. exact H.
Qed.

Lemma expired (now cached_at : Q) :
  (Cache.static_data_ttl_seconds cfg < now - cached_at)%Q ->
  Qgtb (now - cached_at) (Cache.static_data_ttl_seconds cfg) = true.
Proof.
  intros H. unfold Qgtb. apply negb_true_iff.
  destruct (Qle_bool (now - cached_at) (Cache.static_data_ttl_seconds cfg)) eqn:E;
    [| reflexivity].
  apply Qle_bool_iff in E. exfalso. apply (Qlt_not_le _ _ H E).
Qed.

(** The files a damaged entry makes of the cache: not JSON, no
    ["cached_at"], a date that does not parse, or (still fresh) no
    ["data"]. *)
Definition damaged (now : Q) (f : Cache.file) : Prop :=
  f = Cache.Garbage
  \/ exists d,
      f = Cache.Document (JObj d)
      /\ (Py.get d "cached_at" = None
          \/ (exists s, Py.get d "cached_at" = Some (JStr s)
                        /\ fromisoformat s = None)
          \/ (exists s cached_at,
                Py.get d "cached_at" = Some (JStr s)
                /\ fromisoformat s = Some cached_at
                /\ (now - cached_at <= Cache.static_data_ttl_seconds cfg)%Q
                /\ Py.get d "data" = None)).

End CacheFacts.

(** X5: for an entity type that is cached, a value stored by [set] is
    returned by a [get] of the same key made no later than the TTL after
    it, and that [get] leaves the files as they are. *)
Theorem cache_get_after_set
    (sha256_hex : string -> string) (isoformat : Q -> string)
    (fromisoformat : string -> option Q) (cfg : Cache.config)
    (stored_at now : Q) (key entity_type : string) (data : Py.json)
    (files : gmap string Cache.file) :
  Cache.caches cfg entity_type = true ->
  fromisoformat (isoformat stored_at) = Some stored_at ->
  (now - stored_at <= Cache.static_data_ttl_seconds cfg)%Q ->
  Cache.get sha256_hex fromisoformat cfg now key entity_type
    (Cache.set sha256_hex isoformat cfg stored_at key entity_type data files)
  = (Cache.Returns data,
     Cache.set sha256_hex isoformat cfg stored_at key entity_type data files).
Proof.
  intros Hc Hiso Hfresh. unfold Cache.get, Cache.set. rewrite Hc. cbn [negb].
  rewrite lookup_insert_eq. cbn [Py.get String.eqb Ascii.eqb Bool.eqb].
  rewrite Hiso, (not_expired cfg _ _ Hfresh). reflexivity.
Qed.

(** X6: a [get] made later than the TTL after the [set] returns [None] and
    removes the file, so that the files are those of before the [set]
    without that entry, and a second [get] finds nothing to read. *)
Theorem cache_entry_expires
    (sha256_hex : string -> string) (isoformat : Q -> string)
    (fromisoformat : string -> option Q) (cfg : Cache.config)
    (stored_at now later : Q) (key entity_type : string) (data : Py.json)
    (files : gmap string Cache.file) :
  Cache.caches cfg entity_type = true ->
  fromisoformat (isoformat stored_at) = Some stored_at ->
  (Cache.static_data_ttl_seconds cfg < now - stored_at)%Q ->
  let after_get :=
    Cache.get sha256_hex fromisoformat cfg now key entity_type
      (Cache.set sha256_hex isoformat cfg stored_at key entity_type data files) in
  after_get
  = (Cache.Returns Py.JNull,
     delete (Cache._get_cache_path sha256_hex cfg key) files)
  /\ Cache.get sha256_hex fromisoformat cfg later key entity_type (snd after_get)
     = (Cache.Returns Py.JNull, snd after_get).
Proof.
  intros Hc Hiso Hold. cbv zeta.
  assert (E : Cache.get sha256_hex fromisoformat cfg now key entity_type
                (Cache.set sha256_hex isoformat cfg stored_at key entity_type data files)
              = (Cache.Returns Py.JNull,
                 delete (Cache._get_cache_path sha256_hex cfg key) files)).
  { unfold Cache.get, Cache.set. rewrite Hc. cbn [negb].
    rewrite lookup_insert_eq. cbn [Py.get String.eqb Ascii.eqb Bool.eqb].
    rewrite Hiso, (expired cfg _ _ Hold), delete_insert_eq. reflexivity. }
  rewrite E. split; [reflexivity |].
  cbn [snd]. unfold Cache.get. rewrite Hc. cbn [negb].
  rewrite lookup_delete_eq. reflexivity.
Qed.

(** X7: when caching is switched off, or the entity type is not listed as
    cached, [set] writes nothing and [get] returns [None] without reading
    or removing any file, whatever the cache directory holds. *)
Theorem cache_bypassed_when_disabled
    (sha256_hex : string -> string) (isoformat : Q -> string)
    (fromisoformat : string -> option Q) (cfg : Cache.config)
    (now : Q) (key entity_type : string) (data : Py.json)
    (files : gmap string Cache.file) :
  Cache.enabled cfg = false
  \/ Cache.cache_entities cfg !! entity_type = None
  \/ Cache.cache_entities cfg !! entity_type = Some false ->
  Cache.set sha256_hex isoformat cfg now key entity_type data files = files
  /\ Cache.get sha256_hex fromisoformat cfg now key entity_type files
     = (Cache.Returns Py.JNull, files).
Proof.
  intros H.
  assert (Hc : Cache.caches cfg entity_type = false).
  { unfold Cache.caches. destruct H as [-> | [-> | ->]]; [reflexivity | |];
      cbn; apply andb_false_r. }
  unfold Cache.set, Cache.get. rewrite Hc. split; reflexivity.
Qed.

(** X8: a damaged entry (text that is not JSON, a document without
    ["cached_at"], with a date that does not parse, or without ["data"]) is
    treated as absent: [get] returns [None] and removes the file. *)
Theorem cache_evicts_damaged_entry
    (sha256_hex : string -> string) (fromisoformat : string -> option Q)
    (cfg : Cache.config) (now : Q) (key entity_type : string)
    (f : Cache.file) (files : gmap string Cache.file) :
  Cache.caches cfg entity_type = true ->
  files !! Cache._get_cache_path sha256_hex cfg key = Some f ->
  damaged fromisoformat cfg now f ->
  Cache.get sha256_hex fromisoformat cfg now key entity_type files
  = (Cache.Returns Py.JNull,
     delete (Cache._get_cache_path sha256_hex cfg key) files).
Proof.
  intros Hc Hf Hd. unfold Cache.get. rewrite Hc, Hf. cbn [negb].
  destruct Hd as [-> | (d & -> & [Hk | [(s & Hk & Hp) | (s & at_ & Hk & Hp & Hfresh & Hdata)]])].
  - reflexivity.
  - rewrite Hk. reflexivity.
  - rewrite Hk, Hp. reflexivity.
  - rewrite Hk, Hp, (not_expired cfg _ _ Hfresh), Hdata. reflexivity.
Qed.

(** X9: [get] and [set] touch no file but the one of their key: every
    other path holds after the call what it held before. *)
Theorem cache_touches_one_file
    (sha256_hex : string -> string) (isoformat : Q -> string)
    (fromisoformat : string -> option Q) (cfg : Cache.config)
    (now : Q) (key entity_type : string) (data : Py.json)
    (files : gmap string Cache.file) (path : string) :
  path <> Cache._get_cache_path sha256_hex cfg key ->
  snd (Cache.get sha256_hex fromisoformat cfg now key entity_type files) !! path
  = files !! path
  /\ Cache.set sha256_hex isoformat cfg now key entity_type data files !! path
     = files !! path.
Proof.
  intros Hp. split.
  - unfold Cache.get.
    repeat match goal with
           | |- context [if ?b then _ else _] => destruct b
           | |- context [match ?x with _ => _ end] =>
               lazymatch x with
               | files !! _ => destruct x as [[|[]]|]
               | Py.get _ _ => destruct x as [[]|]
               | fromisoformat _ => destruct x
               end
           end;
      cbn [snd]; try reflexivity; apply lookup_delete_ne; congruence.
  - unfold Cache.set. destruct (negb _); [reflexivity |].
    apply lookup_insert_ne. congruence.
Qed.

Section CacheExample.
Import Py.

(** A cache of ticks and day data with a TTL of one hour. *)
Definition hour_cache : Cache.config :=
  {| Cache.enabled := true; Cache.directory := "cache";
     Cache.static_data_ttl_seconds := 3600;
     Cache.cache_entities :=
       <["ticks" := true]> (<["poolDayData" := true]>
         (<["swaps" := false]> (<["positions" := false]> ∅))) |}.

(** Stand-ins for the hash and for the two date conversions, on the one
    date the examples use. *)
Definition toy_hash (key : string) : string := "h" ++ key.
Definition toy_isoformat (t : Q) : string :=
  if Qeq_bool t 1000 then "1970-01-01T00:16:40" else "".
Definition toy_fromisoformat (s : string) : option Q :=
  if String.eqb s "1970-01-01T00:16:40" then Some 1000%Q else None.

Definition some_ticks : json :=
  JArr [JObj [("id", JStr "0x88e6#-10"); ("tickIdx", JStr "-10");
              ("liquidityNet", JStr "5"); ("liquidityGross", JStr "5")]].

End CacheExample.

(** X5 on ticks read half an hour after they were stored. *)
Lemma cache_get_after_set_witness :
  Cache.get toy_hash toy_fromisoformat hour_cache 2800 "0x88e6_ticks" "ticks"
    (Cache.set toy_hash toy_isoformat hour_cache 1000 "0x88e6_ticks" "ticks"
       some_ticks ∅)
  = (Cache.Returns some_ticks,
     Cache.set toy_hash toy_isoformat hour_cache 1000 "0x88e6_ticks" "ticks"
       some_ticks ∅).
Proof.
  apply (cache_get_after_set toy_hash toy_isoformat toy_fromisoformat hour_cache
           1000 2800 "0x88e6_ticks" "ticks" some_ticks ∅).
  - reflexivity.
  - reflexivity.
  - vm_compute. discriminate.
Defined.

(** X6 on ticks read two hours after they were stored. *)
Lemma cache_entry_expires_witness :
  let after_get :=
    Cache.get toy_hash toy_fromisoformat hour_cache 8200 "0x88e6_ticks" "ticks"
      (Cache.set toy_hash toy_isoformat hour_cache 1000 "0x88e6_ticks" "ticks"
         some_ticks ∅) in
  after_get
  = (Cache.Returns Py.JNull,
     delete (Cache._get_cache_path toy_hash hour_cache "0x88e6_ticks") ∅)
  /\ Cache.get toy_hash toy_fromisoformat hour_cache 8300 "0x88e6_ticks" "ticks"
       (snd after_get)
     = (Cache.Returns Py.JNull, snd after_get).
Proof.
  apply (cache_entry_expires toy_hash toy_isoformat toy_fromisoformat hour_cache
           1000 8200 8300 "0x88e6_ticks" "ticks" some_ticks ∅).
  - reflexivity.
  - reflexivity.
  - vm_compute. reflexivity.
Defined.

(** X7 on swaps, which the configuration never caches. *)
Lemma cache_bypassed_when_disabled_witness :
  Cache.set toy_hash toy_isoformat hour_cache 1000 "0x88e6_swaps" "swaps"
    some_ticks ∅ = ∅
  /\ Cache.get toy_hash toy_fromisoformat hour_cache 1000 "0x88e6_swaps" "swaps" ∅
     = (Cache.Returns Py.JNull, ∅).
Proof.
  apply (cache_bypassed_when_disabled toy_hash toy_isoformat toy_fromisoformat
           hour_cache 1000 "0x88e6_swaps" "swaps" some_ticks ∅).
  right. right. reflexivity.
Defined.

(** X8 on a truncated cache file. *)
Lemma cache_evicts_damaged_entry_witness :
  Cache.get toy_hash toy_fromisoformat hour_cache 1000 "0x88e6_ticks" "ticks"
    {[ Cache._get_cache_path toy_hash hour_cache "0x88e6_ticks" := Cache.Garbage ]}
  = (Cache.Returns Py.JNull,
     delete (Cache._get_cache_path toy_hash hour_cache "0x88e6_ticks")
       {[ Cache._get_cache_path toy_hash hour_cache "0x88e6_ticks" := Cache.Garbage ]}).
Proof.
  apply (cache_evicts_damaged_entry toy_hash toy_fromisoformat hour_cache 1000
           "0x88e6_ticks" "ticks" Cache.Garbage).
  - reflexivity.
  - apply lookup_singleton_eq.
  - left. reflexivity.
Defined.

(** X9 on the file of another pool. *)
Lemma cache_touches_one_file_witness :
  snd (Cache.get toy_hash toy_fromisoformat hour_cache 1000 "0x88e6_ticks" "ticks" ∅)
    !! "cache/h0xabcd_ticks.json"
  = (∅ : gmap string Cache.file) !! "cache/h0xabcd_ticks.json"
  /\ Cache.set toy_hash toy_isoformat hour_cache 1000 "0x88e6_ticks" "ticks"
       some_ticks ∅ !! "cache/h0xabcd_ticks.json"
     = (∅ : gmap string Cache.file) !! "cache/h0xabcd_ticks.json".
Proof.
  apply (cache_touches_one_file toy_hash toy_isoformat toy_fromisoformat hour_cache
           1000 "0x88e6_ticks" "ticks" some_ticks ∅ "cache/h0xabcd_ticks.json").
  vm_compute. discriminate.
Defined.

(** ** The configuration file *)

Section ConfigFacts.
Import Py ConfigFile.

Lemma first_missing_None (keys : list string) (config : dict) :
  first_missing keys config = None
  <-> forall key, In key keys -> has_key config key = true.
Proof.
  induction keys as [|k keys IH]; cbn [first_missing].
  - split; [intros _ key [] | reflexivity].
  - destruct (has_key config k) eqn:E.
    + rewrite IH. split.
      * intros H key [<- | I]; [exact E | apply H, I].
      * intros H key I. apply H. right. exact I.
    + split; [discriminate |]. intros H.
      rewrite (H k) in E; [discriminate | left; reflexivity].
Qed.

Lemma first_missing_Some (keys : list string) (config : dict) (key : string) :
  first_missing keys config = Some key
  <-> exists before after,
        keys = before ++ key :: after
        /\ (forall k, In k before -> has_key config k = true)
        /\ has_key config key = false.
Proof.
  induction keys as [|k keys IH]; cbn [first_missing].
  - split; [discriminate |]. intros (before & after & E & _).
    destruct before; discriminate.
  - destruct (has_key config k) eqn:E.
    + rewrite IH. split.
      * intros (before & after & -> & Hb & Hk).
        exists (k :: before), after. split; [reflexivity |]. split; [| exact Hk].
        intros k' [<- | I]; [exact E | apply Hb, I].
      * intros (before & after & Hkeys & Hb & Hk).
        destruct before as [|b before].
        -- cbn in Hkeys. injection Hkeys as -> _. congruence.
        -- cbn in Hkeys. injection Hkeys as -> ->.
           exists before, after. split; [reflexivity |]. split; [| exact Hk].
           intros k' I. apply Hb. right. exact I.
    + split.
      * intros [= <-]. exists [], keys. split; [reflexivity |].
        split; [intros k' [] | exact E].
      * intros (before & after & Hkeys & Hb & Hk).
        destruct before as [|b before].
        -- cbn in Hkeys. injection Hkeys as -> _. reflexivity.
        -- cbn in Hkeys. injection Hkeys as -> _.
           rewrite (Hb b) in E; [discriminate | left; reflexivity].
Qed.

End ConfigFacts.

(** X10: on a path that holds no file, text that is not JSON, or a JSON
    object, [load_config] returns a configuration exactly when the file
    exists, parses, and holds all six required sections; what it returns is
    then the parsed document, unchanged. *)
Theorem load_config_returns_iff_complete
    (files : gmap string ConfigFile.file) (config_path : string) (config : Py.dict) :
  ConfigFile.load_config files config_path = ConfigFile.Loaded config
  <-> files !! config_path = Some (ConfigFile.Document config)
      /\ forall key,
           In key ["api"; "pagination"; "cache"; "queries"; "risk_thresholds"; "scoring"] ->
           Py.has_key config key = true.
Proof.
  unfold ConfigFile.load_config.
  change ["api"; "pagination"; "cache"; "queries"; "risk_thresholds"; "scoring"]
    with ConfigFile.required_keys.
  destruct (files !! config_path) as [[e | c]|].
  - split; [discriminate | intros [[=] _]].
  - destruct (ConfigFile.first_missing ConfigFile.required_keys c) as [k|] eqn:M.
    + split; [discriminate |]. intros [[= ->] H].
      apply first_missing_None in H. congruence.
    + split.
      * intros [= ->]. split; [reflexivity |]. apply first_missing_None. exact M.
      * intros [[= ->] _]. reflexivity.
  - split; [discriminate | intros [[=] _]].
Qed.

(** X11: when sections are missing, the exception of [load_config] names
    the first missing one in the order api, pagination, cache, queries,
    risk_thresholds, scoring: it names [key] exactly when the file parses,
    [key] is absent and every required section before [key] is present. *)
Theorem load_config_names_first_missing_section
    (files : gmap string ConfigFile.file) (config_path key : string) :
  ConfigFile.load_config files config_path = ConfigFile.MissingSection key
  <-> exists config before after,
        files !! config_path = Some (ConfigFile.Document config)
        /\ ["api"; "pagination"; "cache"; "queries"; "risk_thresholds"; "scoring"]
           = before ++ key :: after
        /\ (forall k, In k before -> Py.has_key config k = true)
        /\ Py.has_key config key = false.
Proof.
  unfold ConfigFile.load_config.
  change ["api"; "pagination"; "cache"; "queries"; "risk_thresholds"; "scoring"]
    with ConfigFile.required_keys.
  destruct (files !! config_path) as [[e | c]|].
  - split; [discriminate | intros (? & ? & ? & [=] & _)].
  - destruct (ConfigFile.first_missing ConfigFile.required_keys c) as [k|] eqn:M.
    + split.
      * intros [= ->]. apply first_missing_Some in M as (before & after & H).
        exists c, before, after. split; [reflexivity | exact H].
      * intros (c' & before & after & [= <-] & H).
        assert (M' : ConfigFile.first_missing ConfigFile.required_keys c = Some key)
          by (apply first_missing_Some; eauto).
        congruence.
    + split; [discriminate |].
      intros (c' & before & after & [= <-] & H).
      assert (M' : ConfigFile.first_missing ConfigFile.required_keys c = Some key)
        by (apply first_missing_Some; eauto).
      congruence.
  - split; [discriminate | intros (? & ? & ? & [=] & _)].
Qed.

(** ** Rounding *)

Section RoundFacts.
Import Py.
Local Open Scope Q_scope.

(** [round] stays within integer bounds of its argument. *)
Lemma round_range (x : Q) (a b : Z) :
  inject_Z a <= x -> x <= inject_Z b -> (a <= round x <= b)%Z.
Proof.
  intros Ha Hb.
  assert (Fa : (a <= Qfloor x)%Z).
  { rewrite <- (Qfloor_Z a). apply Qfloor_resp_le. exact Ha. }
  assert (Fb : (Qfloor x <= b)%Z).
  { rewrite <- (Qfloor_Z b). apply Qfloor_resp_le. exact Hb. }
  assert (Up : inject_Z (Qfloor x) < x -> (Qfloor x + 1 <= b)%Z).
  { intros L. assert (L' : inject_Z (Qfloor x) < inject_Z b) by lra.
    rewrite <- Zlt_Qlt in L'. lia. }
  unfold round. cbv zeta.
  destruct (Qcompare (x - inject_Z (Qfloor x)) (1 # 2)) eqn:C.
  - apply Qeq_alt in C. destruct (Z.even (Qfloor x)); [lia |].
    split; [lia |]. apply Up. lra.
  - lia.
  - apply Qgt_alt in C. split; [lia |]. apply Up. lra.
Qed.

Lemma Qmin_le_r (x y : Q) : Qmin x y <= y.
Proof.
  unfold Qmin. destruct (Qle_bool x y) eqn:E; [| lra].
  apply Qle_bool_iff in E. exact E.
Qed.

Lemma Qmin_lower (x y z : Q) : z <= x -> z <= y -> z <= Qmin x y.
Proof. intros. unfold Qmin. destruct (Qle_bool x y); assumption. Qed.

Lemma Qmax_lower_l (x y : Q) : x <= Qmax x y.
Proof.
  unfold Qmax. destruct (Qle_bool x y) eqn:E; [| lra].
  apply Qle_bool_iff in E. exact E.
Qed.

Lemma Qgtb_false (x y : Q) : Qgtb x y = false <-> x <= y.
Proof.
  unfold Qgtb. rewrite negb_false_iff. apply Qle_bool_iff.
Qed.

Lemma Qltb_false (x y : Q) : Qltb x y = false <-> y <= x.
Proof.
  unfold Qltb. rewrite negb_false_iff. apply Qle_bool_iff.
Qed.

Lemma Qgtb_true (x y : Q) : Qgtb x y = true <-> ~ x <= y.
Proof.
  rewrite <- Qgtb_false. destruct (Qgtb x y); split; congruence.
Qed.

Lemma Qltb_true (x y : Q) : Qltb x y = true <-> ~ y <= x.
Proof.
  rewrite <- Qltb_false. destruct (Qltb x y); split; congruence.
Qed.

End RoundFacts.

(** ** Concentration metrics *)

Section ConcentrationFacts.
Import Py Concentration.
Local Open Scope Q_scope.

(** The sum of the squares. *)
Definition sumsq (l : list Q) : Q := sum (map (fun v => v * v) l).

Lemma sumsq_cons (x : Q) (l : list Q) : sumsq (x :: l) = (x * x + sumsq l)%Q.
Proof. reflexivity. Qed.

Lemma sum_cons (x : Q) (l : list Q) : sum (x :: l) = (x + sum l)%Q.
Proof. reflexivity. Qed.

Lemma hhi_formula (values : list Q) (total : Q) :
  ~ total == 0 ->
  _calculate_hhi values total == 10000 * sumsq values / (total * total).
Proof.
  intros Hz. unfold _calculate_hhi.
  destruct (Qeq_bool total 0) eqn:E; [apply Qeq_bool_iff in E; contradiction |].
  cbv zeta. induction values as [|v values IH].
  - unfold sumsq. cbn. field. exact Hz.
  - cbn [map]. rewrite !sum_cons, IH, sumsq_cons. field. exact Hz.
Qed.

Lemma sumsq_nonneg (l : list Q) : 0 <= sumsq l.
Proof.
  induction l as [|x l IH]; [unfold sumsq; cbn; lra |].
  rewrite sumsq_cons. nra.
Qed.

Lemma sumsq_upper (l : list Q) :
  Forall (Qle 0) l -> sumsq l <= sum l * sum l.
Proof.
  induction 1 as [|x l Hx Hl IH]; [unfold sumsq; cbn; lra |].
  rewrite sumsq_cons, sum_cons. pose proof (sum_nonneg l Hl). nra.
Qed.

Lemma sq_nonneg (a : Q) : 0 <= a * a.
Proof. nra. Qed.

Lemma cauchy_step (n x S1 S2 : Q) :
  0 <= n -> 0 <= S2 -> S1 * S1 <= n * S2 ->
  (x + S1) * (x + S1) <= (n + 1) * (x * x + S2).
Proof.
  intros Hn H2 IH.
  assert (Hmix : 2 * x * S1 <= n * (x * x) + S2).
  { destruct (Qlt_le_dec (n * (x * x) + S2) (2 * x * S1)) as [L | L]; [| exact L].
    exfalso.
    pose proof (sq_nonneg (n * x - S1)) as Hsq.
    destruct (Qlt_le_dec 0 n) as [Pn | Zn].
    - assert (n * (2 * x * S1 - (n * (x * x) + S2)) <= 0) by nra.
      assert (0 < n * (2 * x * S1 - (n * (x * x) + S2))) by nra.
      lra.
    - assert (En : n == 0) by lra.
      assert (S1 * S1 <= 0) by (rewrite En in IH; lra).
      pose proof (sq_nonneg S1).
      assert (S1 == 0) by nra.
      nra. }
  nra.
Qed.

(** The inequality of Cauchy and Schwarz against the constant vector. *)
Lemma sumsq_lower (l : list Q) :
  sum l * sum l <= of_nat (length l) * sumsq l.
Proof.
  induction l as [|x l IH]; [unfold sumsq; cbn; lra |].
  rewrite sumsq_cons, sum_cons. cbn [length]. rewrite of_nat_S.
  apply cauchy_step; [apply of_nat_nonneg | apply sumsq_nonneg | exact IH].
Qed.

Lemma equal_values_sums (c : Q) (l : list Q) :
  Forall (fun x => x == c) l ->
  sum l == of_nat (length l) * c /\ sumsq l == of_nat (length l) * (c * c).
Proof.
  induction 1 as [|x l Hx _ [IH1 IH2]].
  - unfold sumsq. cbn. change (of_nat 0) with 0. split; ring.
  - rewrite sumsq_cons, sum_cons. cbn [length]. rewrite of_nat_S, IH1, IH2, Hx.
    split; ring.
Qed.

(** *** The largest positions *)

Lemma sum_take_le (l : list Q) (n m : nat) :
  Forall (Qle 0) l -> (n <= m)%nat -> sum (take n l) <= sum (take m l).
Proof.
  intros H. revert n m. induction H as [|x l Hx Hl IH]; intros n m L.
  - rewrite !take_nil. lra.
  - destruct n as [|n].
    + cbn [take]. apply sum_nonneg. apply Forall_take. constructor; assumption.
    + destruct m as [|m]; [lia |]. cbn [take]. rewrite !sum_cons.
      specialize (IH n m ltac:(lia)). lra.
Qed.

Lemma sum_take_nonneg (l : list Q) (n : nat) :
  Forall (Qle 0) l -> 0 <= sum (take n l).
Proof. intros H. apply sum_nonneg, Forall_take, H. Qed.

(** The values from the largest down, as [_calculate_top_n_dominance]
    sorts them. *)
Definition descending (values : list Q) : list Q :=
  sort_by (fun a b => Qle_bool b a) values.

Lemma descending_nonneg (values : list Q) :
  Forall (Qle 0) values -> Forall (Qle 0) (descending values).
Proof.
  intros H. unfold descending. rewrite sort_by_Permutation. exact H.
Qed.

Lemma descending_sum (values : list Q) : sum (descending values) == sum values.
Proof. apply sum_Permutation, sort_by_Permutation. Qed.

Lemma top_n_formula (values : list Q) (n : nat) :
  ~ sum values == 0 ->
  _calculate_top_n_dominance values (sum values) n
  = (sum (take n (descending values)) / sum values * 100)%Q.
Proof.
  intros Hz. unfold _calculate_top_n_dominance.
  destruct (Qeq_bool (sum values) 0) eqn:E; [apply Qeq_bool_iff in E; contradiction |].
  reflexivity.
Qed.

(** *** The age counters *)

Lemma age_step_counts cfg now (a : age_acc) (pos : position) :
  (mercenary_count (age_step cfg now a pos) + medium_count (age_step cfg now a pos)
   + long_term_count (age_step cfg now a pos)
   = S (mercenary_count a + medium_count a + long_term_count a))%nat.
Proof.
  unfold age_step. cbv zeta.
  destruct (Qltb _ _); [cbn; lia |]. destruct (Qltb _ _); cbn; lia.
Qed.

Lemma age_fold_counts cfg now (positions : list position) (a : age_acc) :
  let a' := fold_left (age_step cfg now) positions a in
  (mercenary_count a' + medium_count a' + long_term_count a'
   = mercenary_count a + medium_count a + long_term_count a + length positions)%nat.
Proof.
  cbv zeta. revert a. induction positions as [|pos positions IH]; intros a.
  - cbn. lia.
  - cbn [fold_left length]. rewrite IH, age_step_counts. lia.
Qed.

Lemma age_step_liquidity cfg now (a : age_acc) (pos : position) :
  mercenary_liquidity (age_step cfg now a pos) + medium_liquidity (age_step cfg now a pos)
  + long_term_liquidity (age_step cfg now a pos)
  == mercenary_liquidity a + medium_liquidity a + long_term_liquidity a + liquidity pos.
Proof.
  unfold age_step. cbv zeta.
  destruct (Qltb _ _); [cbn; ring |]. destruct (Qltb _ _); cbn; ring.
Qed.

Lemma age_fold_liquidity cfg now (positions : list position) (a : age_acc) :
  let a' := fold_left (age_step cfg now) positions a in
  mercenary_liquidity a' + medium_liquidity a' + long_term_liquidity a'
  == mercenary_liquidity a + medium_liquidity a + long_term_liquidity a
     + sum (map liquidity positions).
Proof.
  cbv zeta. revert a. induction positions as [|pos positions IH]; intros a.
  - cbn. ring.
  - cbn [fold_left map]. rewrite IH, age_step_liquidity, sum_cons. ring.
Qed.

(** *** The Gini coefficient, as a score *)

Lemma gini_unit (values : list Q) :
  values <> [] -> Forall (fun x => 0 < x) values ->
  0 <= _calculate_gini values /\ _calculate_gini values <= 1.
Proof.
  intros Hne Hpos.
  pose proof (sort_by_Permutation Qle_bool values) as P.
  fold (np_sort values) in P.
  set (sorted := np_sort values) in *.
  assert (Hs : sorted <> []).
  { intros E. rewrite E in P. apply Permutation_nil in P. congruence. }
  assert (Hspos : Forall (fun x => 0 < x) sorted) by (rewrite P; exact Hpos).
  assert (Hsnn : Forall (Qle 0) sorted).
  { eapply List.Forall_impl; [| exact Hspos]. intros y. apply Qlt_le_weak. }
  pose proof (of_nat_pos values Hne) as Hn.
  pose proof (sum_pos sorted Hs Hspos) as HS.
  pose proof (weighted_lower sorted (np_sort_ascending values) 1) as Lo.
  pose proof (weighted_upper sorted Hsnn 1 ltac:(lia)) as Up.
  rewrite (Permutation_length P) in Lo, Up.
  rewrite (gini_formula values Hne). fold sorted.
  set (n := of_nat (length values)) in *.
  set (S := sum sorted) in *.
  set (W := weighted 1 sorted) in *.
  change (inject_Z 1) with 1 in Lo, Up.
  assert (Hden : 0 < n * S) by nra.
  split.
  - assert ((n + 1) / n <= 2 * W / (n * S)); [| lra].
    apply Qle_shift_div_l; [exact Hden |].
    assert (E : (n + 1) / n * (n * S) == (n + 1) * S) by (field; lra).
    rewrite E. lra.
  - assert (2 * W / (n * S) <= 1 + (n + 1) / n); [| lra].
    apply Qle_shift_div_r; [exact Hden |].
    assert (E : (1 + (n + 1) / n) * (n * S) == (2 * n + 1) * S) by (field; lra).
    rewrite E. nra.
Qed.

End ConcentrationFacts.

(** X12: for non-negative liquidity values with a positive total, the
    index of [_calculate_hhi] lies between 10000 / n and 10000, n the
    number of positions, and it is 10000 / n when all the positions are
    equal (10000 for a single holder). *)
Theorem hhi_between_equal_split_and_monopoly (values : list Q) :
  Forall (Qle 0) values ->
  (0 < Py.sum values)%Q ->
  (10000 / Py.of_nat (length values)
   <= Concentration._calculate_hhi values (Py.sum values))%Q
  /\ (Concentration._calculate_hhi values (Py.sum values) <= 10000)%Q
  /\ ((forall x y, In x values -> In y values -> x == y) ->
      Concentration._calculate_hhi values (Py.sum values)
      == 10000 / Py.of_nat (length values)).
Proof.
  intros Hnn Hpos.
  assert (Hne : values <> []) by (intros ->; cbn in Hpos; lra).
  pose proof (of_nat_pos values Hne) as Hn.
  rewrite (hhi_formula values (Py.sum values)) by lra.
  pose proof (sumsq_upper values Hnn) as Up.
  pose proof (sumsq_lower values) as Lo.
  set (n := Py.of_nat (length values)) in *.
  set (T := Py.sum values) in *. set (S2 := sumsq values) in *.
  assert (HT : (0 < T * T)%Q) by nra.
  split; [| split].
  - apply Qle_shift_div_l; [exact HT |].
    assert (E : (10000 / n * (T * T) == 10000 * (T * T) / n)%Q) by (field; lra).
    rewrite E. apply Qle_shift_div_r; [exact Hn |]. nra.
  - apply Qle_shift_div_r; [exact HT |]. nra.
  - intros Heq.
    assert (Hex : exists c, In c values).
    { destruct values as [|c vs]; [congruence | exists c; left; reflexivity]. }
    destruct Hex as [c Ic].
    assert (Hc : Forall (fun x => x == c) values).
    { apply Forall_forall. intros x Hx.
      apply Heq; [apply list_elem_of_In; exact Hx | exact Ic]. }
    destruct (equal_values_sums c values Hc) as [E1 E2].
    fold n in E1, E2. fold T in E1. fold S2 in E2.
    assert (Hcpos : ~ c == 0).
    { intros Z. rewrite Z in E1. lra. }
    rewrite E2, E1. field. split; [lra | exact Hcpos].
Qed.

(** Three equal positions, and three positions one of which is empty. *)
Definition three_equal : list Q := [5%Q; 5%Q; 5%Q].
Definition three_uneven : list Q := [3%Q; 0%Q; 7%Q].

(** X12 on three equal positions. *)
Lemma hhi_between_equal_split_and_monopoly_witness :
  (10000 / Py.of_nat (length three_equal)
   <= Concentration._calculate_hhi three_equal (Py.sum three_equal))%Q
  /\ (Concentration._calculate_hhi three_equal (Py.sum three_equal) <= 10000)%Q
  /\ ((forall x y, In x three_equal -> In y three_equal -> x == y) ->
      Concentration._calculate_hhi three_equal (Py.sum three_equal)
      == 10000 / Py.of_nat (length three_equal)).
Proof.
  apply (hhi_between_equal_split_and_monopoly three_equal).
  - repeat constructor; vm_compute; discriminate.
  - vm_compute. reflexivity.
Defined.

(** X13: in exact arithmetic (floats read as exact rationals), for
    non-negative liquidity values with a positive total, the share of the
    [n] largest positions lies between 0 and 100, grows with [n], and is 100
    as soon as the pool has no more than [n] positions (so a pool of at most
    ten positions has a top-10 dominance of 100). In doubles the two sums
    are rounded, each in its own order, and the share can pass 100 by a
    rounding error. *)
Theorem top_n_dominance_range (values : list Q) (n : nat) :
  Forall (Qle 0) values ->
  (0 < Py.sum values)%Q ->
  (0 <= Concentration._calculate_top_n_dominance values (Py.sum values) n)%Q
  /\ (Concentration._calculate_top_n_dominance values (Py.sum values) n <= 100)%Q
  /\ (forall m, n <= m ->
        (Concentration._calculate_top_n_dominance values (Py.sum values) n
         <= Concentration._calculate_top_n_dominance values (Py.sum values) m)%Q)
  /\ (length values <= n ->
      Concentration._calculate_top_n_dominance values (Py.sum values) n == 100).
Proof.
  intros Hnn Hpos.
  assert (Hz : ~ Py.sum values == 0) by lra.
  pose proof (descending_nonneg values Hnn) as Hd.
  pose proof (descending_sum values) as Hs.
  assert (Hall : forall k, (Py.sum (take k (descending values)) <= Py.sum values)%Q).
  { intros k. rewrite <- Hs.
    rewrite <- (take_ge (descending values) (k + length (descending values))) at 2 by lia.
    apply sum_take_le; [exact Hd | lia]. }
  assert (Hshare : forall a b : Q,
             (a <= b)%Q -> (a / Py.sum values * 100 <= b / Py.sum values * 100)%Q).
  { intros a b L.
    assert (a / Py.sum values <= b / Py.sum values)%Q; [| lra].
    apply Qle_shift_div_l; [exact Hpos |].
    assert (E : (a / Py.sum values * Py.sum values == a)%Q) by (field; exact Hz).
    rewrite E. exact L. }
  assert (Hfull : (Py.sum values / Py.sum values * 100 == 100)%Q) by (field; exact Hz).
  rewrite !top_n_formula by exact Hz.
  split; [| split; [| split]].
  - assert (E : (0 == 0 / Py.sum values * 100)%Q) by (field; exact Hz).
    rewrite E. apply Hshare, sum_take_nonneg, Hd.
  - eapply Qle_trans; [apply Hshare, Hall | rewrite Hfull; apply Qle_refl].
  - intros m L. rewrite top_n_formula by exact Hz.
    apply Hshare, sum_take_le; [exact Hd | exact L].
  - intros L. rewrite take_ge.
    + rewrite Hs. exact Hfull.
    + unfold descending. rewrite (Permutation_length (sort_by_Permutation _ values)).
      exact L.
Qed.

(** X13 on a pool of three positions, for the ten largest. *)
Lemma top_n_dominance_range_witness :
  (0 <= Concentration._calculate_top_n_dominance three_uneven (Py.sum three_uneven) 10)%Q
  /\ (Concentration._calculate_top_n_dominance three_uneven (Py.sum three_uneven) 10
      <= 100)%Q
  /\ (forall m, 10 <= m ->
        (Concentration._calculate_top_n_dominance three_uneven (Py.sum three_uneven) 10
         <= Concentration._calculate_top_n_dominance three_uneven (Py.sum three_uneven) m)%Q)
  /\ (length three_uneven <= 10 ->
      Concentration._calculate_top_n_dominance three_uneven (Py.sum three_uneven) 10
      == 100).
Proof.
  apply (top_n_dominance_range three_uneven 10).
  - repeat constructor; vm_compute; discriminate.
  - vm_compute. reflexivity.
Defined.

(** X14: [_calculate_lp_age_distribution] puts every position in exactly
    one of its three buckets: the three counts add up to the number of
    positions, whatever the thresholds and the clock. *)
Theorem lp_age_counts_partition
    (cfg : Concentration.config) (current_time : Z)
    (positions : list Concentration.position) :
  let d := Concentration._calculate_lp_age_distribution cfg current_time positions in
  Concentration.count (Concentration.dist_mercenary d)
  + Concentration.count (Concentration.dist_medium_term d)
  + Concentration.count (Concentration.dist_long_term d)
  = length positions.
Proof.
  cbv zeta. unfold Concentration._calculate_lp_age_distribution.
  cbn [Concentration.count Concentration.dist_mercenary Concentration.dist_medium_term
       Concentration.dist_long_term].
  rewrite (age_fold_counts cfg current_time positions). reflexivity.
Qed.

(** X15: for a non-empty list of positions of positive liquidity,
    [analyze] reports a [risk_score] that is an integer between 0 and
    100. *)
Theorem concentration_score_in_range
    (cfg : Concentration.config) (current_time : Z)
    (positions : list Concentration.position) :
  positions <> [] ->
  Forall (fun p => (0 < Concentration.liquidity p)%Q) positions ->
  exists s : Z,
    Py.get (Concentration.analyze cfg current_time positions) "risk_score"
    = Some (Py.JNum (inject_Z s))
    /\ (0 <= s <= 100)%Z.
Proof.
  intros Hne Hpos.
  destruct positions as [|p ps] eqn:V; [congruence |]. rewrite <- V in *.
  set (values := map Concentration.liquidity positions).
  assert (Hv : Forall (fun x => (0 < x)%Q) values).
  { unfold values. apply Forall_map. exact Hpos. }
  assert (Hvne : values <> []) by (unfold values; rewrite V; discriminate).
  assert (Hnn : Forall (Qle 0) values).
  { eapply List.Forall_impl; [| exact Hv]. intros y. apply Qlt_le_weak. }
  pose proof (sum_pos values Hvne Hv) as HS.
  destruct (gini_unit values Hvne Hv) as [G0 G1].
  assert (H0 : (0 <= Concentration._calculate_hhi values (Py.sum values))%Q).
  { rewrite hhi_formula by lra. pose proof (sumsq_nonneg values).
    apply Qle_shift_div_l; [nra | lra]. }
  assert (T : (0 <= Concentration._calculate_top_n_dominance values (Py.sum values) 10
               <= 100)%Q).
  { rewrite top_n_formula by lra.
    pose proof (descending_nonneg values Hnn) as Hd.
    pose proof (sum_take_nonneg (descending values) 10 Hd) as T0.
    assert (T1 : (Py.sum (take 10 (descending values)) <= Py.sum values)%Q).
    { rewrite <- (descending_sum values).
      rewrite <- (take_ge (descending values) (10 + length (descending values))) at 2
        by lia.
      apply sum_take_le; [exact Hd | lia]. }
    split.
    - assert (0 <= Py.sum (take 10 (descending values)) / Py.sum values)%Q; [| lra].
      apply Qle_shift_div_l; [exact HS | lra].
    - assert (Py.sum (take 10 (descending values)) / Py.sum values <= 1)%Q; [| lra].
      apply Qle_shift_div_r; [exact HS | lra]. }
  exists (Concentration._calculate_risk_score
            (Concentration._calculate_gini values)
            (Concentration._calculate_hhi values (Py.sum values))
            (Concentration._calculate_top_n_dominance values (Py.sum values) 10)).
  split; [unfold values; rewrite V; reflexivity |].
  unfold Concentration._calculate_risk_score. cbv zeta.
  pose proof (Qmin_le_r
                (Concentration._calculate_hhi values (Py.sum values) / 10000 * 100) 100)
    as M1.
  assert (M0 : (0 <= Py.Qmin
                       (Concentration._calculate_hhi values (Py.sum values) / 10000 * 100)
                       100)%Q).
  { apply Qmin_lower; [| lra].
    assert (E : (Concentration._calculate_hhi values (Py.sum values) / 10000 * 100
                 == Concentration._calculate_hhi values (Py.sum values) * (1 # 100))%Q)
      by field.
    rewrite E. lra. }
  apply round_range.
  - change (inject_Z 0) with 0%Q. apply Qle_shift_div_l; lra.
  - change (inject_Z 100) with 100%Q. apply Qle_shift_div_r; lra.
Qed.

Section ConcentrationExample.

Definition three_positions : list Concentration.position :=
  [ {| Concentration.liquidity := 50; Concentration.timestamp := 1700000000 |};
    {| Concentration.liquidity := 30; Concentration.timestamp := 1690000000 |};
    {| Concentration.liquidity := 20; Concentration.timestamp := 1600000000 |} ].

Definition sample_concentration : Concentration.config :=
  {| Concentration.risk_thresholds :=
       {| Concentration.top10_dominance_critical_pct := 70;
          Concentration.top10_dominance_high_risk_pct := 50;
          Concentration.gini_critical := 9 # 10;
          Concentration.gini_high_risk := 8 # 10;
          Concentration.hhi_critical := 5000;
          Concentration.hhi_high_risk := 2500 |};
     Concentration.age_thresholds :=
       {| Concentration.mercenary := 7; Concentration.long_term := 90 |} |}.

End ConcentrationExample.

(** X15 on three positions. *)
Lemma concentration_score_in_range_witness :
  exists s : Z,
    Py.get (Concentration.analyze sample_concentration 1700100000 three_positions)
      "risk_score"
    = Some (Py.JNum (inject_Z s))
    /\ (0 <= s <= 100)%Z.
Proof.
  apply (concentration_score_in_range sample_concentration 1700100000 three_positions).
  - discriminate.
  - repeat constructor.
Defined.

(** ** Threshold flags *)

Section FlagFacts.
Import Py.

(** The comparisons of a flag function, one case each. *)
Ltac threshold_cases :=
  repeat match goal with
         | |- context [Qgtb ?x ?y] =>
             let E := fresh "E" in destruct (Qgtb x y) eqn:E
         | |- context [Qltb ?x ?y] =>
             let E := fresh "E" in destruct (Qltb x y) eqn:E
         end.

(** A flag list is the sentinel exactly when the bounds hold: in the one
    case where every comparison failed the bounds follow, in every other
    case a bound contradicts the comparison that succeeded. *)
Ltac sentinel_iff :=
  threshold_cases; cbn;
  (split;
   [ intros H; first [ discriminate H
                     | repeat split;
                       first [ apply Qgtb_false; assumption
                             | apply Qltb_false; assumption ] ]
   | intros H;
     first [ reflexivity
           | exfalso;
             repeat match goal with
                    | E : Qgtb _ _ = true |- _ => apply Qgtb_true in E
                    | E : Qltb _ _ = true |- _ => apply Qltb_true in E
                    end;
             tauto ] ]).

Lemma concentration_sentinel cfg gini hhi top lp :
  Concentration._generate_risk_flags cfg gini hhi top lp = ["LOW_RISK"]
  <-> (top <= Concentration.top10_dominance_critical_pct (Concentration.risk_thresholds cfg)
       /\ top <= Concentration.top10_dominance_high_risk_pct (Concentration.risk_thresholds cfg)
       /\ gini <= Concentration.gini_critical (Concentration.risk_thresholds cfg)
       /\ gini <= Concentration.gini_high_risk (Concentration.risk_thresholds cfg)
       /\ hhi <= Concentration.hhi_critical (Concentration.risk_thresholds cfg)
       /\ hhi <= Concentration.hhi_high_risk (Concentration.risk_thresholds cfg)
       /\ Concentration.liquidity_pct (Concentration.dist_mercenary lp) <= 50)%Q.
Proof. unfold Concentration._generate_risk_flags. cbv zeta. sentinel_iff. Qed.

Lemma liquidity_sentinel th a b c d :
  LiquidityDepth._generate_risk_flags th (Some a) (Some b) (Some c) (Some d)
  = ["LOW_RISK"]
  <-> (a <= LiquidityDepth.price_impact_100k_critical_pct th
       /\ a <= LiquidityDepth.price_impact_100k_high_pct th
       /\ b <= LiquidityDepth.price_impact_1m_critical_pct th
       /\ b <= LiquidityDepth.price_impact_1m_high_pct th
       /\ LiquidityDepth.active_liquidity_low_pct th <= c
       /\ d <= LiquidityDepth.tvl_volatility_high_pct th)%Q.
Proof. unfold LiquidityDepth._generate_risk_flags. cbv zeta. sentinel_iff. Qed.

Lemma market_sentinel th u c :
  MarketRisk._generate_risk_flags th u c = ["LOW_RISK"]
  <-> (MarketRisk.utilization_rate_critical_low th <= u
       /\ MarketRisk.utilization_rate_low th <= u
       /\ MarketRisk.price_correlation_high_il_risk th <= c
       /\ MarketRisk.price_correlation_low_il_risk th <= c)%Q.
Proof. unfold MarketRisk._generate_risk_flags. cbv zeta. sentinel_iff. Qed.

Lemma behavioral_sentinel th w m :
  Behavioral._generate_risk_flags th w m = ["LOW_RISK"]
  <-> (w <= Behavioral.wash_trading_critical_pct th
       /\ w <= Behavioral.wash_trading_high_pct th
       /\ m <= Behavioral.mev_exposure_critical_pct th
       /\ m <= Behavioral.mev_exposure_high_pct th)%Q.
Proof. unfold Behavioral._generate_risk_flags. cbv zeta. sentinel_iff. Qed.








End FlagFacts.

(** X16: each of the four flag functions returns the sentinel
    [["LOW_RISK"]] exactly when no metric is beyond any of its thresholds
    (above the critical and the high one; for active liquidity, utilization
    and price correlation, below them), whatever the order of the
    thresholds in the configuration. *)
Theorem low_risk_iff_within_thresholds :
  (forall cfg gini hhi top lp,
      Concentration._generate_risk_flags cfg gini hhi top lp = ["LOW_RISK"]
      <-> (top <= Concentration.top10_dominance_critical_pct (Concentration.risk_thresholds cfg)
           /\ top <= Concentration.top10_dominance_high_risk_pct
                       (Concentration.risk_thresholds cfg)
           /\ gini <= Concentration.gini_critical (Concentration.risk_thresholds cfg)
           /\ gini <= Concentration.gini_high_risk (Concentration.risk_thresholds cfg)
           /\ hhi <= Concentration.hhi_critical (Concentration.risk_thresholds cfg)
           /\ hhi <= Concentration.hhi_high_risk (Concentration.risk_thresholds cfg)
           /\ Concentration.liquidity_pct (Concentration.dist_mercenary lp) <= 50)%Q)
  /\ (forall th a b c d,
      LiquidityDepth._generate_risk_flags th (Some a) (Some b) (Some c) (Some d)
      = ["LOW_RISK"]
      <-> (a <= LiquidityDepth.price_impact_100k_critical_pct th
           /\ a <= LiquidityDepth.price_impact_100k_high_pct th
           /\ b <= LiquidityDepth.price_impact_1m_critical_pct th
           /\ b <= LiquidityDepth.price_impact_1m_high_pct th
           /\ LiquidityDepth.active_liquidity_low_pct th <= c
           /\ d <= LiquidityDepth.tvl_volatility_high_pct th)%Q)
  /\ (forall th u c,
      MarketRisk._generate_risk_flags th u c = ["LOW_RISK"]
      <-> (MarketRisk.utilization_rate_critical_low th <= u
           /\ MarketRisk.utilization_rate_low th <= u
           /\ MarketRisk.price_correlation_high_il_risk th <= c
           /\ MarketRisk.price_correlation_low_il_risk th <= c)%Q)
  /\ (forall th w m,
      Behavioral._generate_risk_flags th w m = ["LOW_RISK"]
      <-> (w <= Behavioral.wash_trading_critical_pct th
           /\ w <= Behavioral.wash_trading_high_pct th
           /\ m <= Behavioral.mev_exposure_critical_pct th
           /\ m <= Behavioral.mev_exposure_high_pct th)%Q).
Proof.
  split; [| split; [| split]].
  - apply concentration_sentinel.
  - apply liquidity_sentinel.
  - apply market_sentinel.
  - apply behavioral_sentinel.
Qed.


(** ** Behavioural patterns *)

Section BehavioralFacts.
Import Py Behavioral.

(** *** Grouping *)

Lemma dd_append_elem {V : Type} (k0 : string) (v0 : V) (d : list (string * list V))
    (k : string) (vs : list V) (v : V) :
  In (k, vs) (dd_append k0 v0 d) -> In v vs ->
  (exists vs0, In (k, vs0) d /\ In v vs0) \/ (k = k0 /\ v = v0).
Proof.
  induction d as [|[k' vs'] d IH]; cbn [dd_append].
  - intros [[= <- <-] | []] [<- | []]. right. split; reflexivity.
  - destruct (String.eqb k' k0) eqn:E.
    + apply String.eqb_eq in E. subst k'. intros [[= <- <-] | I] Iv.
      * apply in_app_or in Iv as [Iv | [<- | []]].
        -- left. exists vs'. split; [left; reflexivity | exact Iv].
        -- right. split; reflexivity.
      * left. exists vs. split; [right; exact I | exact Iv].
    + intros [[= <- <-] | I] Iv.
      * left. exists vs'. split; [left; reflexivity | exact Iv].
      * destruct (IH I Iv) as [(vs0 & I0 & Iv0) | R]; [| right; exact R].
        left. exists vs0. split; [right |]; assumption.
Qed.

Lemma dd_fold_elem {A V : Type} (key : A -> string) (val : A -> V) (l : list A)
    (d : list (string * list V)) (k : string) (vs : list V) (v : V) :
  In (k, vs) (fold_left (fun d s => dd_append (key s) (val s) d) l d) -> In v vs ->
  (exists vs0, In (k, vs0) d /\ In v vs0)
  \/ (exists s, In s l /\ key s = k /\ val s = v).
Proof.
  revert d. induction l as [|s l IH]; intros d I Iv; cbn [fold_left] in I.
  - left. eauto.
  - destruct (IH _ I Iv) as [(vs0 & I0 & Iv0) | (s' & Is & Hk & Hv)].
    + destruct (dd_append_elem _ _ _ _ _ _ I0 Iv0) as [L | [-> ->]].
      * left. exact L.
      * right. exists s. split; [left; reflexivity | split; reflexivity].
    + right. exists s'. split; [right; exact Is | split; assumption].
Qed.

Lemma dd_get_elem {V : Type} (d : list (string * list V)) (k : string) (v : V) :
  In v (dd_get d k) -> exists vs, In (k, vs) d /\ In v vs.
Proof.
  induction d as [|[k' vs'] d IH]; cbn [dd_get]; [intros [] |].
  destruct (String.eqb k' k) eqn:E.
  - apply String.eqb_eq in E. subst k'. intros I.
    exists vs'. split; [left; reflexivity | exact I].
  - intros I. destruct (IH I) as (vs & I1 & I2).
    exists vs. split; [right |]; assumption.
Qed.

(** A swap of a group is a swap of the list, of the block of the group. *)
Lemma group_member (swaps : list swap) (blk : string) (block_swaps : list swap)
    (s : swap) :
  In (blk, block_swaps) (group_by_block swaps) -> In s block_swaps ->
  In s swaps /\ blockNumber s = blk.
Proof.
  unfold group_by_block. intros I Is.
  destruct (dd_fold_elem blockNumber (fun s => s) swaps [] blk block_swaps s I Is)
    as [(vs0 & [] & _) | (s' & I' & Hk & ->)].
  split; assumption.
Qed.

(** A recipient of a sender is the recipient of one of its swaps. *)
Lemma flows_member (block_swaps : list swap) (sndr rcpt : string)
    (recipients : list string) :
  In (sndr, recipients) (flows_of block_swaps) -> In rcpt recipients ->
  exists s, In s block_swaps /\ sender s = sndr /\ recipient s = rcpt.
Proof.
  unfold flows_of. intros I Ir.
  destruct (dd_fold_elem sender recipient block_swaps [] sndr recipients rcpt I Ir)
    as [(vs0 & [] & _) | H].
  exact H.
Qed.

Lemma mem_In (s : string) (l : list string) : mem s l = true -> In s l.
Proof.
  unfold mem. intros H. apply existsb_exists in H as (x & I & E).
  apply String.eqb_eq in E. subst x. exact I.
Qed.

(** *** Circular flows *)

(** The pattern the loop appends for [sndr] and [rcpt]. *)
Definition circular (blk sndr rcpt : string) : pattern :=
  {| block := blk; addresses := [sndr; rcpt]; kind := "circular" |}.

(** A pair of swaps of one block that send to each other's sender. *)
Definition mutual (swaps : list swap) (p : pattern) : Prop :=
  exists s1 s2,
    In s1 swaps /\ In s2 swaps
    /\ blockNumber s1 = block p /\ blockNumber s2 = block p
    /\ recipient s1 = sender s2 /\ recipient s2 = sender s1
    /\ p = circular (block p) (sender s1) (recipient s1).

Lemma scan_recipients_sound blk flows sndr (recipients : list string)
    (acc : list pattern * nat) (p : pattern) :
  In p (fst (scan_recipients blk flows sndr acc recipients)) ->
  In p (fst acc)
  \/ exists rcpt, In rcpt recipients /\ In sndr (dd_get flows rcpt)
                  /\ p = circular blk sndr rcpt.
Proof.
  unfold scan_recipients. revert acc.
  induction recipients as [|rcpt recipients IH]; intros [pats cnt] I;
    cbn [fold_left] in I; [left; exact I |].
  destruct (IH _ I) as [I0 | (r & Ir & Hm & Hp)].
  - destruct (mem sndr (dd_get flows rcpt)) eqn:M; cbn [fst] in I0 |- *.
    + apply in_app_or in I0 as [I0 | [<- | []]]; [left; exact I0 |].
      right. exists rcpt. split; [left; reflexivity |].
      split; [apply mem_In, M | reflexivity].
    + left. exact I0.
  - right. exists r. split; [right; exact Ir | split; assumption].
Qed.

Lemma scan_senders_sound blk flows (senders : list (string * list string))
    (acc : list pattern * nat) (p : pattern) :
  In p (fst (fold_left
               (fun acc '(sndr, recipients) =>
                  scan_recipients blk flows sndr acc recipients)
               senders acc)) ->
  In p (fst acc)
  \/ exists sndr recipients rcpt,
       In (sndr, recipients) senders /\ In rcpt recipients
       /\ In sndr (dd_get flows rcpt) /\ p = circular blk sndr rcpt.
Proof.
  revert acc.
  induction senders as [|[sndr recipients] senders IH]; intros acc I;
    cbn [fold_left] in I; [left; exact I |].
  destruct (IH _ I) as [I0 | (s & rs & r & Is & Ir & Hm & Hp)].
  - destruct (scan_recipients_sound _ _ _ _ _ _ I0) as [I1 | (r & Ir & Hm & Hp)];
      [left; exact I1 |].
    right. exists sndr, recipients, r.
    split; [left; reflexivity | repeat split; assumption].
  - right. exists s, rs, r. split; [right; exact Is | repeat split; assumption].
Qed.

(** The patterns a block adds are mutual pairs of its swaps. *)
Lemma scan_flows_sound blk (block_swaps : list swap) (acc : list pattern * nat)
    (p : pattern) :
  In p (fst (scan_flows blk (flows_of block_swaps) acc)) ->
  In p (fst acc)
  \/ exists s1 s2,
       In s1 block_swaps /\ In s2 block_swaps
       /\ recipient s1 = sender s2 /\ recipient s2 = sender s1
       /\ p = circular blk (sender s1) (recipient s1).
Proof.
  unfold scan_flows. intros I.
  destruct (scan_senders_sound _ _ _ _ _ I) as [I0 | (s & rs & r & Is & Ir & Hm & Hp)];
    [left; exact I0 |].
  right.
  destruct (flows_member _ _ _ _ Is Ir) as (s1 & I1 & S1 & R1).
  destruct (dd_get_elem _ _ _ Hm) as (rs' & Irs & Is').
  destruct (flows_member _ _ _ _ Irs Is') as (s2 & I2 & S2 & R2).
  exists s1, s2. repeat split; try assumption; congruence.
Qed.

Lemma scan_groups_sound (swaps : list swap) (groups : list (string * list swap))
    (acc : list pattern * nat) (p : pattern) :
  (forall blk block_swaps, In (blk, block_swaps) groups ->
     In (blk, block_swaps) (group_by_block swaps)) ->
  In p (fst (fold_left
               (fun acc '(blk, block_swaps) =>
                  if (length block_swaps <? 2)%nat then acc
                  else scan_flows blk (flows_of block_swaps) acc)
               groups acc)) ->
  In p (fst acc) \/ mutual swaps p.
Proof.
  revert acc.
  induction groups as [|[blk block_swaps] groups IH]; intros acc Sub I;
    cbn [fold_left] in I; [left; exact I |].
  assert (Sub' : forall b bs, In (b, bs) groups -> In (b, bs) (group_by_block swaps)).
  { intros b bs Ib. apply Sub. right. exact Ib. }
  destruct (IH _ Sub' I) as [I0 | M]; [| right; exact M].
  destruct (length block_swaps <? 2)%nat; [left; exact I0 |].
  destruct (scan_flows_sound _ _ _ _ I0) as [I1 | (s1 & s2 & I1 & I2 & R1 & R2 & Hp)];
    [left; exact I1 |].
  right. assert (G : In (blk, block_swaps) (group_by_block swaps))
    by (apply Sub; left; reflexivity).
  destruct (group_member _ _ _ _ G I1) as [J1 B1].
  destruct (group_member _ _ _ _ G I2) as [J2 B2].
  exists s1, s2. subst p. cbn [block circular]. repeat split; assumption.
Qed.

(** *** Sandwiches *)

(** A swap between two swaps of one origin that is not its own. *)
Definition sandwiched (swaps : list swap) (victim : string) : Prop :=
  exists swap_before middle_swap swap_after,
    In swap_before swaps /\ In middle_swap swaps /\ In swap_after swaps
    /\ blockNumber swap_before = blockNumber middle_swap
    /\ blockNumber swap_after = blockNumber middle_swap
    /\ tx_id middle_swap = victim
    /\ origin swap_before = origin swap_after
    /\ origin middle_swap <> origin swap_before.

Lemma scan_triples_sound (l : list swap) (victims : gset string) (v : string) :
  v ∈ scan_triples l victims ->
  v ∈ victims
  \/ exists a m b,
       In a l /\ In m l /\ In b l /\ tx_id m = v
       /\ origin a = origin b /\ origin m <> origin a.
Proof.
  revert victims. induction l as [|a rest IH]; intros victims I; [left; exact I |].
  destruct rest as [|m [|b rest]]; [left; exact I | left; exact I |].
  change (v ∈ scan_triples (m :: b :: rest)
                (if String.eqb (origin a) (origin b)
                    && negb (String.eqb (origin m) (origin a))
                 then {[tx_id m]} ∪ victims
                 else victims)) in I.
  destruct (IH _ I) as [I0 | (a' & m' & b' & Ia & Im & Ib & H)].
  - destruct (String.eqb (origin a) (origin b)
              && negb (String.eqb (origin m) (origin a))) eqn:C; [| left; exact I0].
    apply elem_of_union in I0 as [I0 | I0]; [| left; exact I0].
    apply elem_of_singleton in I0. subst v.
    apply andb_true_iff in C as [C1 C2].
    apply String.eqb_eq in C1. apply negb_true_iff, String.eqb_neq in C2.
    right. exists a, m, b. cbn. intuition.
  - right. exists a', m', b'. cbn. intuition.
Qed.

Lemma sandwich_groups_sound (swaps : list swap) (groups : list (string * list swap))
    (victims : gset string) (v : string) :
  (forall blk block_swaps, In (blk, block_swaps) groups ->
     In (blk, block_swaps) (group_by_block swaps)) ->
  v ∈ fold_left
        (fun victims '(blk, block_swaps) =>
           if (length block_swaps <? 3)%nat then victims
           else scan_triples
                  (sort_by (fun a b => String.leb (id a) (id b)) block_swaps) victims)
        groups victims ->
  v ∈ victims \/ sandwiched swaps v.
Proof.
  revert victims.
  induction groups as [|[blk block_swaps] groups IH]; intros victims Sub I;
    cbn [fold_left] in I; [left; exact I |].
  assert (Sub' : forall b bs, In (b, bs) groups -> In (b, bs) (group_by_block swaps)).
  { intros b bs Ib. apply Sub. right. exact Ib. }
  destruct (IH _ Sub' I) as [I0 | M]; [| right; exact M].
  destruct (length block_swaps <? 3)%nat; [left; exact I0 |].
  destruct (scan_triples_sound _ _ _ I0) as [I1 | (a & m & b & Ia & Im & Ib & T & O1 & O2)];
    [left; exact I1 |].
  right. assert (G : In (blk, block_swaps) (group_by_block swaps))
    by (apply Sub; left; reflexivity).
  pose proof (sort_by_Permutation (fun a b => String.leb (id a) (id b)) block_swaps) as P.
  apply (Permutation_in _ P) in Ia, Im, Ib.
  destruct (group_member _ _ _ _ G Ia) as [Ja Ba].
  destruct (group_member _ _ _ _ G Im) as [Jm Bm].
  destruct (group_member _ _ _ _ G Ib) as [Jb Bb].
  exists a, m, b. repeat split; try assumption; congruence.
Qed.

Lemma sandwich_scan_sound (swaps : list swap) (v : string) :
  v ∈ sandwich_scan (group_by_block swaps) -> sandwiched swaps v.
Proof.
  unfold sandwich_scan. intros I.
  destruct (sandwich_groups_sound swaps _ ∅ v (fun _ _ H => H) I) as [E | S];
    [| exact S].
  apply elem_of_empty in E. destruct E.
Qed.

Lemma of_nat_S_pos (n : nat) : (0 < of_nat (S n))%Q.
Proof.
  rewrite of_nat_S. pose proof (of_nat_nonneg n). lra.
Qed.

Lemma size_list_to_set_le (l : list string) :
  size (list_to_set l : gset string) <= length l.
Proof.
  induction l as [|x l IH]; [rewrite list_to_set_nil, size_empty; lia |].
  rewrite list_to_set_cons. cbn [length].
  destruct (decide (x ∈ (list_to_set l : gset string))) as [I | N].
  - rewrite (subseteq_union_1_L {[x]} (list_to_set l)); [lia |].
    apply singleton_subseteq_l. exact I.
  - rewrite size_union by set_solver. rewrite size_singleton. lia.
Qed.

Lemma sandwich_victims_count (swaps : list swap) :
  size (sandwich_scan (group_by_block swaps)) <= length swaps.
Proof.
  etransitivity; [| rewrite <- (length_map tx_id swaps); apply size_list_to_set_le].
  apply subseteq_size. intros v I.
  destruct (sandwich_scan_sound swaps v I) as (a & m & b & _ & Im & _ & _ & _ & T & _).
  apply elem_of_list_to_set, list_elem_of_In. rewrite <- T. apply in_map, Im.
Qed.

End BehavioralFacts.

(** X18: every pattern [_detect_wash_trading] reports is a circular flow
    that is in the data: two swaps of the list in the block of the pattern,
    each sent to the sender of the other, the addresses of the pattern being
    the sender and the recipient of the first (the two swaps may be one and
    the same, when a swap has its sender as recipient). *)
Theorem wash_patterns_are_mutual_flows
    (swaps : list Behavioral.swap) (p : Behavioral.pattern) :
  In p (snd (Behavioral._detect_wash_trading swaps)) -> mutual swaps p.
Proof.
  unfold Behavioral._detect_wash_trading.
  destruct (Behavioral.scan_blocks (Behavioral.group_by_block swaps))
    as [patterns count] eqn:E.
  destruct swaps as [|s swaps]; [intros [] |]. cbn [snd]. intros I.
  assert (I' : In p (fst (Behavioral.scan_blocks
                            (Behavioral.group_by_block (s :: swaps)))))
    by (rewrite E; exact I).
  destruct (scan_groups_sound (s :: swaps) _ ([], 0) p (fun _ _ H => H) I')
    as [[] | M].
  exact M.
Qed.

(** X18 on one mutual pair. *)
Lemma wash_patterns_are_mutual_flows_witness :
  mutual mutual_pair (circular "100" "0xA" "0xB").
Proof.
  apply (wash_patterns_are_mutual_flows mutual_pair (circular "100" "0xA" "0xB")).
  vm_compute. left. reflexivity.
Defined.

(** X19: every victim [_detect_sandwich_attacks] reports is the
    transaction of a swap of the list that has, in its block, two swaps of
    one origin other than its own; the victims are reported once each, and
    the exposure is a percentage between 0 and 100. *)
Theorem sandwich_victims_are_sandwiched (swaps : list Behavioral.swap) :
  (forall v, In v (snd (Behavioral._detect_sandwich_attacks swaps)) ->
             sandwiched swaps v)
  /\ NoDup (snd (Behavioral._detect_sandwich_attacks swaps))
  /\ (0 <= fst (Behavioral._detect_sandwich_attacks swaps))%Q
  /\ (fst (Behavioral._detect_sandwich_attacks swaps) <= 100)%Q.
Proof.
  unfold Behavioral._detect_sandwich_attacks. cbv zeta.
  destruct swaps as [|s swaps].
  { cbn [fst snd]. repeat split; [intros v [] | constructor | lra | lra]. }
  set (l := s :: swaps). cbn [fst snd].
  pose proof (sandwich_victims_count l) as C.
  assert (Hn : (0 < Py.of_nat (length l))%Q) by apply of_nat_S_pos.
  assert (Hv : (0 <= Py.of_nat (size (Behavioral.sandwich_scan
                                        (Behavioral.group_by_block l))))%Q)
    by apply of_nat_nonneg.
  assert (Hle : (Py.of_nat (size (Behavioral.sandwich_scan (Behavioral.group_by_block l)))
                 <= Py.of_nat (length l))%Q).
  { unfold Py.of_nat. rewrite <- Zle_Qle. lia. }
  repeat split.
  - intros v I. apply sandwich_scan_sound, elem_of_elements, list_elem_of_In, I.
  - apply NoDup_elements.
  - assert (0 <= Py.of_nat (size (Behavioral.sandwich_scan (Behavioral.group_by_block l)))
                 / Py.of_nat (length l))%Q; [| lra].
    apply Qle_shift_div_l; [exact Hn | lra].
  - assert (Py.of_nat (size (Behavioral.sandwich_scan (Behavioral.group_by_block l)))
            / Py.of_nat (length l) <= 1)%Q; [| lra].
    apply Qle_shift_div_r; [exact Hn | lra].
Qed.

(** X20: when there are swaps, [analyze] reports a [risk_score] that is an
    integer between 0 and 100, also where the wash-trading percentage is
    above 100. *)
Theorem behavioral_score_in_range
    (th : Behavioral.thresholds) (swaps : list Behavioral.swap) :
  swaps <> [] ->
  exists s : Z,
    Py.get (Behavioral.analyze th swaps) "risk_score" = Some (Py.JNum (inject_Z s))
    /\ (0 <= s <= 100)%Z.
Proof.
  intros Hne. destruct swaps as [|s0 swaps]; [congruence |].
  assert (Hn : (0 < Py.of_nat (length (s0 :: swaps)))%Q) by apply of_nat_S_pos.
  assert (Hw : (0 <= fst (Behavioral._detect_wash_trading (s0 :: swaps)))%Q).
  { unfold Behavioral._detect_wash_trading.
    destruct (Behavioral.scan_blocks (Behavioral.group_by_block (s0 :: swaps)))
      as [pats count].
    cbn [fst].
    assert (0 <= Py.of_nat count / Py.of_nat (length (s0 :: swaps)))%Q; [| lra].
    apply Qle_shift_div_l; [exact Hn |]. pose proof (of_nat_nonneg count). lra. }
  assert (Hm : (0 <= fst (Behavioral._detect_sandwich_attacks (s0 :: swaps)))%Q).
  { unfold Behavioral._detect_sandwich_attacks. cbv zeta. cbn [fst].
    assert (0 <= Py.of_nat (size (Behavioral.sandwich_scan
                                    (Behavioral.group_by_block (s0 :: swaps))))
                 / Py.of_nat (length (s0 :: swaps)))%Q; [| lra].
    apply Qle_shift_div_l; [exact Hn |].
    pose proof (of_nat_nonneg
                  (size (Behavioral.sandwich_scan
                           (Behavioral.group_by_block (s0 :: swaps))))).
    lra. }
  unfold Behavioral.analyze.
  destruct (Behavioral._detect_wash_trading (s0 :: swaps)) as [w wp].
  destruct (Behavioral._detect_sandwich_attacks (s0 :: swaps)) as [m mv].
  cbn [fst] in Hw, Hm.
  exists (Behavioral._calculate_risk_score w m). split; [reflexivity |].
  unfold Behavioral._calculate_risk_score. cbv zeta.
  pose proof (Qmin_le_r ((w + m) / 2) 100) as M1.
  assert (M0 : (0 <= Py.Qmin ((w + m) / 2) 100)%Q).
  { apply Qmin_lower; [| lra]. apply Qle_shift_div_l; lra. }
  apply round_range; [change (inject_Z 0) with 0%Q | change (inject_Z 100) with 100%Q];
    lra.
Qed.

Section BehavioralExample.

Definition sample_behavioral : Behavioral.thresholds :=
  {| Behavioral.wash_trading_critical_pct := 30;
     Behavioral.wash_trading_high_pct := 10;
     Behavioral.mev_exposure_critical_pct := 20;
     Behavioral.mev_exposure_high_pct := 5 |}.

End BehavioralExample.

(** X20 on the mutual pair, whose wash-trading percentage is 200. *)
Lemma behavioral_score_in_range_witness :
  exists s : Z,
    Py.get (Behavioral.analyze sample_behavioral mutual_pair) "risk_score"
    = Some (Py.JNum (inject_Z s))
    /\ (0 <= s <= 100)%Z.
Proof.
  apply (behavioral_score_in_range sample_behavioral mutual_pair). discriminate.
Defined.

Section QuietBlocks.
Import Py Behavioral.

Lemma dd_append_fresh {V : Type} (k : string) (v : V) (d : list (string * list V)) :
  ~ In k (map fst d) -> dd_append k v d = d ++ [(k, [v])].
Proof.
  induction d as [|[k' vs] d IH]; cbn [dd_append map fst]; [reflexivity |].
  intros N. destruct (String.eqb k' k) eqn:E.
  - apply String.eqb_eq in E. exfalso. apply N. left. exact E.
  - cbn [app]. rewrite IH; [reflexivity |]. intros I. apply N. right. exact I.
Qed.

(** A swap alone in its block makes a group of its own. *)
Lemma group_fold_distinct (l : list swap) (d : list (string * list swap)) :
  (forall s, In s l -> ~ In (blockNumber s) (map fst d)) ->
  NoDup (map blockNumber l) ->
  fold_left (fun d s => dd_append (blockNumber s) s d) l d
  = d ++ map (fun s => (blockNumber s, [s])) l.
Proof.
  revert d. induction l as [|s l IH]; intros d Hd ND; cbn [fold_left map].
  - rewrite app_nil_r. reflexivity.
  - apply NoDup_cons in ND as [Ns ND].
    rewrite dd_append_fresh by (apply Hd; left; reflexivity).
    rewrite IH; [rewrite <- app_assoc; reflexivity | | exact ND].
    intros s' Is'. rewrite map_app. intros I.
    apply in_app_or in I as [I | [E | []]].
    + apply (Hd s'); [right; exact Is' | exact I].
    + cbn [fst] in E. apply Ns. rewrite E. apply list_elem_of_In, in_map, Is'.
Qed.

Lemma scan_single_groups (l : list swap) (acc : list pattern * nat) :
  fold_left
    (fun acc '(blk, block_swaps) =>
       if (length block_swaps <? 2)%nat then acc
       else scan_flows blk (flows_of block_swaps) acc)
    (map (fun s => (blockNumber s, [s])) l) acc
  = acc.
Proof.
  revert acc. induction l as [|s l IH]; intros acc; [reflexivity |].
  cbn [map fold_left length Nat.ltb Nat.leb]. apply IH.
Qed.

Lemma sandwich_single_groups (l : list swap) (victims : gset string) :
  fold_left
    (fun victims '(blk, block_swaps) =>
       if (length block_swaps <? 3)%nat then victims
       else scan_triples
              (sort_by (fun a b => String.leb (id a) (id b)) block_swaps) victims)
    (map (fun s => (blockNumber s, [s])) l) victims
  = victims.
Proof.
  revert victims. induction l as [|s l IH]; intros victims; [reflexivity |].
  cbn [map fold_left length Nat.ltb Nat.leb]. apply IH.
Qed.

End QuietBlocks.

(** X21: when no two swaps of the list are in the same block, neither
    detector finds anything: no wash-trading pattern and no sandwich
    victim, and both percentages are 0. *)
Theorem one_swap_per_block_is_quiet (swaps : list Behavioral.swap) :
  NoDup (map Behavioral.blockNumber swaps) ->
  fst (Behavioral._detect_wash_trading swaps) == 0
  /\ snd (Behavioral._detect_wash_trading swaps) = []
  /\ fst (Behavioral._detect_sandwich_attacks swaps) == 0
  /\ snd (Behavioral._detect_sandwich_attacks swaps) = [].
Proof.
  intros ND.
  assert (G : Behavioral.group_by_block swaps
              = map (fun s => (Behavioral.blockNumber s, [s])) swaps).
  { unfold Behavioral.group_by_block.
    rewrite group_fold_distinct; [reflexivity | intros s _ [] | exact ND]. }
  unfold Behavioral._detect_wash_trading, Behavioral._detect_sandwich_attacks,
    Behavioral.scan_blocks, Behavioral.sandwich_scan.
  cbv zeta. rewrite G, scan_single_groups, sandwich_single_groups.
  destruct swaps as [|s swaps]; cbn [fst snd]; [repeat split; reflexivity |].
  rewrite size_empty, elements_empty.
  repeat split; unfold Qdiv; change (Py.of_nat 0) with 0%Q; ring.
Qed.

(** X21 on two swaps that answer each other in different blocks. *)
Lemma one_swap_per_block_is_quiet_witness :
  fst (Behavioral._detect_wash_trading
         [swap_of "1" "0xA" "0xB" "100"; swap_of "2" "0xB" "0xA" "101"]) == 0
  /\ snd (Behavioral._detect_wash_trading
            [swap_of "1" "0xA" "0xB" "100"; swap_of "2" "0xB" "0xA" "101"]) = []
  /\ fst (Behavioral._detect_sandwich_attacks
            [swap_of "1" "0xA" "0xB" "100"; swap_of "2" "0xB" "0xA" "101"]) == 0
  /\ snd (Behavioral._detect_sandwich_attacks
            [swap_of "1" "0xA" "0xB" "100"; swap_of "2" "0xB" "0xA" "101"]) = [].
Proof.
  apply (one_swap_per_block_is_quiet
           [swap_of "1" "0xA" "0xB" "100"; swap_of "2" "0xB" "0xA" "101"]).
  apply (bool_decide_unpack _). vm_compute. reflexivity.
Defined.

(** ** Liquidity depth *)

Section LiquidityFacts.
Import Py LiquidityDepth.
Local Open Scope Q_scope.

(** The active liquidity is a part of the total. *)
Lemma active_fold_bounds (lower_bound upper_bound : Z) (ticks : list tick)
    (acc : Q * Q) :
  0 <= fst acc -> fst acc <= snd acc ->
  0 <= fst (fold_left (active_step lower_bound upper_bound) ticks acc)
  /\ fst (fold_left (active_step lower_bound upper_bound) ticks acc)
     <= snd (fold_left (active_step lower_bound upper_bound) ticks acc).
Proof.
  revert acc. induction ticks as [|t ticks IH]; intros [a total] H0 H1;
    cbn [fold_left]; [split; assumption |].
  cbn [fst snd] in H0, H1. pose proof (Qabs_nonneg (liquidityGross t)) as Habs.
  apply IH; unfold active_step;
    destruct ((lower_bound <=? tickIdx t)%Z && (tickIdx t <=? upper_bound)%Z);
    cbn [fst snd]; lra.
Qed.

Lemma percentage_range (part total : Q) :
  0 <= part -> part <= total -> ~ total == 0 ->
  0 <= part / total * 100 /\ part / total * 100 <= 100.
Proof.
  intros H0 H1 Hz. assert (Hpos : 0 < total) by lra. split.
  - assert (0 <= part / total); [| lra]. apply Qle_shift_div_l; lra.
  - assert (part / total <= 1); [| lra]. apply Qle_shift_div_r; lra.
Qed.

Lemma active_liquidity_range (np_log : Q -> Q) (ticks : list tick) (current_price : Q) :
  0 <= _calculate_active_liquidity np_log ticks current_price
  /\ _calculate_active_liquidity np_log ticks current_price <= 100.
Proof.
  unfold _calculate_active_liquidity. destruct ticks as [|t ticks]; [lra |].
  cbv zeta.
  match goal with
  | |- context [fold_left (active_step ?lo ?hi) ?l ?acc] =>
      pose proof (active_fold_bounds lo hi l acc) as B;
      destruct (fold_left (active_step lo hi) l acc) as [a total]
  end.
  cbn [fst snd] in B. destruct B as [B0 B1]; [lra | lra |].
  destruct (Qeq_bool total 0) eqn:E; [lra |].
  apply percentage_range; [exact B0 | exact B1 |].
  intros Z. apply Qeq_bool_iff in Z. congruence.
Qed.

Lemma no_liquidity_sum (ticks : list tick) :
  Forall (fun t => liquidityGross t == 0) ticks ->
  sum (map (fun t => Qabs (liquidityGross t)) ticks) == 0.
Proof.
  induction 1 as [|t l Ht _ IH]; [reflexivity |].
  cbn [map]. rewrite sum_cons, IH, Ht. reflexivity.
Qed.

Lemma sell_order_range (np_sqrt : Q -> Q) (ticks : list tick)
    (current_price sell_amount_usd : Q) :
  (forall x, 0 < x -> 0 < np_sqrt x) -> 0 <= sell_amount_usd ->
  0 <= _simulate_sell_order np_sqrt ticks current_price sell_amount_usd
  /\ _simulate_sell_order np_sqrt ticks current_price sell_amount_usd <= 100.
Proof.
  intros Hsqrt Ha. unfold _simulate_sell_order. cbv zeta.
  set (total := sum (map (fun t => Qabs (liquidityGross t)) _)).
  assert (Ht : 0 <= total).
  { apply sum_nonneg, Forall_forall. intros x Hx.
    apply list_elem_of_In, in_map_iff in Hx as (t & <- & _). apply Qabs_nonneg. }
  destruct (Qeq_bool total 0) eqn:E; [lra |].
  assert (Hpos : 0 < total).
  { destruct (Qlt_le_dec 0 total) as [L | L]; [exact L |].
    assert (Z : total == 0) by lra. apply Qeq_bool_iff in Z. congruence. }
  split; [| apply Qmin_le_r].
  apply Qmin_lower; [| lra].
  assert (0 <= sell_amount_usd / np_sqrt total); [| lra].
  apply Qle_shift_div_l; [apply Hsqrt, Hpos | lra].
Qed.

Lemma tvl_volatility_nonneg (np_std : list Q -> Q) (pool_day_data : list day_data) :
  (forall l, 0 <= np_std l) -> Forall (fun d => 0 <= tvlUSD d) pool_day_data ->
  0 <= _calculate_tvl_volatility np_std pool_day_data.
Proof.
  intros Hstd Htvl. unfold _calculate_tvl_volatility.
  destruct (length pool_day_data <? 2)%nat eqn:L; [lra |].
  cbv zeta. destruct (Qeq_bool (np_mean (map tvlUSD pool_day_data)) 0) eqn:E; [lra |].
  assert (Hm : 0 <= np_mean (map tvlUSD pool_day_data)).
  { unfold np_mean. rewrite length_map.
    destruct pool_day_data as [|d ds]; [discriminate L |].
    apply Qle_shift_div_l; [apply of_nat_S_pos |].
    assert (0 <= sum (map tvlUSD (d :: ds))); [| lra].
    apply sum_nonneg, Forall_map. exact Htvl. }
  assert (Hpos : 0 < np_mean (map tvlUSD pool_day_data)).
  { destruct (Qlt_le_dec 0 (np_mean (map tvlUSD pool_day_data))) as [P | P]; [exact P |].
    assert (Z : np_mean (map tvlUSD pool_day_data) == 0) by lra.
    apply Qeq_bool_iff in Z. congruence. }
  assert (0 <= np_std (map tvlUSD pool_day_data) / np_mean (map tvlUSD pool_day_data));
    [| lra].
  apply Qle_shift_div_l; [exact Hpos |]. pose proof (Hstd (map tvlUSD pool_day_data)). lra.
Qed.

Lemma liquidity_score_range (impact_100k impact_1m active_liquidity_pct tvl_volatility : Q) :
  0 <= impact_100k -> 0 <= impact_1m ->
  0 <= active_liquidity_pct -> active_liquidity_pct <= 100 ->
  0 <= tvl_volatility ->
  (0 <= _calculate_risk_score (Some impact_100k) (Some impact_1m)
          (Some active_liquidity_pct) (Some tvl_volatility) <= 100)%Z.
Proof.
  intros H1 H2 H3 H4 H5. unfold _calculate_risk_score, or_zero. cbv zeta.
  pose proof (Qmin_le_r ((impact_100k + impact_1m) / 2 * 10) 100) as I1.
  assert (I0 : 0 <= Qmin ((impact_100k + impact_1m) / 2 * 10) 100).
  { apply Qmin_lower; [| lra].
    assert (0 <= (impact_100k + impact_1m) / 2); [| lra].
    apply Qle_shift_div_l; lra. }
  pose proof (Qmin_le_r (tvl_volatility * 2) 100) as V1.
  assert (V0 : 0 <= Qmin (tvl_volatility * 2) 100) by (apply Qmin_lower; lra).
  apply round_range; [change (inject_Z 0) with 0 | change (inject_Z 100) with 100]; lra.
Qed.

End LiquidityFacts.

(** X22: at a positive price (at a price of 0 or below the conversion of
    the logarithm to a tick raises, and the function returns nothing), the
    active-liquidity percentage of [_calculate_active_liquidity] lies
    between 0 and 100 for every list of ticks, whatever the values of the
    logarithm. *)
Theorem active_liquidity_is_a_percentage
    (np_log : Q -> Q) (ticks : list LiquidityDepth.tick) (current_price : Q) :
  (0 < current_price)%Q ->
  (0 <= LiquidityDepth._calculate_active_liquidity np_log ticks current_price)%Q
  /\ (LiquidityDepth._calculate_active_liquidity np_log ticks current_price <= 100)%Q.
Proof. intros _. apply active_liquidity_range. Qed.

(** X23: at a positive price (at a price of 0 or below [analyze] raises
    inside [_calculate_active_liquidity] and reports nothing), with a
    square root that is positive on positive numbers, a standard deviation
    that is not negative, and daily TVL values that are not negative,
    [analyze] reports for every non-empty list of ticks two price impacts
    between 0 and 100 (100 when the ticks hold no liquidity) and a
    [risk_score] that is an integer between 0 and 100. *)
Theorem liquidity_score_in_range
    (np_sqrt np_log : Q -> Q) (np_std : list Q -> Q)
    (th : LiquidityDepth.thresholds) (ticks : list LiquidityDepth.tick)
    (current_price : Q) (pool_day_data : list LiquidityDepth.day_data) :
  (0 < current_price)%Q ->
  (forall x, 0 < x -> 0 < np_sqrt x)%Q ->
  (forall l, 0 <= np_std l)%Q ->
  Forall (fun d => (0 <= LiquidityDepth.tvlUSD d)%Q) pool_day_data ->
  ticks <> [] ->
  (forall amount,
      (0 <= amount)%Q ->
      (0 <= LiquidityDepth._simulate_sell_order np_sqrt ticks current_price amount
       <= 100)%Q)
  /\ (Forall (fun t => LiquidityDepth.liquidityGross t == 0) ticks ->
      forall amount,
        LiquidityDepth._simulate_sell_order np_sqrt ticks current_price amount = 100%Q)
  /\ exists s : Z,
      Py.get (LiquidityDepth.analyze np_sqrt np_log np_std th ticks current_price
                pool_day_data) "risk_score"
      = Some (Py.JNum (inject_Z s))
      /\ (0 <= s <= 100)%Z.
Proof.
  intros _ Hsqrt Hstd Htvl Hne. split; [| split].
  - intros amount Ha. apply sell_order_range; assumption.
  - intros Hz amount. unfold LiquidityDepth._simulate_sell_order. cbv zeta.
    match goal with
    | |- (if Qeq_bool ?total 0 then _ else _) = _ =>
        assert (Z : total == 0); [| apply Qeq_bool_iff in Z; rewrite Z; reflexivity]
    end.
    pose proof (sort_by_Permutation
                  (fun a b => (LiquidityDepth.tickIdx a <=? LiquidityDepth.tickIdx b)%Z)
                  ticks) as P.
    rewrite <- P in Hz. apply no_liquidity_sum, Hz.
  - destruct ticks as [|t ticks]; [congruence |].
    eexists. split; [reflexivity |].
    destruct (active_liquidity_range np_log (t :: ticks) current_price) as [A0 A1].
    destruct (sell_order_range np_sqrt (t :: ticks) current_price 100000 Hsqrt)
      as [S0 _]; [lra |].
    destruct (sell_order_range np_sqrt (t :: ticks) current_price 1000000 Hsqrt)
      as [M0 _]; [lra |].
    apply liquidity_score_range; try assumption.
    apply tvl_volatility_nonneg; assumption.
Qed.

Section LiquidityExample.
Import LiquidityDepth.

(** Stand-ins for the functions of numpy: one step of Newton's iteration
    for the square root, the tangent at 1 for the logarithm, and a
    deviation of 0, which is that of equal values. *)
Definition newton_sqrt (x : Q) : Q := ((x + 1) / 2)%Q.
Definition tangent_log (x : Q) : Q := (x - 1)%Q.
Definition no_deviation (l : list Q) : Q := 0%Q.

Definition sample_liquidity : thresholds :=
  {| price_impact_100k_critical_pct := 5; price_impact_100k_high_pct := 2;
     price_impact_1m_critical_pct := 20; price_impact_1m_high_pct := 10;
     active_liquidity_low_pct := 20; tvl_volatility_high_pct := 30 |}.

Definition two_ticks : list tick :=
  [ {| tickIdx := 60; liquidityGross := 1000000 |};
    {| tickIdx := -60; liquidityGross := 2000000 |} ].

Definition steady_days : list day_data :=
  [ {| tvlUSD := 500000 |}; {| tvlUSD := 500000 |} ].

Lemma newton_sqrt_pos (x : Q) : (0 < x -> 0 < newton_sqrt x)%Q.
Proof.
  intros H. unfold newton_sqrt. apply Qlt_shift_div_l; lra.
Defined.

End LiquidityExample.

(** X22 on two ticks at the price 1. *)
Lemma active_liquidity_is_a_percentage_witness :
  (0 <= LiquidityDepth._calculate_active_liquidity tangent_log two_ticks 1)%Q
  /\ (LiquidityDepth._calculate_active_liquidity tangent_log two_ticks 1 <= 100)%Q.
Proof.
  apply (active_liquidity_is_a_percentage tangent_log two_ticks 1). reflexivity.
Defined.

(** X23 on two ticks and two days of equal TVL. *)
Lemma liquidity_score_in_range_witness :
  (forall amount,
      (0 <= amount)%Q ->
      (0 <= LiquidityDepth._simulate_sell_order newton_sqrt two_ticks 1 amount
       <= 100)%Q)
  /\ (Forall (fun t => LiquidityDepth.liquidityGross t == 0) two_ticks ->
      forall amount,
        LiquidityDepth._simulate_sell_order newton_sqrt two_ticks 1 amount = 100%Q)
  /\ exists s : Z,
      Py.get (LiquidityDepth.analyze newton_sqrt tangent_log no_deviation
                sample_liquidity two_ticks 1 steady_days) "risk_score"
      = Some (Py.JNum (inject_Z s))
      /\ (0 <= s <= 100)%Z.
Proof.
  apply (liquidity_score_in_range newton_sqrt tangent_log no_deviation
           sample_liquidity two_ticks 1 steady_days).
  - reflexivity.
  - exact newton_sqrt_pos.
  - intros l. unfold no_deviation. lra.
  - repeat constructor; vm_compute; discriminate.
  - discriminate.
Defined.

(** ** Market risk *)

Section MarketFacts.
Import Py MarketRisk.
Local Open Scope Q_scope.

Lemma price_correlation_range (np_corrcoef : list Q -> list Q -> option Q)
    (pool_day_data : list day_data) :
  (forall x y c, np_corrcoef x y = Some c -> -1 <= c /\ c <= 1) ->
  -1 <= _calculate_price_correlation np_corrcoef pool_day_data
  /\ _calculate_price_correlation np_corrcoef pool_day_data <= 1.
Proof.
  intros Hc. unfold _calculate_price_correlation. cbv zeta.
  destruct (length (map token0Price _) <? 2)%nat; [lra |].
  destruct (length (returns _) <? 2)%nat; [lra |].
  destruct (np_corrcoef _ _) as [c|] eqn:E; [| lra].
  apply (Hc _ _ _ E).
Qed.

Lemma market_score_range (utilization correlation : Q) :
  -1 <= correlation -> correlation <= 1 ->
  (0 <= _calculate_risk_score utilization correlation <= 100)%Z.
Proof.
  intros C0 C1. unfold _calculate_risk_score. cbv zeta.
  set (u := Qmax 0 (100 - utilization / (5 # 100) * 100)).
  pose proof (Qmax_lower_l 0 (100 - utilization / (5 # 100) * 100)) as U0. fold u in U0.
  pose proof (Qmin_le_r u 100) as M1.
  assert (M0 : 0 <= Qmin u 100) by (apply Qmin_lower; lra).
  assert (H0 : 0 <= (1 - correlation) / 2) by (apply Qle_shift_div_l; lra).
  assert (H1 : (1 - correlation) / 2 <= 1) by (apply Qle_shift_div_r; lra).
  apply round_range; [change (inject_Z 0) with 0 | change (inject_Z 100) with 100]; lra.
Qed.

End MarketFacts.

(** X24: with a correlation coefficient between -1 and 1, [analyze]
    reports for every non-empty list of days a [risk_score] that is an
    integer between 0 and 100, whatever the utilization (a utilization
    above the target of 5 % or below 0 contributes 0 or 30). *)
Theorem market_score_in_range
    (np_corrcoef : list Q -> list Q -> option Q) (th : MarketRisk.thresholds)
    (pool_day_data : list MarketRisk.day_data) :
  (forall x y c, np_corrcoef x y = Some c -> -1 <= c /\ c <= 1)%Q ->
  pool_day_data <> [] ->
  exists s : Z,
    Py.get (MarketRisk.analyze np_corrcoef th pool_day_data) "risk_score"
    = Some (Py.JNum (inject_Z s))
    /\ (0 <= s <= 100)%Z.
Proof.
  intros Hc Hne. destruct pool_day_data as [|d ds]; [congruence |].
  eexists. split; [reflexivity |].
  destruct (price_correlation_range np_corrcoef (d :: ds) Hc) as [C0 C1].
  apply market_score_range; assumption.
Qed.

Section MarketExample.
Import MarketRisk.

(** A stand-in for the coefficient of numpy: undefined (NaN) everywhere,
    as it is for constant prices. *)
Definition undefined_correlation (x y : list Q) : option Q := None.

Definition sample_market : thresholds :=
  {| utilization_rate_critical_low := 1 # 1000; utilization_rate_low := 1 # 100;
     price_correlation_high_il_risk := 3 # 10;
     price_correlation_low_il_risk := 5 # 10 |}.

Definition flat_days : list day_data :=
  [ {| tvlUSD := 500000; volumeUSD := 10000; token0Price := 2; token1Price := 1 # 2 |};
    {| tvlUSD := 500000; volumeUSD := 20000; token0Price := 2; token1Price := 1 # 2 |};
    {| tvlUSD := 0; volumeUSD := 0; token0Price := 2; token1Price := 1 # 2 |} ].

End MarketExample.

(** X24 on three days of constant prices. *)
Lemma market_score_in_range_witness :
  exists s : Z,
    Py.get (MarketRisk.analyze undefined_correlation sample_market flat_days)
      "risk_score"
    = Some (Py.JNum (inject_Z s))
    /\ (0 <= s <= 100)%Z.
Proof.
  apply (market_score_in_range undefined_correlation sample_market flat_days).
  - intros x y c E. discriminate E.
  - discriminate.
Defined.

(** X25: the impermanent-loss level and the flags of one analysis agree:
    [_generate_risk_flags] raises [VERY_HIGH_IL_RISK] exactly when
    [_determine_il_risk] says ["VERY_HIGH"], and [HIGH_IL_RISK] exactly
    when it says ["HIGH"]; for the levels ["MEDIUM"] and ["LOW"] there is no
    flag of impermanent loss. *)
Theorem il_level_agrees_with_flags
    (th : MarketRisk.thresholds) (utilization correlation : Q) :
  let flags := MarketRisk._generate_risk_flags th utilization correlation in
  let level := MarketRisk._determine_il_risk th correlation in
  (Py.mem "VERY_HIGH_IL_RISK" flags = true <-> level = "VERY_HIGH")
  /\ (Py.mem "HIGH_IL_RISK" flags = true <-> level = "HIGH")
  /\ (level = "MEDIUM" \/ level = "LOW" ->
      Py.mem "VERY_HIGH_IL_RISK" flags = false /\ Py.mem "HIGH_IL_RISK" flags = false).
Proof.
  cbv zeta. unfold MarketRisk._generate_risk_flags, MarketRisk._determine_il_risk.
  cbv zeta.
  destruct (Py.Qltb utilization (MarketRisk.utilization_rate_critical_low th));
    [| destruct (Py.Qltb utilization (MarketRisk.utilization_rate_low th))];
    (destruct (Py.Qltb correlation (MarketRisk.price_correlation_high_il_risk th));
     [| destruct (Py.Qltb correlation (MarketRisk.price_correlation_low_il_risk th));
        [| destruct (Py.Qltb correlation (7 # 10))]]);
    cbn; repeat split; intros; try reflexivity; try discriminate;
    repeat match goal with H : _ \/ _ |- _ => destruct H end; discriminate.
Qed.

(** ** The scorer *)

Section ScorerMore.
Import Py RiskScorer.
Local Open Scope Q_scope.

(** [s.isascii()]: on such a string [upper] is [s.upper()]. *)
Fixpoint isascii (s : string) : bool :=
  match s with
  | EmptyString => true
  | String c s' => (nat_of_ascii c <? 128)%nat && isascii s'
  end.

(** The names of the levels are ASCII strings. *)
Definition ascii_levels (levels : list (string * bounds)) : Prop :=
  Forall (fun lb => isascii (fst lb) = true) levels.

(** [score] lies within the bounds of a level. *)
Definition within (b : bounds) (score : Z) : bool :=
  Qle_bool (level_min b) (inject_Z score) && Qle_bool (inject_Z score) (level_max b).

Lemma level_loop_first (before after : list (string * bounds)) (level : string)
    (b : bounds) (score : Z) :
  Forall (fun lb => within (snd lb) score = false) before ->
  within b score = true ->
  level_loop (before ++ (level, b) :: after) score = upper level.
Proof.
  intros Hb Hw. induction Hb as [|[l' b'] before Hl _ IH]; cbn [app level_loop].
  - unfold within in Hw. rewrite Hw. reflexivity.
  - cbn [snd] in Hl. unfold within in Hl. rewrite Hl. exact IH.
Qed.

Lemma level_loop_none (levels : list (string * bounds)) (score : Z) :
  Forall (fun lb => within (snd lb) score = false) levels ->
  level_loop levels score = "UNKNOWN".
Proof.
  induction 1 as [|[l' b'] levels Hl _ IH]; cbn [level_loop]; [reflexivity |].
  cbn [snd] in Hl. unfold within in Hl. rewrite Hl. exact IH.
Qed.

Lemma weighted_mean_range (w : weights) (cs ls ms bs : Q) :
  0 <= concentration w -> 0 <= liquidity_depth w ->
  0 <= market_risk w -> 0 <= behavioral w ->
  concentration w + liquidity_depth w + market_risk w + behavioral w == 1 ->
  Forall (fun s => 0 <= s /\ s <= 100) [cs; ls; ms; bs] ->
  (0 <= composite_of w cs ls ms bs <= 100)%Z.
Proof.
  intros W1 W2 W3 W4 W H.
  rewrite !Forall_cons in H.
  destruct H as ([? ?] & [? ?] & [? ?] & [? ?] & _).
  unfold composite_of.
  assert (P : forall s x, 0 <= s -> s <= 100 -> 0 <= x -> 0 <= s * x /\ s * x <= 100 * x).
  { intros s x S0 S1 X0. split;
      [apply Qmult_le_0_compat | apply Qmult_le_compat_r]; assumption. }
  destruct (P cs (concentration w)) as [? ?]; try assumption.
  destruct (P ls (liquidity_depth w)) as [? ?]; try assumption.
  destruct (P ms (market_risk w)) as [? ?]; try assumption.
  destruct (P bs (behavioral w)) as [? ?]; try assumption.
  apply round_range; [change (inject_Z 0) with 0 | change (inject_Z 100) with 100]; lra.
Qed.

End ScorerMore.

(** X26: for a configuration whose level names are ASCII strings,
    [_determine_risk_level] gives the level of the first band of the
    configuration, in its order, that contains the score, in upper case:
    where two bands share a bound the earlier one wins; and it gives
    ["UNKNOWN"] when no band contains the score. *)
Theorem risk_level_is_first_matching_band
    (cfg : RiskScorer.config) (score : Z) :
  ascii_levels (RiskScorer.risk_levels cfg) ->
  (forall before level b after,
      RiskScorer.risk_levels cfg = before ++ (level, b) :: after ->
      Forall (fun lb => within (snd lb) score = false) before ->
      within b score = true ->
      RiskScorer._determine_risk_level cfg score = RiskScorer.upper level)
  /\ (Forall (fun lb => within (snd lb) score = false) (RiskScorer.risk_levels cfg) ->
      RiskScorer._determine_risk_level cfg score = "UNKNOWN").
Proof.
  intros _. unfold RiskScorer._determine_risk_level. split.
  - intros before level b after -> Hb Hw. apply level_loop_first; assumption.
  - apply level_loop_none.
Qed.

(** X26 on the bands low, medium, high and critical, at the score 25. *)
Lemma risk_level_is_first_matching_band_witness :
  (forall before level b after,
      RiskScorer.risk_levels skewed_config = before ++ (level, b) :: after ->
      Forall (fun lb => within (snd lb) 25 = false) before ->
      within b 25 = true ->
      RiskScorer._determine_risk_level skewed_config 25 = RiskScorer.upper level)
  /\ (Forall (fun lb => within (snd lb) 25 = false)
        (RiskScorer.risk_levels skewed_config) ->
      RiskScorer._determine_risk_level skewed_config 25 = "UNKNOWN").
Proof.
  apply (risk_level_is_first_matching_band skewed_config 25).
  repeat constructor.
Defined.

(** X27: with weights that are not negative and add up to 1, and four
    component scores between 0 and 100, the composite score of [score] is
    an integer between 0 and 100. *)
Theorem composite_score_in_range
    (cfg : RiskScorer.config) (c l m b : Py.dict) (cs ls ms bs : Q) :
  (0 <= RiskScorer.concentration (RiskScorer.scoring_weights cfg))%Q ->
  (0 <= RiskScorer.liquidity_depth (RiskScorer.scoring_weights cfg))%Q ->
  (0 <= RiskScorer.market_risk (RiskScorer.scoring_weights cfg))%Q ->
  (0 <= RiskScorer.behavioral (RiskScorer.scoring_weights cfg))%Q ->
  RiskScorer.concentration (RiskScorer.scoring_weights cfg)
  + RiskScorer.liquidity_depth (RiskScorer.scoring_weights cfg)
  + RiskScorer.market_risk (RiskScorer.scoring_weights cfg)
  + RiskScorer.behavioral (RiskScorer.scoring_weights cfg) == 1 ->
  RiskScorer.risk_score_of c = Some cs -> RiskScorer.risk_score_of l = Some ls ->
  RiskScorer.risk_score_of m = Some ms -> RiskScorer.risk_score_of b = Some bs ->
  Forall (fun s => (0 <= s)%Q /\ (s <= 100)%Q) [cs; ls; ms; bs] ->
  Forall (fun r => is_Some (RiskScorer.risk_flags_of r)) [c; l; m; b] ->
  exists out s,
    RiskScorer.score cfg c l m b = Some out
    /\ RiskScorer.composite_score_of out = Some (Py.JNum (inject_Z s))
    /\ (0 <= s <= 100)%Z.
Proof.
  intros W1 W2 W3 W4 W Ec El Em Eb Hs Hf.
  repeat match goal with
         | H : Forall (fun r => is_Some _) (_ :: _) |- _ =>
             let f := fresh "F" in apply Forall_cons_1 in H as [[? f] H]
         end.
  unfold RiskScorer.score. rewrite Ec, El, Em, Eb.
  repeat match goal with F : RiskScorer.risk_flags_of _ = Some _ |- _ =>
           rewrite F; clear F end.
  cbn [mbind option_bind].
  eexists. eexists. split; [reflexivity |]. split; [reflexivity |].
  apply weighted_mean_range; assumption.
Qed.

(** X27 on weights 1/2, 1/4, 1/8, 1/8 and the scores 100, 0, 0, 100. *)
Lemma composite_score_in_range_witness :
  exists out s,
    RiskScorer.score skewed_config risky calm calm risky = Some out
    /\ RiskScorer.composite_score_of out = Some (Py.JNum (inject_Z s))
    /\ (0 <= s <= 100)%Z.
Proof.
  apply (composite_score_in_range skewed_config risky calm calm risky 100 0 0 100).
  1-4: vm_compute; discriminate.
  - vm_compute. reflexivity.
  - reflexivity.
  - reflexivity.
  - reflexivity.
  - reflexivity.
  - repeat constructor; vm_compute; discriminate.
  - repeat constructor; eexists; reflexivity.
Defined.

(** The levels of the sample configuration, at a bound, past it, and
    outside every band. *)
Example risk_level_at_the_bounds :
  map (RiskScorer._determine_risk_level skewed_config) [0; 25; 26; 100; 101; -1]%Z
  = ["LOW"; "LOW"; "MEDIUM"; "CRITICAL"; "UNKNOWN"; "UNKNOWN"].
Proof. vm_compute. reflexivity. Qed.

Section BandFacts.
Import Py RiskScorer.
Local Open Scope Q_scope.

(** Each band starts no later than the integer after the end of the band
    before it, so that no integer lies between two bands. *)
Fixpoint chained (levels : list (string * bounds)) : Prop :=
  match levels with
  | (_, b1) :: (((_, b2) :: _) as rest) =>
      level_min b2 <= inject_Z (Qfloor (level_max b1) + 1) /\ chained rest
  | _ => True
  end.

(** The first lower bound and the last upper bound. *)
Definition lowest (levels : list (string * bounds)) : Q :=
  match levels with
  | (_, b) :: _ => level_min b
  | [] => 0
  end.

Definition highest (levels : list (string * bounds)) : Q :=
  level_max (snd (List.last levels ("", {| level_min := 0; level_max := 0 |}))).

Lemma level_loop_chained (levels : list (string * bounds)) (score : Z) :
  levels <> [] -> chained levels ->
  lowest levels <= inject_Z score -> inject_Z score <= highest levels ->
  exists level b, In (level, b) levels /\ level_loop levels score = upper level.
Proof.
  induction levels as [|[l1 b1] rest IH]; [congruence |].
  intros _ Hc Hlo Hhi. cbn [lowest] in Hlo. cbn [level_loop].
  destruct (Qle_bool (level_max b1) (inject_Z score)
            && negb (Qle_bool (inject_Z score) (level_max b1))) eqn:Past.
  - apply andb_true_iff in Past as [_ Past]. apply negb_true_iff in Past.
    apply Qle_bool_iff in Hlo. rewrite Hlo, Past. cbn [andb].
    assert (Hlt : level_max b1 < inject_Z score).
    { destruct (Qlt_le_dec (level_max b1) (inject_Z score)) as [L | L]; [exact L |].
      apply Qle_bool_iff in L. congruence. }
    destruct rest as [|[l2 b2] rest'].
    + unfold highest in Hhi. cbn in Hhi. lra.
    + destruct Hc as [Hstep Hc].
      assert (Hfl : (Qfloor (level_max b1) + 1 <= score)%Z).
      { pose proof (Qfloor_le (level_max b1)) as F.
        assert (F' : inject_Z (Qfloor (level_max b1)) < inject_Z score) by lra.
        rewrite <- Zlt_Qlt in F'. lia. }
      rewrite Zle_Qle in Hfl.
      destruct IH as (level & b & I & E).
      * discriminate.
      * exact Hc.
      * cbn [lowest]. lra.
      * exact Hhi.
      * exists level, b. split; [right; exact I | exact E].
  - exists l1, b1. split; [left; reflexivity |].
    apply Qle_bool_iff in Hlo. rewrite Hlo. cbn [andb].
    destruct (Qle_bool (inject_Z score) (level_max b1)) eqn:In1; [reflexivity |].
    exfalso. rewrite andb_true_r in Past.
    assert (L : level_max b1 <= inject_Z score).
    { destruct (Qlt_le_dec (inject_Z score) (level_max b1)) as [L | L]; [| exact L].
      apply Qlt_le_weak, Qle_bool_iff in L. congruence. }
    apply Qle_bool_iff in L. congruence.
Qed.

End BandFacts.

(** X28: when the level names of the configuration are ASCII strings, its
    bands leave no integer out between the first lower bound, at most 0, and
    the last upper bound, at least 100, the weights are not negative and
    add up to 1, and the four
    component scores lie between 0 and 100, the [risk_level] that [score]
    reports is the name of a configured band in upper case: the rounding of
    the composite score keeps it out of the gaps between bands such as 25
    and 26. *)
Theorem composite_level_is_a_configured_band
    (cfg : RiskScorer.config) (c l m b : Py.dict) (cs ls ms bs : Q) :
  ascii_levels (RiskScorer.risk_levels cfg) ->
  RiskScorer.risk_levels cfg <> [] ->
  chained (RiskScorer.risk_levels cfg) ->
  (lowest (RiskScorer.risk_levels cfg) <= 0)%Q ->
  (100 <= highest (RiskScorer.risk_levels cfg))%Q ->
  (0 <= RiskScorer.concentration (RiskScorer.scoring_weights cfg))%Q ->
  (0 <= RiskScorer.liquidity_depth (RiskScorer.scoring_weights cfg))%Q ->
  (0 <= RiskScorer.market_risk (RiskScorer.scoring_weights cfg))%Q ->
  (0 <= RiskScorer.behavioral (RiskScorer.scoring_weights cfg))%Q ->
  RiskScorer.concentration (RiskScorer.scoring_weights cfg)
  + RiskScorer.liquidity_depth (RiskScorer.scoring_weights cfg)
  + RiskScorer.market_risk (RiskScorer.scoring_weights cfg)
  + RiskScorer.behavioral (RiskScorer.scoring_weights cfg) == 1 ->
  RiskScorer.risk_score_of c = Some cs -> RiskScorer.risk_score_of l = Some ls ->
  RiskScorer.risk_score_of m = Some ms -> RiskScorer.risk_score_of b = Some bs ->
  Forall (fun s => (0 <= s)%Q /\ (s <= 100)%Q) [cs; ls; ms; bs] ->
  Forall (fun r => is_Some (RiskScorer.risk_flags_of r)) [c; l; m; b] ->
  exists out level band,
    RiskScorer.score cfg c l m b = Some out
    /\ In (level, band) (RiskScorer.risk_levels cfg)
    /\ RiskScorer.risk_level_of out = Some (Py.JStr (RiskScorer.upper level)).
Proof.
  intros _ Hne Hch Hlo Hhi W1 W2 W3 W4 W Ec El Em Eb Hs Hf.
  pose proof (weighted_mean_range (RiskScorer.scoring_weights cfg) cs ls ms bs
                W1 W2 W3 W4 W Hs) as [R0 R1].
  rewrite Zle_Qle in R0, R1.
  change (inject_Z 0) with 0%Q in R0. change (inject_Z 100) with 100%Q in R1.
  destruct (level_loop_chained (RiskScorer.risk_levels cfg)
              (RiskScorer.composite_of (RiskScorer.scoring_weights cfg) cs ls ms bs)
              Hne Hch) as (level & band & I & E); [lra | lra |].
  repeat match goal with
         | H : Forall (fun r => is_Some _) (_ :: _) |- _ =>
             let f := fresh "F" in apply Forall_cons_1 in H as [[? f] H]
         end.
  unfold RiskScorer.score. rewrite Ec, El, Em, Eb.
  repeat match goal with F : RiskScorer.risk_flags_of _ = Some _ |- _ =>
           rewrite F; clear F end.
  cbn [mbind option_bind].
  eexists. exists level, band. split; [reflexivity |]. split; [exact I |].
  unfold RiskScorer.risk_level_of. cbn [Py.get String.eqb Ascii.eqb Bool.eqb].
  unfold RiskScorer._determine_risk_level. rewrite E. reflexivity.
Qed.

(** X28 on the bands 0-25, 26-50, 51-75, 76-100. *)
Lemma composite_level_is_a_configured_band_witness :
  exists out level band,
    RiskScorer.score skewed_config risky calm calm risky = Some out
    /\ In (level, band) (RiskScorer.risk_levels skewed_config)
    /\ RiskScorer.risk_level_of out = Some (Py.JStr (RiskScorer.upper level)).
Proof.
  apply (composite_level_is_a_configured_band
           skewed_config risky calm calm risky 100 0 0 100).
  - repeat constructor.
  - discriminate.
  - vm_compute. repeat split; discriminate.
  - vm_compute. discriminate.
  - vm_compute. discriminate.
  - vm_compute. discriminate.
  - vm_compute. discriminate.
  - vm_compute. discriminate.
  - vm_compute. discriminate.
  - vm_compute. reflexivity.
  - reflexivity.
  - reflexivity.
  - reflexivity.
  - reflexivity.
  - repeat constructor; vm_compute; discriminate.
  - repeat constructor; eexists; reflexivity.
Defined.

(** ** Planning and routing *)

Section RoutingFacts.

Lemma filter_nil_iff {A : Type} (f : A -> bool) (l : list A) :
  List.filter f l = [] <-> forall x, In x l -> f x = false.
Proof.
  induction l as [|a l IH]; cbn [List.filter].
  - split; [intros _ x [] | reflexivity].
  - destruct (f a) eqn:E.
    + split; [discriminate |]. intros H.
      rewrite (H a) in E; [discriminate | left; reflexivity].
    + rewrite IH. split.
      * intros H x [<- | I]; [exact E | apply H, I].
      * intros H x I. apply H. right. exact I.
Qed.

Lemma loaded_false (tools_by_name : gmap string PlanExecute.tool) (t : string) :
  bool_decide (is_Some (tools_by_name !! t)) = false <-> tools_by_name !! t = None.
Proof.
  rewrite bool_decide_eq_false, <- eq_None_not_Some. reflexivity.
Qed.

Lemma is_str_true (decision : Py.json) (s : string) :
  OrchestratorGraph.is_str decision s = true <-> decision = Py.JStr s.
Proof.
  destruct decision; cbn; try (split; [discriminate | congruence]).
  rewrite String.eqb_eq. split; congruence.
Qed.

Lemma is_str_false (decision : Py.json) (s : string) :
  decision <> Py.JStr s -> OrchestratorGraph.is_str decision s = false.
Proof.
  intros N. destruct (OrchestratorGraph.is_str decision s) eqn:E; [| reflexivity].
  apply is_str_true in E. contradiction.
Qed.

End RoutingFacts.

(** X29: after [_plan_node], [_route_after_plan] takes the edge "error"
    exactly when the planner raised; "no_tools" exactly when the plan is
    not comprehensive and none of the tools it proposes is loaded; and
    "execute_tools" exactly when the plan is comprehensive (be the four
    analyzers loaded or not) or proposes a loaded tool. *)
Theorem route_after_plan_cases
    (tools_by_name : gmap string PlanExecute.tool)
    (answer : PlanExecute.planner_outcome) (st : PlanExecute.state) :
  let route :=
    PlanExecute._route_after_plan (PlanExecute._plan_node tools_by_name answer st) in
  (route = "error" <-> exists e, answer = PlanExecute.PlannerRaised e)
  /\ (route = "no_tools"
      <-> exists p, answer = PlanExecute.Planned p
                    /\ PlanExecute.needs_comprehensive p = false
                    /\ forall t, In t (PlanExecute.plan_tools_to_call p) ->
                                 tools_by_name !! t = None)
  /\ (route = "execute_tools"
      <-> exists p, answer = PlanExecute.Planned p
                    /\ (PlanExecute.needs_comprehensive p = true
                        \/ exists t, In t (PlanExecute.plan_tools_to_call p)
                                     /\ is_Some (tools_by_name !! t))).
Proof.
  cbv zeta. destruct answer as [p | e].
  - unfold PlanExecute._route_after_plan, PlanExecute._plan_node.
    cbn [PlanExecute.exit_flag PlanExecute.tools_to_call].
    destruct (PlanExecute.needs_comprehensive p) eqn:C.
    + cbn. split; [| split].
      * split; [discriminate | intros (e & [=])].
      * split; [discriminate | intros (p' & [= <-] & C' & _); congruence].
      * split; [intros _; exists p; split; [reflexivity | left; exact C]
               | reflexivity].
    + destruct (List.filter _ (PlanExecute.plan_tools_to_call p)) as [|t ts] eqn:F.
      * assert (N : forall t, In t (PlanExecute.plan_tools_to_call p) ->
                              tools_by_name !! t = None).
        { intros t I. apply loaded_false. revert t I. apply filter_nil_iff. exact F. }
        split; [| split].
        -- split; [discriminate | intros (e & [=])].
        -- split; [| reflexivity]. intros _. exists p. repeat split; assumption.
        -- split; [discriminate |].
           intros (p' & [= <-] & [C' | (t & I & L)]); [congruence |].
           rewrite (N t I) in L. destruct L as [? [=]].
      * assert (I : In t (List.filter
                            (fun t => bool_decide (is_Some (tools_by_name !! t)))
                            (PlanExecute.plan_tools_to_call p)))
          by (rewrite F; left; reflexivity).
        apply List.filter_In in I as [I L]. apply bool_decide_eq_true in L.
        split; [| split].
        -- split; [discriminate | intros (e & [=])].
        -- split; [discriminate |]. intros (p' & [= <-] & _ & N).
           rewrite (N t I) in L. destruct L as [? [=]].
        -- split; [| reflexivity]. intros _. exists p.
           split; [reflexivity | right; exists t; split; assumption].
  - cbn. split; [| split].
    + split; [intros _; exists e; reflexivity | reflexivity].
    + split; [discriminate | intros (p & [=] & _)].
    + split; [discriminate | intros (p & [=] & _)].
Qed.

(** X30: the edges of the orchestrator graph by routing decision. "both"
    runs the pool-risk agent and then the token-intelligence agent;
    "token_intel" runs the token-intelligence agent alone; and every other
    decision, "pool_risk" or a value that is none of the three names (which
    [route_to_agents] treats as "both" and [check_token_intel_needed] does
    not), runs the pool-risk agent alone. The outputs are those of the nodes
    run in that order. *)
Theorem orchestrator_routes_by_decision
    (conns : gmap string Orchestrator.connection) (decision : Py.json)
    (synthesis : string) (st : Orchestrator.state) :
  (decision = Py.JStr "both" ->
   OrchestratorGraph.run_graph conns decision synthesis st
   = (["invoke_pool_risk"; "check_token_intel_needed"; "invoke_token_intel";
       "synthesize_results"; "finalize_output"],
      Orchestrator.run conns "both" synthesis st))
  /\ (decision = Py.JStr "token_intel" ->
      OrchestratorGraph.run_graph conns decision synthesis st
      = (["invoke_token_intel"; "synthesize_results"; "finalize_output"],
         Orchestrator.run conns "token_intel" synthesis st))
  /\ (decision <> Py.JStr "both" -> decision <> Py.JStr "token_intel" ->
      OrchestratorGraph.run_graph conns decision synthesis st
      = (["invoke_pool_risk"; "check_token_intel_needed"; "synthesize_results";
          "finalize_output"],
         Orchestrator.run conns "pool_risk" synthesis st)).
Proof.
  split; [| split].
  - intros ->. reflexivity.
  - intros ->. reflexivity.
  - intros Nb Nt. unfold OrchestratorGraph.run_graph, OrchestratorGraph.route_to_agents,
      OrchestratorGraph.from_pool_risk, OrchestratorGraph.check_token_intel_needed.
    rewrite (is_str_false _ _ Nb), (is_str_false _ _ Nt).
    destruct (OrchestratorGraph.is_str decision "pool_risk"); reflexivity.
Qed.

(** The run of a decision that is none of the three names: the
    token-intelligence agent, though discovered, is not asked. *)
Example orchestrator_unnamed_route :
  fst (OrchestratorGraph.run_graph token_only (Py.JStr "all") "summary" sample_query)
  = ["invoke_pool_risk"; "check_token_intel_needed"; "synthesize_results";
     "finalize_output"]
  /\ Orchestrator.out_risk_score
       <$> snd (OrchestratorGraph.run_graph token_only (Py.JStr "all") "summary"
                  sample_query)
     = Some 0%Q.
Proof. split; vm_compute; reflexivity. Qed.
